(** * commit-with-ai: the diff-collection and message-generation pipeline

    A shallow embedding of [AiCommitProvider] (the SDK-based provider:
    [getChangesDiff], [getFileDiff], [generateCommitMessage] and
    [addEmojiToCommitMessage]) together with the properties its
    specification states about it.

    JavaScript strings are sequences of UTF-16 code units; they are modelled
    as lists of code units.  Asynchronous host calls are modelled in a small
    monad that records the calls made and the messages shown, and that
    carries JavaScript exceptions. *)

From Stdlib Require Import String Ascii DecimalString.
From Stdlib Require Import List NArith Bool Lia QArith.
Import ListNotations.

Set Implicit Arguments.
Local Open Scope N_scope.
Local Open Scope list_scope.

(* ================================================================== *)
(** ** JavaScript strings *)

Module JsString.

(** A JavaScript string: its UTF-16 code units. *)
Definition jsstring := list N.

(** Code points of a UTF-8 byte sequence ([need] continuation bytes are
    still expected for the code point accumulated in [acc]).  Only used to
    write the string literals of the source, which are well formed. *)
Fixpoint utf8_points (bs : list N) (need : nat) (acc : N) : list N :=
  match bs with
  | [] => []
  | b :: bs' =>
      match need with
      | O =>
          if b <? 128 then b :: utf8_points bs' 0 0
          else if b <? 224 then utf8_points bs' 1 (N.land b 31)
          else if b <? 240 then utf8_points bs' 2 (N.land b 15)
          else utf8_points bs' 3 (N.land b 7)
      | S O => (acc * 64 + N.land b 63) :: utf8_points bs' 0 0
      | S n => utf8_points bs' n (acc * 64 + N.land b 63)
      end
  end.

(** UTF-16 encoding of one code point. *)
Definition utf16_units (cp : N) : list N :=
  if cp <? 65536 then [cp]
  else [55296 + (cp - 65536) / 1024; 56320 + (cp - 65536) mod 1024].

(** The JavaScript string denoted by a source literal. *)
Definition js (s : String.string) : jsstring :=
  flat_map utf16_units
    (utf8_points (map N_of_ascii (String.list_ascii_of_string s)) 0 0).

Definition LF : jsstring := [10].

Definition eqb (a b : jsstring) : bool :=
  if list_eq_dec N.eq_dec a b then true else false.

(** [s.startsWith(p)] on code units. *)
Fixpoint startsWith (s p : jsstring) : bool :=
  match p, s with
  | [], _ => true
  | _ :: _, [] => false
  | x :: p', y :: s' => (x =? y) && startsWith s' p'
  end.

(** [String.prototype.includes]. *)
Fixpoint includes (s sub : jsstring) : bool :=
  startsWith s sub ||
  match s with
  | [] => false
  | _ :: s' => includes s' sub
  end.

(** ECMAScript WhiteSpace and LineTerminator code points, the characters
    [String.prototype.trim] strips. *)
Definition isLineTerminator (c : N) : bool :=
  (c =? 10) || (c =? 13) || (c =? 8232) || (c =? 8233).

Definition isWhiteSpace (c : N) : bool :=
  (c =? 9) || (c =? 11) || (c =? 12) || (c =? 32) || (c =? 160) ||
  (c =? 5760) || ((8192 <=? c) && (c <=? 8202)) || (c =? 8239) ||
  (c =? 8287) || (c =? 12288) || (c =? 65279).

Definition isTrimmable (c : N) : bool := isWhiteSpace c || isLineTerminator c.

Fixpoint trimStart (s : jsstring) : jsstring :=
  match s with
  | [] => []
  | c :: s' => if isTrimmable c then trimStart s' else s
  end.

Definition trimEnd (s : jsstring) : jsstring := rev (trimStart (rev s)).

(** [String.prototype.trim]. *)
Definition trim (s : jsstring) : jsstring := trimEnd (trimStart s).

(** A string is truthy when it is not empty. *)
Definition truthy (s : jsstring) : bool :=
  match s with [] => false | _ :: _ => true end.

(** The code point at the start of a string, read as a regular expression
    with the [u] flag reads it: a high surrogate followed by a low surrogate
    is one code point. *)
Definition codePointAt0 (s : jsstring) : option N :=
  match s with
  | [] => None
  | hi :: rest =>
      if (55296 <=? hi) && (hi <=? 56319) then
        match rest with
        | lo :: _ =>
            if (56320 <=? lo) && (lo <=? 57343)
            then Some (65536 + (hi - 55296) * 1024 + (lo - 56320))
            else Some hi
        | [] => Some hi
        end
      else Some hi
  end.

End JsString.
Import JsString.

(* ================================================================== *)
(** ** The regular expressions of the source *)

Module Regex.

(** The Unicode [Emoji] property ([emoji-data.txt], Unicode 14.0) as
    inclusive code point ranges: the set [\p{Emoji}] denotes.  The set
    grows with the version of Unicode the engine carries: a later engine
    also takes the emoji added since (U+1FA75 to U+1FA77, for one) for
    emoji.  Digits, the number sign, the asterisk and the emoji of the
    type table are in the set in every version. *)
Definition Emoji_ranges : list (N * N) :=
  [
    (0x23, 0x23); (0x2A, 0x2A); (0x30, 0x39); (0xA9, 0xA9); (0xAE, 0xAE);
    (0x203C, 0x203C); (0x2049, 0x2049); (0x2122, 0x2122); (0x2139, 0x2139);
    (0x2194, 0x2199); (0x21A9, 0x21AA); (0x231A, 0x231B); (0x2328, 0x2328);
    (0x23CF, 0x23CF); (0x23E9, 0x23F3); (0x23F8, 0x23FA); (0x24C2, 0x24C2);
    (0x25AA, 0x25AB); (0x25B6, 0x25B6); (0x25C0, 0x25C0); (0x25FB, 0x25FE);
    (0x2600, 0x2604); (0x260E, 0x260E); (0x2611, 0x2611); (0x2614, 0x2615);
    (0x2618, 0x2618); (0x261D, 0x261D); (0x2620, 0x2620); (0x2622, 0x2623);
    (0x2626, 0x2626); (0x262A, 0x262A); (0x262E, 0x262F); (0x2638, 0x263A);
    (0x2640, 0x2640); (0x2642, 0x2642); (0x2648, 0x2653); (0x265F, 0x2660);
    (0x2663, 0x2663); (0x2665, 0x2666); (0x2668, 0x2668); (0x267B, 0x267B);
    (0x267E, 0x267F); (0x2692, 0x2697); (0x2699, 0x2699); (0x269B, 0x269C);
    (0x26A0, 0x26A1); (0x26A7, 0x26A7); (0x26AA, 0x26AB); (0x26B0, 0x26B1);
    (0x26BD, 0x26BE); (0x26C4, 0x26C5); (0x26C8, 0x26C8); (0x26CE, 0x26CF);
    (0x26D1, 0x26D1); (0x26D3, 0x26D4); (0x26E9, 0x26EA); (0x26F0, 0x26F5);
    (0x26F7, 0x26FA); (0x26FD, 0x26FD); (0x2702, 0x2702); (0x2705, 0x2705);
    (0x2708, 0x270D); (0x270F, 0x270F); (0x2712, 0x2712); (0x2714, 0x2714);
    (0x2716, 0x2716); (0x271D, 0x271D); (0x2721, 0x2721); (0x2728, 0x2728);
    (0x2733, 0x2734); (0x2744, 0x2744); (0x2747, 0x2747); (0x274C, 0x274C);
    (0x274E, 0x274E); (0x2753, 0x2755); (0x2757, 0x2757); (0x2763, 0x2764);
    (0x2795, 0x2797); (0x27A1, 0x27A1); (0x27B0, 0x27B0); (0x27BF, 0x27BF);
    (0x2934, 0x2935); (0x2B05, 0x2B07); (0x2B1B, 0x2B1C); (0x2B50, 0x2B50);
    (0x2B55, 0x2B55); (0x3030, 0x3030); (0x303D, 0x303D); (0x3297, 0x3297);
    (0x3299, 0x3299); (0x1F004, 0x1F004); (0x1F0CF, 0x1F0CF);
    (0x1F170, 0x1F171); (0x1F17E, 0x1F17F); (0x1F18E, 0x1F18E);
    (0x1F191, 0x1F19A); (0x1F1E6, 0x1F1FF); (0x1F201, 0x1F202);
    (0x1F21A, 0x1F21A); (0x1F22F, 0x1F22F); (0x1F232, 0x1F23A);
    (0x1F250, 0x1F251); (0x1F300, 0x1F321); (0x1F324, 0x1F393);
    (0x1F396, 0x1F397); (0x1F399, 0x1F39B); (0x1F39E, 0x1F3F0);
    (0x1F3F3, 0x1F3F5); (0x1F3F7, 0x1F4FD); (0x1F4FF, 0x1F53D);
    (0x1F549, 0x1F54E); (0x1F550, 0x1F567); (0x1F56F, 0x1F570);
    (0x1F573, 0x1F57A); (0x1F587, 0x1F587); (0x1F58A, 0x1F58D);
    (0x1F590, 0x1F590); (0x1F595, 0x1F596); (0x1F5A4, 0x1F5A5);
    (0x1F5A8, 0x1F5A8); (0x1F5B1, 0x1F5B2); (0x1F5BC, 0x1F5BC);
    (0x1F5C2, 0x1F5C4); (0x1F5D1, 0x1F5D3); (0x1F5DC, 0x1F5DE);
    (0x1F5E1, 0x1F5E1); (0x1F5E3, 0x1F5E3); (0x1F5E8, 0x1F5E8);
    (0x1F5EF, 0x1F5EF); (0x1F5F3, 0x1F5F3); (0x1F5FA, 0x1F64F);
    (0x1F680, 0x1F6C5); (0x1F6CB, 0x1F6D2); (0x1F6D5, 0x1F6D7);
    (0x1F6DD, 0x1F6E5); (0x1F6E9, 0x1F6E9); (0x1F6EB, 0x1F6EC);
    (0x1F6F0, 0x1F6F0); (0x1F6F3, 0x1F6FC); (0x1F7E0, 0x1F7EB);
    (0x1F7F0, 0x1F7F0); (0x1F90C, 0x1F93A); (0x1F93C, 0x1F945);
    (0x1F947, 0x1F9FF); (0x1FA70, 0x1FA74); (0x1FA78, 0x1FA7C);
    (0x1FA80, 0x1FA86); (0x1FA90, 0x1FAAC); (0x1FAB0, 0x1FABA);
    (0x1FAC0, 0x1FAC5); (0x1FAD0, 0x1FAD9); (0x1FAE0, 0x1FAE7);
    (0x1FAF0, 0x1FAF6)
  ].

Definition inRange (cp : N) (r : N * N) : bool :=
  (fst r <=? cp) && (cp <=? snd r).

Definition isEmoji (cp : N) : bool := existsb (inRange cp) Emoji_ranges.

(** [/^\p{Emoji}/u.test(s)] *)
Definition startsWithEmoji (s : jsstring) : bool :=
  match codePointAt0 s with
  | Some cp => isEmoji cp
  | None => false
  end.

(** [\w] without the [u] and [i] flags: [A-Za-z0-9_]. *)
Definition isWordChar (c : N) : bool :=
  ((97 <=? c) && (c <=? 122)) || ((65 <=? c) && (c <=? 90)) ||
  ((48 <=? c) && (c <=? 57)) || (c =? 95).

(** The longest prefix of word characters, and what follows it. *)
Fixpoint spanWord (s : jsstring) : jsstring * jsstring :=
  match s with
  | [] => ([], [])
  | c :: s' =>
      if isWordChar c
      then let (w, r) := spanWord s' in (c :: w, r)
      else ([], s)
  end.

(** [.*?\):] at the start of [s]: characters other than line terminators,
    up to a closing parenthesis that a colon follows. *)
Fixpoint scopeThenColon (s : jsstring) : bool :=
  match s with
  | [] => false
  | c :: s' =>
      ((c =? 41) && match s' with d :: _ => d =? 58 | [] => false end)
      || (negb (isLineTerminator c) && scopeThenColon s')
  end.

(** [s.match(/^(\w+)(\(.*?\))?:/)]: the first capture group when the
    pattern matches.  [\w+] is greedy, and no shorter run can match since
    the character after the run would be a word character, which is neither
    an opening parenthesis nor a colon. *)
Definition matchHeader (s : jsstring) : option jsstring :=
  let (w, rest) := spanWord s in
  match w with
  | [] => None
  | _ :: _ =>
      match rest with
      | [] => None
      | d :: rest' =>
          if d =? 58 then Some w
          else if (d =? 40) && scopeThenColon rest' then Some w
          else None
      end
  end.

End Regex.
Import Regex.

(* ================================================================== *)
(** ** Emoji annotation *)

Module Emoji.

(** The values a property read on [emojiMap] can yield. *)
Inductive jsvalue :=
| Undefined
| Str (s : jsstring)
| NativeFunction (name : jsstring)   (* a built-in function object *)
| ObjectPrototype.                   (* [Object.prototype] itself *)

(** The own properties of the object literal [emojiMap]. *)
Definition emojiMap : list (jsstring * jsstring) :=
  [ (js "feat", js "✨");
    (js "fix", js "🐛");
    (js "docs", js "📚");
    (js "style", js "💄");
    (js "refactor", js "♻️");
    (js "perf", js "⚡");
    (js "test", js "✅");
    (js "chore", js "🔧");
    (js "build", js "🏗️");
    (js "ci", js "🔄") ].

(** [emojiMap] is an object literal, so its prototype is
    [Object.prototype]: a property that is not its own is looked up there. *)
Definition Object_prototype : list (jsstring * jsvalue) :=
  [ (js "constructor", NativeFunction (js "Object"));
    (js "hasOwnProperty", NativeFunction (js "hasOwnProperty"));
    (js "isPrototypeOf", NativeFunction (js "isPrototypeOf"));
    (js "propertyIsEnumerable", NativeFunction (js "propertyIsEnumerable"));
    (js "toLocaleString", NativeFunction (js "toLocaleString"));
    (js "toString", NativeFunction (js "toString"));
    (js "valueOf", NativeFunction (js "valueOf"));
    (js "__defineGetter__", NativeFunction (js "__defineGetter__"));
    (js "__defineSetter__", NativeFunction (js "__defineSetter__"));
    (js "__lookupGetter__", NativeFunction (js "__lookupGetter__"));
    (js "__lookupSetter__", NativeFunction (js "__lookupSetter__"));
    (js "__proto__", ObjectPrototype) ].

Fixpoint assoc {V : Type} (k : jsstring) (l : list (jsstring * V)) : option V :=
  match l with
  | [] => None
  | (k', v) :: l' => if JsString.eqb k k' then Some v else assoc k l'
  end.

(** [emojiMap[key]] *)
Definition emojiMap_get (key : jsstring) : jsvalue :=
  match assoc key emojiMap with
  | Some s => Str s
  | None =>
      match assoc key Object_prototype with
      | Some v => v
      | None => Undefined
      end
  end.

Definition truthy (v : jsvalue) : bool :=
  match v with
  | Undefined => false
  | Str s => JsString.truthy s
  | NativeFunction _ => true
  | ObjectPrototype => true
  end.

(** [a || b] *)
Definition or_else (a b : jsvalue) : jsvalue := if truthy a then a else b.

(** String conversion in a template literal (the text of a built-in
    function is the one V8, the host's engine, produces). *)
Definition toString (v : jsvalue) : jsstring :=
  match v with
  | Undefined => js "undefined"
  | Str s => s
  | NativeFunction name => js "function " ++ name ++ js "() { [native code] }"
  | ObjectPrototype => js "[object Object]"
  end.

Definition addEmojiToCommitMessage (commitMessage type : jsstring) : jsstring :=
  if startsWithEmoji commitMessage then commitMessage
  else
    let emoji := or_else (emojiMap_get type) (Str (js "✨")) in
    toString emoji ++ js " " ++ commitMessage.

End Emoji.
Import Emoji.

(* ================================================================== *)
(** ** Exceptions, effects and the host *)

Module Host.

(** A value thrown by a host call, as far as the source inspects it:
    [error !== null], [instanceof Error], [typeof error === 'object'], and
    the [message] and [gitErrorCode] properties.  An [Error] instance
    always has a [message] (inherited from [Error.prototype] when it has
    none of its own).  [NonObject] is a primitive other than [null] and
    [undefined]; reading a property of these two throws, reading one of
    another primitive gives [undefined]. *)
Inductive thrown :=
| ErrorInstance (message : jsstring) (gitErrorCode : option jsstring)
| OtherObject (message : option jsstring) (gitErrorCode : option jsstring)
| NonObject
| ThrownNull
| ThrownUndefined.

(** The [message] of a thrown value that has properties. *)
Definition messageOf (e : thrown) : option jsstring :=
  match e with
  | ErrorInstance m _ => Some m
  | OtherObject m _ => m
  | NonObject | ThrownNull | ThrownUndefined => None
  end.

Definition gitErrorCodeOf (e : thrown) : option jsstring :=
  match e with
  | ErrorInstance _ c => c
  | OtherObject _ c => c
  | NonObject | ThrownNull | ThrownUndefined => None
  end.

Record Uri := { fsPath : jsstring }.

(** The request sent to the completion service. *)
Record ChatRequest := {
  model : jsstring;
  messages : list (jsstring * jsstring);   (* role, content *)
  max_tokens : N;
  temperature : Q
}.

(** The part of the completion response the source reads. *)
Record ChatCompletionMessage := { content : option jsstring }.
Record Choice := { message : option ChatCompletionMessage }.
Record ChatCompletion := { choices : list Choice }.

(** What a run does besides computing its result: the host calls it makes
    and what it shows or logs. *)
Inductive event :=
| FsStat (uri : Uri)
| FsReadFile (uri : Uri)
| RepoShow (uri : Uri) (ref : jsstring)
| RepoDiffWithHEAD (uri : Uri)
| ChatCompletionsCreate (request : ChatRequest)
| ConsoleWarn (text : jsstring)
| ConsoleError (text : jsstring) (error : thrown)
| ShowErrorMessage (text : jsstring)
| ShowWarningMessage (text : jsstring).

(** How a computation ends. *)
Inductive completion (A : Type) :=
| Return (a : A)
| Throw (e : thrown).
Arguments Return {A} a.
Arguments Throw {A} e.

(** A computation: the events of the run, in order, and its completion. *)
Definition M (A : Type) : Type := list event * completion A.

Definition ret {A} (a : A) : M A := ([], Return a).

Definition throw {A} (e : thrown) : M A := ([], Throw e).

Definition bind {A B} (m : M A) (k : A -> M B) : M B :=
  match m with
  | (l, Return a) => let (l', r) := k a in (l ++ l', r)
  | (l, Throw e) => (l, Throw e)
  end.

(** [try { m } catch (error) { h error }] *)
Definition try_catch {A} (m : M A) (h : thrown -> M A) : M A :=
  match m with
  | (l, Throw e) => let (l', r) := h e in (l ++ l', r)
  | (l, Return a) => (l, Return a)
  end.

Definition emit (ev : event) : M unit := ([ev], Return tt).

(** An awaited host call: recorded, then its value or its exception. *)
Definition call {A} (ev : event) (r : thrown + A) : M A :=
  ([ev], match r with inl e => Throw e | inr a => Return a end).

Definition events {A} (m : M A) : list event := fst m.
Definition outcome {A} (m : M A) : completion A := snd m.

(** The git extension's repository object. *)
Record Repository := {
  show : Uri -> jsstring -> thrown + jsstring;
  diffWithHEAD : Uri -> thrown + jsstring
}.

Record GitAPI := { repositories : list Repository }.

(** The OpenAI client: [chat.completions.create]. *)
Record OpenAI := {
  chat_completions_create : ChatRequest -> thrown + ChatCompletion
}.

(** The [vscode] namespace, as far as the provider uses it.  The host's
    answers are functions of their arguments: the workspace and the
    repository do not change during a run.  [Uri.file] and
    [asRelativePath] are taken to return for every path they are given.
    The host refuses some malformed paths (one that starts with four
    slashes, for instance) by throwing; for such a path the callback of
    [getChangesDiff] would log the error and warn the user.  These paths
    are outside what is stated here. *)
Record Vscode := {
  Uri_file : jsstring -> Uri;
  workspace_asRelativePath : jsstring -> jsstring;
  workspace_fs_stat : Uri -> thrown + unit;
  workspace_fs_readFile : Uri -> thrown + list Byte.byte;
  TextDecoder_decode : list Byte.byte -> jsstring
}.

End Host.
Import Host.

Declare Scope js_scope.
Delimit Scope js_scope with js.
Notation "x <- m ;; k" := (bind m (fun x => k))
  (at level 61, m at next level, right associativity) : js_scope.
Notation "m ;; k" := (bind m (fun _ => k))
  (at level 61, right associativity) : js_scope.
Local Open Scope js_scope.

(* ================================================================== *)
(** ** The provider *)

Module AiCommitProvider.

(** The fields of an [AiCommitProvider] after its constructor ran:
    [openai] is set when an API key was found in the settings or in the
    environment, [gitExtension] when the git extension was found. *)
Record t := {
  openai : option OpenAI;
  gitExtension : option GitAPI
}.

(** [initOpenAI]: the key of the settings, else the one of the environment;
    without a key no client is created (and a warning is logged). *)
Definition initOpenAI (newOpenAI : jsstring -> OpenAI)
  (configured environment : option jsstring) : option OpenAI :=
  let apiKey :=
    match configured with
    | Some k => if JsString.truthy k then Some k else environment
    | None => environment
    end in
  match apiKey with
  | Some k => if JsString.truthy k then Some (newOpenAI k) else None
  | None => None
  end.

(** The constructor: [extension] is the API of the [vscode.git] extension
    when the host has it. *)
Definition construct (newOpenAI : jsstring -> OpenAI)
  (configured environment : option jsstring) (extension : option GitAPI) : t :=
  {| openai := initOpenAI newOpenAI configured environment;
     gitExtension := extension |}.

Definition isGitError (error : thrown) : bool :=
  match error with
  | ErrorInstance _ _ => true
  | OtherObject m c =>
      (match c with Some _ => true | None => false end)
      || (match m with Some _ => true | None => false end)
  | NonObject | ThrownNull | ThrownUndefined => false
  end.

Definition codeIs (error : thrown) (code : jsstring) : bool :=
  match gitErrorCodeOf error with
  | Some c => JsString.eqb c code
  | None => false
  end.

Definition messageIncludes (error : thrown) (sub : jsstring) : bool :=
  match messageOf error with
  | Some m => includes m sub
  | None => false
  end.

(** The condition under which [getFileDiff] treats a failed [repo.show] as
    a file that git does not know. *)
Definition isNotTracked (error : thrown) : bool :=
  isGitError error &&
  (codeIs error (js "NotAGitRepository")
   || codeIs error (js "UnknownPath")
   || messageIncludes error (js "did not match any file(s) known to git")).

(** [getFileDiff].  The inner blocks yield [Some r] when they [return r]
    and [None] when control goes on after them. *)
Definition getFileDiff (vscode : Vscode) (repo : Repository) (uri : Uri)
  : M (option jsstring) :=
  try_catch
    (exists_ <-
       try_catch
         (_ <- call (FsStat uri) (workspace_fs_stat vscode uri) ;;
          ret None)
         (fun error =>
            emit (ConsoleWarn
                    (js "File " ++ fsPath uri
                     ++ js " does not exist or cannot be accessed")) ;;
            ret (Some None)) ;;
     match exists_ with
     | Some r => ret r
     | None =>
         tracked <-
           try_catch
             (_ <- call (RepoShow uri (js "HEAD")) (show repo uri (js "HEAD")) ;;
              ret None)
             (fun error =>
                if isNotTracked error then
                  try_catch
                    (content <- call (FsReadFile uri)
                                  (workspace_fs_readFile vscode uri) ;;
                     ret (Some (Some (js "+++ New file" ++ LF
                                      ++ TextDecoder_decode vscode content))))
                    (fun readError =>
                       emit (ConsoleError
                               (js "Error reading new file " ++ fsPath uri
                                ++ js ":") readError) ;;
                       ret (Some None))
                else ret None) ;;
         match tracked with
         | Some r => ret r
         | None =>
             diff <- call (RepoDiffWithHEAD uri) (diffWithHEAD repo uri) ;;
             ret (Some diff)
         end
     end)
    (fun error =>
       emit (ConsoleError
               (js "Error getting diff for file " ++ fsPath uri ++ js ":")
               error) ;;
       ret None).

(** An entry of [results]: [{ path, diff }]. *)
Record FileDiff := { path : jsstring; diff : jsstring }.

(** The callback [getChangesDiff] maps over [filePaths]. *)
Definition diffPromise (vscode : Vscode) (repo : Repository)
  (filePath : jsstring) : M (option FileDiff) :=
  try_catch
    (let uri := Uri_file vscode filePath in
     let fileRelativePath := workspace_asRelativePath vscode filePath in
     diff <- getFileDiff vscode repo uri ;;
     match diff with
     | Some d =>
         if JsString.truthy d
         then ret (Some {| path := fileRelativePath; diff := d |})
         else ret None
     | None => ret None
     end)
    (fun error =>
       emit (ConsoleError
               (js "Error getting diff for file " ++ filePath ++ js ":")
               error) ;;
       emit (ShowWarningMessage
               (js "파일 " ++ filePath
                ++ js "의 변경 사항을 가져오는 중 오류가 발생했습니다.")) ;;
       ret None).

(** [Promise.all(filePaths.map(f))]: the results in input order.  The
    callbacks run interleaved at their awaits; the events of each are listed
    together, file after file. *)
Fixpoint promiseAll {A B} (f : A -> M B) (l : list A) : M (list B) :=
  match l with
  | [] => ret []
  | a :: l' =>
      b <- f a ;;
      bs <- promiseAll f l' ;;
      ret (b :: bs)
  end.

(** The loop that builds [allDiffs]. *)
Definition appendResult (allDiffs : jsstring) (result : option FileDiff)
  : jsstring :=
  match result with
  | Some r =>
      allDiffs ++ (LF ++ js "--- " ++ path r ++ js " ---" ++ LF
                   ++ diff r ++ LF)
  | None => allDiffs
  end.

Definition getChangesDiff (this : t) (vscode : Vscode)
  (filePaths : list jsstring) : M jsstring :=
  let allDiffs : jsstring := [] in
  match gitExtension this with
  | None =>
      let error := ErrorInstance (js "Git extension not initialized") None in
      emit (ShowErrorMessage
              (js "Git 확장이 초기화되지 않았습니다. VS Code를 재시작해보세요.")) ;;
      throw error
  | Some git =>
      match repositories git with
      | [] =>
          let error := ErrorInstance (js "No Git repository found") None in
          emit (ShowErrorMessage
                  (js "Git 저장소를 찾을 수 없습니다. 현재 워크스페이스가 Git 저장소인지 확인하세요.")) ;;
          throw error
      | repo :: _ =>
          match filePaths with
          | [] => ret []
          | _ :: _ =>
              results <- promiseAll (diffPromise vscode repo) filePaths ;;
              ret (fold_left appendResult results allDiffs)
          end
      end
  end.

(** The prompt: a template literal around the diff. *)
Definition promptFor (diffContent : jsstring) : jsstring :=
  js "
You are a helpful assistant that generates concise and informative Git commit messages based on code changes.
Analyze the following git diff and create a commit message that follows the Conventional Commits format.

The format should be:
<type>[optional scope]: <description>

[optional body]

Where type is one of:
- feat: A new feature
- fix: A bug fix
- docs: Documentation changes
- style: Code style changes (formatting, missing semi colons, etc)
- refactor: Code changes that neither fix bugs nor add features
- perf: Performance improvements
- test: Adding or updating tests
- chore: Changes to the build process, tooling, etc

Add an appropriate GitHub emoji at the beginning of the commit message.
Common GitHub emojis include:
- ✨ (sparkles) for new features
- 🐛 (bug) for bug fixes
- 📚 (books) for documentation
- 💄 (lipstick) for style changes
- ♻️ (recycle) for refactoring
- ⚡ (zap) for performance improvements
- ✅ (white_check_mark) for tests
- 🔧 (wrench) for configuration changes

Here is the diff:
```
" ++ diffContent ++ js "
```

Generate a concise and informative commit message based on these changes.
".

Definition requestFor (prompt : jsstring) : ChatRequest :=
  {| model := js "gpt-4";
     messages :=
       [ (js "system",
          js "You are a helpful assistant that generates git commit messages.");
         (js "user", prompt) ];
     max_tokens := 200;
     temperature := (5 # 10)%Q |}.

(** The message returned when the completion has no text, and when the
    completion call fails. *)
Definition defaultCommitMessage : jsstring :=
  js "✨ feat: implement requested changes".

(** [response.choices[0]?.message?.content?.trim()] *)
Definition firstCompletionText (response : ChatCompletion) : option jsstring :=
  match choices response with
  | [] => None
  | choice :: _ =>
      match message choice with
      | None => None
      | Some m =>
          match content m with
          | None => None
          | Some c => Some (trim c)
          end
      end
  end.

(** [x || defaultCommitMessage] for an optional string [x]. *)
Definition orDefault (x : option jsstring) : jsstring :=
  match x with
  | Some s => if JsString.truthy s then s else defaultCommitMessage
  | None => defaultCommitMessage
  end.

(** What the [try] block does with a response. *)
Definition postProcess (response : ChatCompletion) : jsstring :=
  let commitMessage := orDefault (firstCompletionText response) in
  let typeMatch := matchHeader commitMessage in
  let type := match typeMatch with Some w => w | None => js "feat" end in
  addEmojiToCommitMessage commitMessage type.

(** The message the [catch] block shows for a thrown value. *)
Definition failureNotice (error : thrown) : jsstring :=
  match error with
  | ErrorInstance message _ =>
      if includes message (js "API key") then
        js "OpenAI API 키가 유효하지 않거나 만료되었습니다. 설정에서 API 키를 확인해주세요."
      else if includes message (js "network") then
        js "네트워크 오류가 발생했습니다. 인터넷 연결을 확인해주세요."
      else if includes message (js "timeout") then
        js "API 요청 시간이 초과되었습니다. 나중에 다시 시도해주세요."
      else
        js "AI 커밋 메시지 생성 실패: " ++ message
  | _ => js "AI 커밋 메시지 생성에 실패했습니다."
  end.

Definition generateCommitMessage (this : t) (diffContent : jsstring)
  : M jsstring :=
  match openai this with
  | None =>
      throw (ErrorInstance
               (js "OpenAI API is not initialized. Please set your API key in settings.")
               None)
  | Some client =>
      try_catch
        (let prompt := promptFor diffContent in
         let request := requestFor prompt in
         response <- call (ChatCompletionsCreate request)
                       (chat_completions_create client request) ;;
         ret (postProcess response))
        (fun error =>
           emit (ConsoleError (js "Error generating commit message with AI:")
                   error) ;;
           emit (ShowErrorMessage (failureNotice error)) ;;
           ret defaultCommitMessage)
  end.

End AiCommitProvider.
Import AiCommitProvider.

(* ================================================================== *)
(** ** Notions used to state the properties *)

Module Props.

(** The value [getFileDiff] settles to, read off the host's answers. *)
Definition fileDiffOf (vscode : Vscode) (repo : Repository) (uri : Uri)
  : option jsstring :=
  match workspace_fs_stat vscode uri with
  | inl _ => None
  | inr _ =>
      let fromHead :=
        match diffWithHEAD repo uri with
        | inl _ => None
        | inr d => Some d
        end in
      match show repo uri (js "HEAD") with
      | inr _ => fromHead
      | inl e =>
          if isNotTracked e then
            match workspace_fs_readFile vscode uri with
            | inl _ => None
            | inr bytes =>
                Some (js "+++ New file" ++ LF ++ TextDecoder_decode vscode bytes)
            end
          else fromHead
      end
  end.

(** The entry of [results] for a path: present when the file has a diff
    that is not the empty string. *)
Definition resultOf (vscode : Vscode) (repo : Repository) (filePath : jsstring)
  : option FileDiff :=
  match fileDiffOf vscode repo (Uri_file vscode filePath) with
  | Some d =>
      if JsString.truthy d
      then Some {| path := workspace_asRelativePath vscode filePath; diff := d |}
      else None
  | None => None
  end.

(** The entries of the files that produced a diff, in input order. *)
Definition producedDiffs (vscode : Vscode) (repo : Repository)
  (filePaths : list jsstring) : list FileDiff :=
  flat_map
    (fun p => match resultOf vscode repo p with Some r => [r] | None => [] end)
    filePaths.

(** The section of the composite for one file, as the source writes it. *)
Definition section (r : FileDiff) : jsstring :=
  LF ++ js "--- " ++ path r ++ js " ---" ++ LF ++ diff r ++ LF.

(** The section of the composite as the specification words it. *)
Definition spec_section (r : FileDiff) : jsstring :=
  js "--- " ++ path r ++ js " ---" ++ LF ++ diff r ++ LF.

(** The file exists, and an error other than the not-tracked condition
    ends its retrieval: reading the new file fails, or [diffWithHEAD] does. *)
Definition failsWithError (vscode : Vscode) (repo : Repository) (uri : Uri)
  : bool :=
  match workspace_fs_stat vscode uri with
  | inl _ => false
  | inr _ =>
      let diffFails :=
        match diffWithHEAD repo uri with inl _ => true | inr _ => false end in
      match show repo uri (js "HEAD") with
      | inr _ => diffFails
      | inl e =>
          if isNotTracked e then
            match workspace_fs_readFile vscode uri with
            | inl _ => true
            | inr _ => false
            end
          else diffFails
      end
  end.

Definition isShowWarning (ev : event) : bool :=
  match ev with ShowWarningMessage _ => true | _ => false end.

Definition isHostDiffRequest (ev : event) : bool :=
  match ev with
  | FsStat _ | FsReadFile _ | RepoShow _ _ | RepoDiffWithHEAD _ => true
  | _ => false
  end.

(** The categories of a failed completion call. *)
Inductive category := Credential | Network | Timeout | Other.

(** Classification by the text of the error. *)
Definition classify (error : thrown) : category :=
  match error with
  | ErrorInstance message _ =>
      if includes message (js "API key") then Credential
      else if includes message (js "network") then Network
      else if includes message (js "timeout") then Timeout
      else Other
  | _ => Other
  end.

(** The message of each category. *)
Definition categoryNotice (c : category) (error : thrown) : jsstring :=
  match c with
  | Credential =>
      js "OpenAI API 키가 유효하지 않거나 만료되었습니다. 설정에서 API 키를 확인해주세요."
  | Network => js "네트워크 오류가 발생했습니다. 인터넷 연결을 확인해주세요."
  | Timeout => js "API 요청 시간이 초과되었습니다. 나중에 다시 시도해주세요."
  | Other =>
      match error with
      | ErrorInstance message _ => js "AI 커밋 메시지 생성 실패: " ++ message
      | _ => js "AI 커밋 메시지 생성에 실패했습니다."
      end
  end.

(** What it means for [/^(\w+)(\(.*?\))?:/] to match [s] with first group
    [w]: [s] is [w], then nothing or a parenthesis, characters other than
    line terminators and a closing parenthesis, then a colon. *)
Definition HeaderMatch (s w : jsstring) : Prop :=
  w <> [] /\ forallb isWordChar w = true /\
  exists scope rest,
    s = w ++ scope ++ 58 :: rest /\
    (scope = [] \/
     exists body,
       scope = 40 :: body ++ [41] /\
       forallb (fun c => negb (isLineTerminator c)) body = true).




(** ASCII digit, number sign or asterisk. *)
Definition isKeycapBase (c : N) : bool :=
  ((48 <=? c) && (c <=? 57)) || (c =? 35) || (c =? 42).

End Props.
Import Props.

Arguments js : simpl never.

(* ================================================================== *)
(** ** Sample hosts *)

Module Samples.

Definition uriOf (p : jsstring) : Uri := {| fsPath := p |}.

Definition bytesOf (s : String.string) : list Byte.byte :=
  map Ascii.byte_of_ascii (String.list_ascii_of_string s).

(** A decoder for ASCII content. *)
Definition decodeAscii (bs : list Byte.byte) : jsstring :=
  map (fun b => N_of_ascii (Ascii.ascii_of_byte b)) bs.

Definition ioError : thrown := ErrorInstance (js "EIO: i/o error") None.

Definition unknownPath : thrown :=
  ErrorInstance (js "path is not in the repository") (Some (js "UnknownPath")).

(** A workspace: [a.ts] and [b.ts] are tracked and changed; [new.ts] is
    not tracked; [dir] is not tracked and cannot be read; [gone.ts] does
    not exist; for any other path, such as [broken.ts], git knows the file
    and its diff fails. *)
Definition sampleVscode : Vscode :=
  {| Uri_file := uriOf;
     workspace_asRelativePath := fun p => p;
     workspace_fs_stat := fun u =>
       if JsString.eqb (fsPath u) (js "gone.ts") then inl ioError else inr tt;
     workspace_fs_readFile := fun u =>
       if JsString.eqb (fsPath u) (js "new.ts")
       then inr (bytesOf "let x = 1;")
       else inl ioError;
     TextDecoder_decode := decodeAscii |}.

Definition sampleRepo : Repository :=
  {| show := fun u _ =>
       if JsString.eqb (fsPath u) (js "new.ts") then inl unknownPath
       else if JsString.eqb (fsPath u) (js "dir") then inl unknownPath
       else inr (js "old");
     diffWithHEAD := fun u =>
       if JsString.eqb (fsPath u) (js "a.ts") then inr (js "+a")
       else if JsString.eqb (fsPath u) (js "b.ts") then inr (js "-b")
       else inl ioError |}.

Definition sampleGit : GitAPI := {| repositories := [sampleRepo] |}.

Definition clientReturning (text : option jsstring) : OpenAI :=
  {| chat_completions_create := fun _ =>
       inr {| choices := [ {| message := Some {| content := text |} |} ] |} |}.

Definition clientThrowing (e : thrown) : OpenAI :=
  {| chat_completions_create := fun _ => inl e |}.

Definition providerWith (client : option OpenAI) (git : option GitAPI)
  : AiCommitProvider.t :=
  {| openai := client; gitExtension := git |}.

End Samples.
Import Samples.

(* ================================================================== *)
(** ** The view and the commands: effects and host *)

Module Ui.

(** Decimal text of an array index or length. *)
Definition decimal (n : nat) : jsstring :=
  map N_of_ascii
    (list_ascii_of_string (NilEmpty.string_of_uint (Nat.to_uint n))).

(** A literal of the page template.  The template is full of double
    quotes; in these literals the section sign stands for the double
    quote. *)
Definition jsq (s : string) : jsstring :=
  map (fun c => if c =? 167 then 34 else c) (js s).

(** What the view and the commands do, besides what the provider does. *)
Inductive uiEvent :=
| Base (ev : event)
| ConsoleLog (text : jsstring) (args : list jsstring)
| ConsoleErrorText (text : jsstring)
| ShowInformationMessage (text : jsstring)
| HostCommand (command : jsstring)
| SetInputBoxValue (value : jsstring)
| GitExtensionActivate
| RegisterWebviewViewProvider (viewType : jsstring)
| RegisterCommand (command : jsstring)
| Subscribe (what : jsstring).

(** A repository of the git extension with its state: the files changed
    in the working tree, by [uri]. *)
Record ScmRepository := {
  api : Repository;
  workingTreeChanges : list Uri
}.

(** [gitExtension.exports.getAPI(1)] *)
Record GitExports := {
  version : jsstring;
  scmRepositories : list ScmRepository
}.

(** [vscode.extensions.getExtension('vscode.git')].  [activate_] is what
    [gitExtension.activate()] settles to.  [exports_getAPI] is what
    [gitExtension.exports.getAPI(1)] gives: the API, or the message of the
    [Error] it throws (the git extension throws one when git is disabled,
    and reading [getAPI] of exports that are not there is a TypeError). *)
Record GitExtension := {
  isActive : bool;
  activate_ : thrown + unit;
  exports_getAPI : jsstring + GitExports
}.

(** The host as the view and the commands use it.  Registering a view
    provider or a command can throw (the host refuses an identifier that
    is registered already); a built-in command can reject with any
    value. *)
Record UiHost := {
  vscode : Vscode;
  extensions_getExtension_git : option GitExtension;
  window_registerWebviewViewProvider : jsstring -> thrown + unit;
  commands_registerCommand : jsstring -> thrown + unit;
  commands_builtin : jsstring -> thrown + unit;
  configuration_openaiApiKey : option jsstring;
  env_OPENAI_API_KEY : option jsstring;
  newOpenAI : jsstring -> OpenAI;
  extensionUri : Uri
}.

(** The API object the provider keeps. *)
Definition gitApiOf (git : GitExports) : GitAPI :=
  {| repositories := map api (scmRepositories git) |}.

(** [gitExtension.exports.getAPI(1)] as a call that returns or throws. *)
Definition getAPI (gitExtension : GitExtension) : thrown + GitExports :=
  match exports_getAPI gitExtension with
  | inl message => inl (ErrorInstance message None)
  | inr git => inr git
  end.

(** The text of [error.message] in a template literal, for a thrown value
    that has properties: a thrown object without a message, and a thrown
    primitive, show as undefined. *)
Definition errorMessageText (error : thrown) : jsstring :=
  match messageOf error with
  | Some m => m
  | None => js "undefined"
  end.

(** [error.message] where [error] is what a [catch] caught.  Reading a
    property of [null] or of [undefined] throws a TypeError, with the
    engine's wording. *)
Definition error_message (error : thrown) : thrown + jsstring :=
  match error with
  | ThrownNull =>
      inl (ErrorInstance
             (js "Cannot read properties of null (reading 'message')") None)
  | ThrownUndefined =>
      inl (ErrorInstance
             (js "Cannot read properties of undefined (reading 'message')")
             None)
  | _ => inr (errorMessageText error)
  end.

(** Computations of the activation: events and completion. *)
Definition C (A : Type) : Type := list uiEvent * completion A.

Definition cret {A} (a : A) : C A := ([], Return a).
Definition cthrow {A} (e : thrown) : C A := ([], Throw e).
Definition cemit (ev : uiEvent) : C unit := ([ev], Return tt).
Definition ccall {A} (ev : uiEvent) (r : thrown + A) : C A :=
  ([ev], match r with inl e => Throw e | inr a => Return a end).
(** An expression that has a value or throws, and does nothing else. *)
Definition cvalue {A} (r : thrown + A) : C A :=
  ([], match r with inl e => Throw e | inr a => Return a end).
Definition cbind {A B} (m : C A) (k : A -> C B) : C B :=
  match m with
  | (l, Return a) => let (l', r) := k a in (l ++ l', r)
  | (l, Throw e) => (l, Throw e)
  end.
Definition ctry {A} (m : C A) (h : thrown -> C A) : C A :=
  match m with
  | (l, Throw e) => let (l', r) := h e in (l ++ l', r)
  | (l, Return a) => (l, Return a)
  end.

(** [array.map((x, index) => f(x, index))] from index [i] on. *)
Fixpoint mapIndexed {A B} (f : A -> nat -> B) (l : list A) (i : nat) : list B :=
  match l with
  | [] => []
  | a :: l' => f a i :: mapIndexed f l' (S i)
  end.

End Ui.
Import Ui.

Declare Scope comp_scope.
Delimit Scope comp_scope with comp.
Notation "x <- m ;; k" := (cbind m (fun x => k))
  (at level 61, m at next level, right associativity) : comp_scope.
Notation "m ;; k" := (cbind m (fun _ => k))
  (at level 61, right associativity) : comp_scope.

Declare Scope ui_scope.
Delimit Scope ui_scope with ui.

(* ================================================================== *)
(** ** The view *)

Module CommitViewProvider.

Record ChangedFile := { path : jsstring; selected : bool }.

(** The webview of the view, as far as the provider writes to it. *)
Record WebviewView := {
  html : jsstring;
  enableScripts : bool;
  localResourceRoots : list Uri
}.

(** The fields of a [CommitViewProvider]. *)
Record t := {
  _view : option WebviewView;
  _extensionUri : Uri;
  _commitMessage : jsstring;
  _diffContent : jsstring;
  _changedFiles : list ChangedFile;
  provider : option AiCommitProvider.t
}.

Definition viewType : jsstring := js "aiCommitView".

(** The constructor. *)
Definition new (extensionUri : Uri) : t :=
  {| _view := None;
     _extensionUri := extensionUri;
     _commitMessage := [];
     _diffContent := [];
     _changedFiles := [];
     provider := None |}.

Definition set_view (this : t) (v : option WebviewView) : t :=
  {| _view := v;
     _extensionUri := _extensionUri this;
     _commitMessage := _commitMessage this;
     _diffContent := _diffContent this;
     _changedFiles := _changedFiles this;
     provider := provider this |}.

Definition set_content (this : t) (commitMessage diffContent : jsstring) : t :=
  {| _view := _view this;
     _extensionUri := _extensionUri this;
     _commitMessage := commitMessage;
     _diffContent := diffContent;
     _changedFiles := _changedFiles this;
     provider := provider this |}.

Definition set_changedFiles (this : t) (files : list ChangedFile) : t :=
  {| _view := _view this;
     _extensionUri := _extensionUri this;
     _commitMessage := _commitMessage this;
     _diffContent := _diffContent this;
     _changedFiles := files;
     provider := provider this |}.

Definition set_provider (this : t) (p : option AiCommitProvider.t) : t :=
  {| _view := _view this;
     _extensionUri := _extensionUri this;
     _commitMessage := _commitMessage this;
     _diffContent := _diffContent this;
     _changedFiles := _changedFiles this;
     provider := p |}.

(** A method: from the fields before the call, the events of the call, the
    fields after it and its completion.  Fields written before an
    exception stay written. *)
Definition U (A : Type) : Type := t -> list uiEvent * (t * completion A).

Definition uret {A} (a : A) : U A := fun this => ([], (this, Return a)).
Definition uthrow {A} (e : thrown) : U A := fun this => ([], (this, Throw e)).
Definition uemit (ev : uiEvent) : U unit :=
  fun this => ([ev], (this, Return tt)).
Definition ucall {A} (ev : uiEvent) (r : thrown + A) : U A :=
  fun this =>
    ([ev], (this, match r with inl e => Throw e | inr a => Return a end)).
Definition uvalue {A} (r : thrown + A) : U A :=
  fun this =>
    ([], (this, match r with inl e => Throw e | inr a => Return a end)).
Definition uget : U t := fun this => ([], (this, Return this)).
Definition umodify (f : t -> t) : U unit :=
  fun this => ([], (f this, Return tt)).
Definition ubind {A B} (m : U A) (k : A -> U B) : U B :=
  fun this =>
    match m this with
    | (l, (this', Return a)) => let (l', r) := k a this' in (l ++ l', r)
    | (l, (this', Throw e)) => (l, (this', Throw e))
    end.
Definition utry {A} (m : U A) (h : thrown -> U A) : U A :=
  fun this =>
    match m this with
    | (l, (this', Throw e)) => let (l', r) := h e this' in (l ++ l', r)
    | (l, (this', Return a)) => (l, (this', Return a))
    end.

(** A call of a method of the provider. *)
Definition ofProvider {A} (m : M A) : U A :=
  fun this => (map Base (fst m), (this, snd m)).

Notation "x <- m ;; k" := (ubind m (fun x => k))
  (at level 61, m at next level, right associativity) : ui_scope.
Notation "m ;; k" := (ubind m (fun _ => k))
  (at level 61, right associativity) : ui_scope.
Local Open Scope ui_scope.

Definition registerProvider (p : AiCommitProvider.t) : U unit :=
  uemit (ConsoleLog (js "CommitViewProvider: registerProvider 호출됨") []) ;;
  umodify (fun this => set_provider this (Some p)) ;;
  this <- uget ;;
  uemit (ConsoleLog (js "CommitViewProvider: provider 등록 완료")
           [match provider this with
            | Some _ => js "성공"
            | None => js "실패"
            end]).

(** One entry of the list of changed files. *)
Definition fileItemHtml (file : ChangedFile) (index : nat) : jsstring :=
  jsq "
              <div class=§file-item§>
                <input type=§checkbox§ id=§file-"
  ++ decimal index
  ++ jsq "§ data-path=§"
  ++ path file
  ++ jsq "§ "
  ++ (if selected file then js "checked" else [])
  ++ jsq ">
                <label for=§file-"
  ++ decimal index
  ++ jsq "§>"
  ++ path file
  ++ jsq "</label>
              </div>
            ".

(** [_getHtmlForWebview] *)
Definition _getHtmlForWebview (this : t) : jsstring :=
  let changedFilesHtml :=
    match _changedFiles this with
    | _ :: _ =>
        jsq "
        <div class=§files-container§>
          <h3>변경된 파일</h3>
          <div class=§file-list§>
            "
        ++ concat (mapIndexed fileItemHtml (_changedFiles this) 0)
        ++ jsq "
          </div>
          <div class=§button-container§>
            <button id=§generate-button§>AI가 커밋 작성</button>
            <button id=§refresh-button§>새로고침</button>
          </div>
        </div>
      "
    | [] =>
        jsq "
        <div class=§empty-state§>
          <p>변경된 파일이 없습니다. 파일을 수정한 후 새로고침 버튼을 클릭하세요.</p>
          <button id=§refresh-button§>새로고침</button>
        </div>
      "
    end in
  let commitMessageHtml :=
    if JsString.truthy (_commitMessage this) then
      jsq "
        <h3>AI 생성 커밋 메시지</h3>
        <div class=§message-container§>
          <textarea id=§commit-message§>"
  ++ _commitMessage this
  ++ jsq "</textarea>
        </div>
        <div class=§button-container§>
          <button id=§apply-button§>적용</button>
          <button id=§regenerate-button§>재생성</button>
        </div>
        <h4>변경 내용 (Diff)</h4>
        <div class=§diff-container§>
          <pre>"
  ++ _diffContent this
  ++ jsq "</pre>
        </div>
      "
    else [] in
  jsq "<!DOCTYPE html>
    <html lang=§ko§>
    <head>
      <meta charset=§UTF-8§>
      <meta name=§viewport§ content=§width=device-width, initial-scale=1.0§>
      <title>AI 커밋 메시지</title>
      <style>
        body {
          font-family: var(--vscode-font-family);
          padding: 10px;
          color: var(--vscode-editor-foreground);
        }
        .container {
          display: flex;
          flex-direction: column;
          height: 100%;
        }
        .message-container {
          margin-bottom: 15px;
        }
        textarea {
          width: 100%;
          height: 120px;
          resize: vertical;
          background-color: var(--vscode-input-background);
          color: var(--vscode-input-foreground);
          border: 1px solid var(--vscode-input-border);
          padding: 8px;
        }
        .button-container {
          display: flex;
          gap: 8px;
          margin: 10px 0;
        }
        button {
          padding: 6px 12px;
          background-color: var(--vscode-button-background);
          color: var(--vscode-button-foreground);
          border: none;
          cursor: pointer;
        }
        .empty-state {
          text-align: center;
          padding: 30px;
          color: var(--vscode-descriptionForeground);
        }
        .files-container {
          margin-bottom: 20px;
        }
        .file-list {
          max-height: 200px;
          overflow-y: auto;
          border: 1px solid var(--vscode-input-border);
          padding: 8px;
          margin-bottom: 10px;
        }
        .file-item {
          display: flex;
          align-items: center;
          margin-bottom: 5px;
        }
        .file-item label {
          margin-left: 5px;
          cursor: pointer;
        }
      </style>
    </head>
    <body>
      <div class=§container§>
        "
  ++ changedFilesHtml
  ++ jsq "
        "
  ++ commitMessageHtml
  ++ jsq "
      </div>
      <script>
        const vscode = acquireVsCodeApi();
        
        document.addEventListener('DOMContentLoaded', () => {
          const commitMessageElement = document.getElementById('commit-message');
          const applyButton = document.getElementById('apply-button');
          const regenerateButton = document.getElementById('regenerate-button');
          const generateButton = document.getElementById('generate-button');
          const refreshButton = document.getElementById('refresh-button');
          
          if (applyButton) {
            applyButton.addEventListener('click', () => {
              const message = commitMessageElement.value;
              vscode.postMessage({
                command: 'applyCommit',
                message
              });
            });
          }
          
          if (regenerateButton) {
            regenerateButton.addEventListener('click', () => {
              vscode.postMessage({
                command: 'regenerate'
              });
            });
          }

          if (generateButton) {
            generateButton.addEventListener('click', () => {
              const checkboxes = document.querySelectorAll('input[type=§checkbox§]');
              const selectedFiles = Array.from(checkboxes)
                .filter(checkbox => checkbox.checked)
                .map(checkbox => checkbox.getAttribute('data-path'));
              
              vscode.postMessage({
                command: 'generateCommit',
                selectedFiles
              });
            });
          }

          if (refreshButton) {
            refreshButton.addEventListener('click', () => {
              vscode.postMessage({
                command: 'refreshFiles'
              });
            });
          }
        });
      </script>
    </body>
    </html>".

(** [_updateWebview] *)
Definition _updateWebview : U unit :=
  umodify (fun this =>
    match _view this with
    | None => this
    | Some webviewView =>
        set_view this
          (Some {| html := _getHtmlForWebview this;
                   enableScripts := enableScripts webviewView;
                   localResourceRoots := localResourceRoots webviewView |})
    end).

Definition updateContent (commitMessage diffContent : jsstring) : U unit :=
  umodify (fun this => set_content this commitMessage diffContent) ;;
  _updateWebview.

Definition _loadChangedFiles (host : UiHost) : U unit :=
  utry
    (uemit (ConsoleLog (js "CommitViewProvider: _loadChangedFiles 호출됨") []) ;;
     this <- uget ;;
     match provider this with
     | None =>
         uemit (ConsoleErrorText
                  (js "CommitViewProvider: provider가 등록되지 않았습니다.")) ;;
         uemit (Base (ShowErrorMessage
                        (js "보기 데이터를 제공할 수 있는 등록된 데이터 공급자가 없습니다.")))
     | Some _ =>
         uemit (ConsoleLog (js "CommitViewProvider: provider 확인됨") []) ;;
         match extensions_getExtension_git host with
         | None => uthrow (ErrorInstance (js "Git extension not found") None)
         | Some gitExtension =>
             git <- uvalue (getAPI gitExtension) ;;
             match scmRepositories git with
             | [] => uthrow (ErrorInstance (js "No Git repository found") None)
             | repo :: _ =>
                 let changes := workingTreeChanges repo in
                 umodify (fun this =>
                   set_changedFiles this
                     (map (fun change =>
                             {| path := workspace_asRelativePath (vscode host)
                                          (fsPath change);
                                selected := true |})
                        changes)) ;;
                 _updateWebview
             end
         end
     end)
    (fun error =>
       text <- uvalue (error_message error) ;;
       uemit (Base (ShowErrorMessage
                      (js "변경된 파일 목록을 가져오는 중 오류가 발생했습니다: "
                       ++ text))) ;;
       uemit (Base (ConsoleError (js "Error loading changed files:") error))).

Definition refreshChangedFiles (host : UiHost) : U unit :=
  _loadChangedFiles host.

Definition _applyCommitMessage (host : UiHost) (message : jsstring) : U unit :=
  utry
    (match extensions_getExtension_git host with
     | None => uthrow (ErrorInstance (js "Git extension not found") None)
     | Some gitExtension =>
         git <- uvalue (getAPI gitExtension) ;;
         match scmRepositories git with
         | [] => uthrow (ErrorInstance (js "No Git repository found") None)
         | repo :: _ =>
             uemit (SetInputBoxValue message) ;;
             uemit (ShowInformationMessage
                      (js "커밋 메시지가 적용되었습니다. Git 인터페이스에서 확인하세요."))
         end
     end)
    (fun error =>
       text <- uvalue (error_message error) ;;
       uemit (Base (ShowErrorMessage
                      (js "커밋 메시지 적용 중 오류가 발생했습니다: " ++ text))) ;;
       uemit (Base (ConsoleError (js "Error applying commit message:") error))).

(** [executeCommand] is [vscode.commands.executeCommand]. *)
Definition _regenerateCommitMessage (executeCommand : jsstring -> U unit)
  : U unit :=
  utry
    (uemit (ShowInformationMessage (js "커밋 메시지를 재생성 중입니다...")) ;;
     executeCommand (js "commit-with-ai.generateCommitMessage"))
    (fun error =>
       text <- uvalue (error_message error) ;;
       uemit (Base (ShowErrorMessage
                      (js "커밋 메시지 재생성 중 오류가 발생했습니다: " ++ text))) ;;
       uemit (Base (ConsoleError (js "Error regenerating commit message:")
                      error))).

Definition _generateCommitWithSelectedFiles (host : UiHost)
  (selectedFiles : list jsstring) : U unit :=
  utry
    (this <- uget ;;
     match provider this with
     | None =>
         uthrow (ErrorInstance (js "AiCommitProvider가 등록되지 않았습니다.") None)
     | Some p =>
         match selectedFiles with
         | [] =>
             uemit (Base (ShowWarningMessage
                            (js "선택된 파일이 없습니다. 파일을 선택해주세요.")))
         | _ :: _ =>
             uemit (ShowInformationMessage
                      (js "선택한 파일로 커밋 메시지를 생성 중입니다...")) ;;
             diffContent <-
               ofProvider (getChangesDiff p (vscode host) selectedFiles) ;;
             commitMessage <-
               ofProvider (generateCommitMessage p diffContent) ;;
             updateContent commitMessage diffContent
         end
     end)
    (fun error =>
       text <- uvalue (error_message error) ;;
       uemit (Base (ShowErrorMessage
                      (js "커밋 메시지 생성 중 오류가 발생했습니다: " ++ text))) ;;
       uemit (Base (ConsoleError
                      (js "Error generating commit message with selected files:")
                      error))).

(** What the page posts to the extension. *)
Inductive WebviewMessage :=
| ApplyCommit (message : jsstring)
| Regenerate
| GenerateCommit (selectedFiles : list jsstring)
| RefreshFiles
| OtherCommand (command : jsstring).

(** The listener [resolveWebviewView] registers. *)
Definition onDidReceiveMessage (host : UiHost)
  (executeCommand : jsstring -> U unit) (message : WebviewMessage) : U unit :=
  match message with
  | ApplyCommit m => _applyCommitMessage host m
  | Regenerate => _regenerateCommitMessage executeCommand
  | GenerateCommit selectedFiles =>
      _generateCommitWithSelectedFiles host selectedFiles
  | RefreshFiles => _loadChangedFiles host
  | OtherCommand _ => uret tt
  end.

(** A call of an async method that is not awaited.  The method has no
    await, so it has run to its end when the call returns; what it throws
    rejects a promise that nobody reads, and is not thrown to the caller. *)
Definition unawaited (m : U unit) : U unit :=
  utry m (fun _ => uret tt).

(** [resolveWebviewView] *)
Definition resolveWebviewView (host : UiHost) (webviewView : WebviewView)
  : U unit :=
  umodify (fun this =>
    set_view this
      (Some {| html := html webviewView;
               enableScripts := true;
               localResourceRoots := [_extensionUri this] |})) ;;
  unawaited (_loadChangedFiles host) ;;
  _updateWebview.

End CommitViewProvider.

(* ================================================================== *)
(** ** Activation and commands *)

Module Extension.

Import CommitViewProvider.
Local Open Scope ui_scope.

(** [new AiCommitProvider(context)]: [initGitExtension], then
    [initOpenAI], with what they log.  [initGitExtension] has no [try]:
    when [getAPI] throws, so does the constructor. *)
Definition newAiCommitProvider (host : UiHost) : C AiCommitProvider.t :=
  (gitExtension <-
     match extensions_getExtension_git host with
     | Some gitExtension =>
         git <- cvalue (getAPI gitExtension) ;;
         cret (Some (gitApiOf git))
     | None =>
         cemit (ConsoleErrorText (js "Git extension not found")) ;;
         cret None
     end ;;
   let client :=
     initOpenAI (newOpenAI host) (configuration_openaiApiKey host)
       (env_OPENAI_API_KEY host) in
   match client with
   | Some _ => cret tt
   | None =>
       cemit (Base (ConsoleWarn
                      (js "OpenAI API key not found. Please set it in settings or as environment variable.")))
   end ;;
   cret {| openai := client; gitExtension := gitExtension |})%comp.

(** A built-in command of the host. *)
Definition hostCommand (host : UiHost) (command : jsstring) : U unit :=
  ucall (HostCommand command) (commands_builtin host command).

Definition focusView : jsstring :=
  js "workbench.view.extension." ++ viewType.

(** The handler of [commit-with-ai.refreshFiles]. *)
Definition refreshFilesCommand (host : UiHost) : U unit :=
  utry
    (refreshChangedFiles host ;;
     uemit (ShowInformationMessage (js "변경된 파일 목록을 새로고침했습니다.")))
    (fun error =>
       text <- uvalue (error_message error) ;;
       uemit (Base (ShowErrorMessage
                      (js "파일 목록 새로고침 중 오류가 발생했습니다: " ++ text))) ;;
       uemit (Base (ConsoleError (js "Error refreshing files:") error))).

(** The handler of [commit-with-ai.generateWithSelected]. *)
Definition generateWithSelectedCommand (host : UiHost)
  (aiCommitProvider : AiCommitProvider.t) (fileUris : option (list Uri))
  : U unit :=
  utry
    (match fileUris with
     | None | Some [] =>
         uemit (Base (ShowWarningMessage
                        (js "선택된 파일이 없습니다. 파일을 선택한 후 다시 시도해주세요.")))
     | Some (uri :: uris) =>
         let selectedFiles := map fsPath (uri :: uris) in
         diffContent <-
           ofProvider (getChangesDiff aiCommitProvider (vscode host)
                         selectedFiles) ;;
         if negb (JsString.truthy diffContent)
            || JsString.eqb (trim diffContent) []
         then
           uemit (Base (ShowWarningMessage
                          (js "선택된 파일에 변경 사항이 없습니다.")))
         else
           commitMessage <-
             ofProvider (generateCommitMessage aiCommitProvider diffContent) ;;
           updateContent commitMessage diffContent ;;
           hostCommand host focusView ;;
           uemit (ShowInformationMessage
                    (js "선택한 파일로 AI 커밋 메시지가 생성되었습니다."))
     end)
    (fun error =>
       text <- uvalue (error_message error) ;;
       uemit (Base (ShowErrorMessage
                      (js "커밋 메시지 생성 중 오류가 발생했습니다: " ++ text))) ;;
       uemit (Base (ConsoleError
                      (js "Error generating commit message with selected files:")
                      error))).

(** The handler of [commit-with-ai.generateCommitMessage]. *)
Definition generateCommitCommand (host : UiHost) : U unit :=
  utry
    (hostCommand host focusView ;;
     refreshChangedFiles host ;;
     uemit (ShowInformationMessage
              (jsq "파일을 선택하고 §AI가 커밋 작성§ 버튼을 클릭하세요.")))
    (fun error =>
       text <- uvalue (error_message error) ;;
       uemit (Base (ShowErrorMessage
                      (js "커밋 메시지 생성 중 오류가 발생했습니다: " ++ text))) ;;
       uemit (Base (ConsoleError (js "Error generating commit message:") error))).

(** [vscode.commands.executeCommand] once the three commands are
    registered: a registered command runs its handler, any other command is
    the host's. *)
Definition executeCommand (host : UiHost)
  (aiCommitProvider : AiCommitProvider.t) (command : jsstring)
  (fileUris : option (list Uri)) : U unit :=
  if JsString.eqb command (js "commit-with-ai.refreshFiles")
  then refreshFilesCommand host
  else if JsString.eqb command (js "commit-with-ai.generateWithSelected")
  then generateWithSelectedCommand host aiCommitProvider fileUris
  else if JsString.eqb command (js "commit-with-ai.generateCommitMessage")
  then generateCommitCommand host
  else hostCommand host command.

(** What a successful activation leaves: the provider and the view. *)
Record Activation := {
  aiCommitProvider : AiCommitProvider.t;
  commitViewProvider : CommitViewProvider.t
}.

(** [activate], up to the end of its [try] block. *)
Definition activateTry (host : UiHost) : C Activation :=
  (match extensions_getExtension_git host with
   | None =>
       cemit (ConsoleErrorText (js "Git extension is not available")) ;;
       cthrow (ErrorInstance (js "Git extension is not available") None)
   | Some gitExtension =>
       (if isActive gitExtension then cret tt
        else
          cemit (ConsoleLog (js "Waiting for Git extension to activate") []) ;;
          ccall GitExtensionActivate (activate_ gitExtension) ;;
          cemit (ConsoleLog (js "Git extension activated successfully") [])) ;;
       git <- cvalue (getAPI gitExtension) ;;
       cemit (ConsoleLog (js "Git API 버전:") [version git]) ;;
       let repositories := scmRepositories git in
       cemit (ConsoleLog (js "Git 저장소 수:") [decimal (length repositories)]) ;;
       (match repositories with
        | [] =>
            cemit (Base (ConsoleWarn
                           (js "현재 워크스페이스에 Git 저장소가 없습니다."))) ;;
            cemit (Base (ShowWarningMessage
                           (js "현재 워크스페이스에 Git 저장소가 없습니다. Git 저장소를 열어주세요.")))
        | _ :: _ => cret tt
        end) ;;
       cemit (ConsoleLog (js "AiCommitProvider 초기화 중...") []) ;;
       aiCommitProvider <- newAiCommitProvider host ;;
       cemit (ConsoleLog (js "AiCommitProvider 초기화 완료") []) ;;
       cemit (ConsoleLog (js "CommitViewProvider 초기화 중...") []) ;;
       let commitViewProvider := CommitViewProvider.new (extensionUri host) in
       cemit (ConsoleLog (js "CommitViewProvider 초기화 완료") []) ;;
       ccall (RegisterWebviewViewProvider viewType)
         (window_registerWebviewViewProvider host viewType) ;;
       cemit (Subscribe viewType) ;;
       cemit (ConsoleLog (js "aiCommitProvider 등록 중...") []) ;;
       let registered := registerProvider aiCommitProvider commitViewProvider in
       (fst registered, Return tt) ;;
       cemit (ConsoleLog (js "aiCommitProvider 등록 완료") []) ;;
       cret {| aiCommitProvider := aiCommitProvider;
               commitViewProvider := fst (snd registered) |}
   end)%comp.

(** [vscode.commands.registerCommand(command, handler)] *)
Definition registerCommand (host : UiHost) (command : jsstring) : C unit :=
  ccall (RegisterCommand command) (commands_registerCommand host command).

(** [activate]: nothing when the [try] block failed, else the provider and
    the view, after the three commands are registered.  The commands are
    registered after the [try] block, outside it; in the [catch] the error
    is logged before its message is read. *)
Definition activate (host : UiHost) : C (option Activation) :=
  (cemit (ConsoleLog (js "Activating commit-with-ai extension") []) ;;
   result <-
     ctry (a <- activateTry host ;; cret (Some a))
       (fun error =>
          cemit (Base (ConsoleError (js "Error during extension activation:")
                         error)) ;;
          text <- cvalue (error_message error) ;;
          cemit (Base (ShowErrorMessage
                         (js "Failed to activate commit-with-ai extension: "
                          ++ text))) ;;
          cret None) ;;
   match result with
   | None => cret None
   | Some a =>
       registerCommand host (js "commit-with-ai.refreshFiles") ;;
       registerCommand host (js "commit-with-ai.generateWithSelected") ;;
       registerCommand host (js "commit-with-ai.generateCommitMessage") ;;
       cemit (Subscribe (js "commit-with-ai.generateCommitMessage")) ;;
       cemit (Subscribe (js "commit-with-ai.refreshFiles")) ;;
       cemit (Subscribe (js "commit-with-ai.generateWithSelected")) ;;
       cret (Some a)
   end)%comp.

(** The listener of the page, with the commands of the activation. *)
Definition onMessage (host : UiHost) (a : Activation)
  (message : WebviewMessage) : U unit :=
  onDidReceiveMessage host
    (fun command => executeCommand host (aiCommitProvider a) command None)
    message.

End Extension.

(* ================================================================== *)
(** ** The provider over raw HTTP *)

(** The other [AiCommitProvider] of the repository: it asks the
    repository for the diff of the index and posts the completion request
    itself. *)
Module RawHttp.

(** The repository, as this provider uses it. *)
Record IndexRepository := {
  diffIndexWithHEAD : jsstring -> thrown + jsstring
}.

(** The body and the headers of the request. *)
Record PostRequest := {
  url : jsstring;
  post_model : jsstring;
  post_messages : list (jsstring * jsstring);
  post_temperature : Q;
  post_max_tokens : N;
  contentType : jsstring;
  authorization : jsstring
}.

(** [response.data]: the choices, each with its message, each message
    with its content, any of which can be missing. *)
Record AxiosResponse := {
  data_choices : option (list (option (option jsstring)))
}.

Record RawHost := {
  raw_vscode : Vscode;
  aiCommitGenerator_openaiApiKey : option jsstring;
  raw_env_OPENAI_API_KEY : option jsstring;
  axios_post : PostRequest -> thrown + AxiosResponse
}.

(** What is caught: a thrown value, or the TypeError of reading a property
    of a missing part of the response. *)
Inductive failure :=
| Thrown (e : thrown)
| TypeError.

Inductive rawEvent :=
| DiffIndexWithHEAD (relativePath : jsstring)
| AxiosPost (request : PostRequest)
| RawConsoleError (text : jsstring) (cause : failure).

(** [getFileDiff]; a [Uri] is made relative like its path. *)
Definition getFileDiff (host : RawHost) (repo : IndexRepository) (uri : Uri)
  : list rawEvent * option jsstring :=
  let relativePath := workspace_asRelativePath (raw_vscode host) (fsPath uri) in
  match diffIndexWithHEAD repo relativePath with
  | inr result => ([DiffIndexWithHEAD relativePath], Some result)
  | inl error =>
      ([DiffIndexWithHEAD relativePath;
        RawConsoleError
          (js "파일 " ++ relativePath ++ js "의 diff를 가져오는 중 오류 발생:")
          (Thrown error)],
       None)
  end.

(** One turn of the loop of [getChangesDiff].  Its [catch] is not
    reached: [getFileDiff] catches the errors of the repository itself. *)
Definition step (host : RawHost) (repo : IndexRepository)
  (acc : list rawEvent * jsstring) (filePath : jsstring)
  : list rawEvent * jsstring :=
  let (log, allDiffs) := acc in
  let uri := Uri_file (raw_vscode host) filePath in
  let fileRelativePath := workspace_asRelativePath (raw_vscode host) filePath in
  let (log', diff) := getFileDiff host repo uri in
  (log ++ log',
   match diff with
   | Some d =>
       if JsString.truthy d
       then allDiffs ++ (LF ++ js "--- " ++ fileRelativePath ++ js " ---" ++ LF
                         ++ d ++ LF)
       else allDiffs
   | None => allDiffs
   end).

Definition getChangesDiff (host : RawHost) (repo : IndexRepository)
  (filePaths : list jsstring) : list rawEvent * jsstring :=
  fold_left (step host repo) filePaths ([], []).

Definition requestFor (apiKey diffContent : jsstring) : PostRequest :=
  {| url := js "https://api.openai.com/v1/chat/completions";
     post_model := js "gpt-3.5-turbo";
     post_messages :=
       [ (js "system",
          js "당신은 Git 커밋 메시지를 작성하는 전문가입니다. 코드 변경 사항을 분석하고 적절한 GitHub 이모티콘과 함께 간결하고 명확한 커밋 메시지를 생성해주세요. 메시지는 제목 줄과 본문으로 구성되어야 합니다.");
         (js "user",
          js "다음 코드 변경 사항에 대한 커밋 메시지를 작성해주세요:" ++ LF ++ LF
          ++ diffContent) ];
     post_temperature := (7 # 10)%Q;
     post_max_tokens := 500;
     contentType := js "application/json";
     authorization := js "Bearer " ++ apiKey |}.

(** [config.get('openaiApiKey') || process.env.OPENAI_API_KEY], when it is
    truthy. *)
Definition apiKeyOf (host : RawHost) : option jsstring :=
  let apiKey :=
    match aiCommitGenerator_openaiApiKey host with
    | Some k => if JsString.truthy k then Some k else raw_env_OPENAI_API_KEY host
    | None => raw_env_OPENAI_API_KEY host
    end in
  match apiKey with
  | Some k => if JsString.truthy k then Some k else None
  | None => None
  end.

(** [response.data.choices[0].message.content]: the string, or the
    TypeError of the first missing part. *)
Definition firstContent (response : AxiosResponse) : option jsstring :=
  match data_choices response with
  | Some (Some (Some content) :: _) => Some content
  | _ => None
  end.

(** The error every failure is replaced with. *)
Definition generationError : thrown :=
  ErrorInstance (js "AI 커밋 메시지를 생성하는 중 오류가 발생했습니다.") None.

Definition caught (cause : failure) : list rawEvent :=
  [RawConsoleError (js "커밋 메시지 생성 중 오류 발생:") cause].

Definition generateCommitMessage (host : RawHost) (diffContent : jsstring)
  : list rawEvent * completion jsstring :=
  match apiKeyOf host with
  | None =>
      (caught (Thrown (ErrorInstance
                         (js "OpenAI API 키가 설정되지 않았습니다.") None)),
       Throw generationError)
  | Some apiKey =>
      let request := requestFor apiKey diffContent in
      match axios_post host request with
      | inl error =>
          (AxiosPost request :: caught (Thrown error), Throw generationError)
      | inr response =>
          match firstContent response with
          | Some content => ([AxiosPost request], Return (trim content))
          | None => (AxiosPost request :: caught TypeError, Throw generationError)
          end
      end
  end.

Definition isPost (ev : rawEvent) : bool :=
  match ev with AxiosPost _ => true | _ => false end.



End RawHttp.

(* ================================================================== *)
(** ** Notions about the view, and a sample host *)

Module ViewProps.

Import CommitViewProvider.

(** Every listed file is selected. *)
Definition allSelected (this : CommitViewProvider.t) : Prop :=
  Forall (fun file => selected file = true) (_changedFiles this).

(** The page, when there is one, is the rendering of the current fields. *)
Definition inSync (this : CommitViewProvider.t) : Prop :=
  match _view this with
  | Some webviewView => html webviewView = _getHtmlForWebview this
  | None => True
  end.

(** The message and the diff on display are those of [a]. *)
Definition sameContent (a b : CommitViewProvider.t) : Prop :=
  _commitMessage b = _commitMessage a /\ _diffContent b = _diffContent a.

Definition isCompletionEvent (ev : uiEvent) : bool :=
  match ev with
  | Base (ChatCompletionsCreate _) => true
  | _ => false
  end.

Definition isRegistration (ev : uiEvent) : bool :=
  match ev with
  | RegisterWebviewViewProvider _ | RegisterCommand _ => true
  | _ => false
  end.

Definition isInputBoxWrite (ev : uiEvent) : bool :=
  match ev with SetInputBoxValue _ => true | _ => false end.

(** A completion request, if any, is for a diff that is not blank. *)
Definition requestsNonBlank (ev : uiEvent) : Prop :=
  match ev with
  | Base (ChatCompletionsCreate request) =>
      exists diffContent,
        request = requestFor (promptFor diffContent) /\ trim diffContent <> []
  | _ => True
  end.

Definition isCommandRegistration (ev : uiEvent) : bool :=
  match ev with RegisterCommand _ => true | _ => false end.

(** What the [catch] of [activate] catches, when the [try] block does not
    run to its end: the git extension is missing, its activation fails,
    [getAPI] throws, or the view provider is refused. *)
Definition activationError (host : UiHost) : option thrown :=
  match extensions_getExtension_git host with
  | None => Some (ErrorInstance (js "Git extension is not available") None)
  | Some gitExtension =>
      match (if isActive gitExtension then inr tt else activate_ gitExtension)
      with
      | inl e => Some e
      | inr _ =>
          match getAPI gitExtension with
          | inl e => Some e
          | inr _ =>
              match window_registerWebviewViewProvider host viewType with
              | inl e => Some e
              | inr _ => None
              end
          end
      end
  end.

(** What the first refused command registration throws, if one is
    refused. *)
Definition registrationError (host : UiHost) : option thrown :=
  match commands_registerCommand host (js "commit-with-ai.refreshFiles") with
  | inl e => Some e
  | inr _ =>
      match commands_registerCommand host
              (js "commit-with-ai.generateWithSelected") with
      | inl e => Some e
      | inr _ =>
          match commands_registerCommand host
                  (js "commit-with-ai.generateCommitMessage") with
          | inl e => Some e
          | inr _ => None
          end
      end
  end.

(** The first repository of the git extension, if any. *)
Definition firstRepository (host : UiHost) : option ScmRepository :=
  match extensions_getExtension_git host with
  | None => None
  | Some gitExtension =>
      match getAPI gitExtension with
      | inl _ => None
      | inr git => hd_error (scmRepositories git)
      end
  end.

(** A thrown value whose properties can be read. *)
Definition hasProperties (e : thrown) : Prop :=
  e <> ThrownNull /\ e <> ThrownUndefined.

(** A method throws nothing but values of which [P] holds. *)
Definition throwsOnly {A : Type} (P : thrown -> Prop) (m : U A) : Prop :=
  forall this e, snd (snd (m this)) = Throw e -> P e.

(** What a method guarantees: [R] between the fields before and after,
    and [Q] of every event. *)
Definition satisfies {A : Type}
  (R : CommitViewProvider.t -> CommitViewProvider.t -> Prop)
  (Q : uiEvent -> Prop) (m : U A) : Prop :=
  forall this, R this (fst (snd (m this))) /\ Forall Q (fst (m this)).

(** A method returns, whatever the fields. *)
Definition returns {A : Type} (m : U A) : Prop :=
  forall this, exists a, snd (snd (m this)) = Return a.

Definition sampleGitExports : GitExports :=
  {| version := js "1";
     scmRepositories :=
       [ {| api := sampleRepo;
            workingTreeChanges := [uriOf (js "a.ts"); uriOf (js "b.ts")] |} ] |}.

Definition sampleUiHost : UiHost :=
  {| vscode := sampleVscode;
     extensions_getExtension_git :=
       Some {| isActive := true;
               activate_ := inr tt;
               exports_getAPI := inr sampleGitExports |};
     window_registerWebviewViewProvider := fun _ => inr tt;
     commands_registerCommand := fun _ => inr tt;
     commands_builtin := fun _ => inr tt;
     configuration_openaiApiKey := Some (js "sk-sample");
     env_OPENAI_API_KEY := None;
     newOpenAI := fun _ => clientReturning (Some (js "fix: typo"));
     extensionUri := uriOf (js "/extension") |}.

(** The sample host without the git extension. *)
Definition hostWithoutGit : UiHost :=
  {| vscode := sampleVscode;
     extensions_getExtension_git := None;
     window_registerWebviewViewProvider := fun _ => inr tt;
     commands_registerCommand := fun _ => inr tt;
     commands_builtin := fun _ => inr tt;
     configuration_openaiApiKey := Some (js "sk-sample");
     env_OPENAI_API_KEY := None;
     newOpenAI := fun _ => clientReturning (Some (js "fix: typo"));
     extensionUri := uriOf (js "/extension") |}.


(** A host whose git extension is not active yet and whose activation
    rejects with undefined. *)
Definition hostRejectingActivation : UiHost :=
  {| vscode := sampleVscode;
     extensions_getExtension_git :=
       Some {| isActive := false;
               activate_ := inl ThrownUndefined;
               exports_getAPI := inr sampleGitExports |};
     window_registerWebviewViewProvider := fun _ => inr tt;
     commands_registerCommand := fun _ => inr tt;
     commands_builtin := fun _ => inr tt;
     configuration_openaiApiKey := Some (js "sk-sample");
     env_OPENAI_API_KEY := None;
     newOpenAI := fun _ => clientReturning (Some (js "fix: typo"));
     extensionUri := uriOf (js "/extension") |}.

Definition commandExists : thrown :=
  ErrorInstance (js "command already exists") None.

(** The sample host when the commands are registered already. *)
Definition hostWithCommands : UiHost :=
  {| vscode := sampleVscode;
     extensions_getExtension_git := extensions_getExtension_git sampleUiHost;
     window_registerWebviewViewProvider := fun _ => inr tt;
     commands_registerCommand := fun _ => inl commandExists;
     commands_builtin := fun _ => inr tt;
     configuration_openaiApiKey := Some (js "sk-sample");
     env_OPENAI_API_KEY := None;
     newOpenAI := fun _ => clientReturning (Some (js "fix: typo"));
     extensionUri := uriOf (js "/extension") |}.

(** The sample host when git is disabled: the extension is there and
    active, and [getAPI] throws. *)
Definition hostWithGitDisabled : UiHost :=
  {| vscode := sampleVscode;
     extensions_getExtension_git :=
       Some {| isActive := true;
               activate_ := inr tt;
               exports_getAPI := inl (js "Git model not found") |};
     window_registerWebviewViewProvider := fun _ => inr tt;
     commands_registerCommand := fun _ => inr tt;
     commands_builtin := fun _ => inr tt;
     configuration_openaiApiKey := Some (js "sk-sample");
     env_OPENAI_API_KEY := None;
     newOpenAI := fun _ => clientReturning (Some (js "fix: typo"));
     extensionUri := uriOf (js "/extension") |}.

Definition sampleProvider : AiCommitProvider.t :=
  construct (newOpenAI sampleUiHost) (Some (js "sk-sample")) None
    (Some (gitApiOf sampleGitExports)).

(** A view with the sample provider registered and no page yet. *)
Definition sampleView : CommitViewProvider.t :=
  set_provider (CommitViewProvider.new (uriOf (js "/extension")))
    (Some sampleProvider).

(** The same view once its page is resolved. *)
Definition samplePage : WebviewView :=
  {| html := []; enableScripts := true;
     localResourceRoots := [uriOf (js "/extension")] |}.

Definition resolvedView : CommitViewProvider.t :=
  set_view sampleView (Some samplePage).

End ViewProps.
Import ViewProps.

(* ================================================================== *)
(** ** Further notions: requests and the edges of a string *)

Module Requests.

(** The file a host request is about. *)
Definition eventUri (ev : event) : option Uri :=
  match ev with
  | FsStat u | FsReadFile u | RepoShow u _ | RepoDiffWithHEAD u => Some u
  | _ => None
  end.

Definition isCompletionRequest (ev : event) : bool :=
  match ev with ChatCompletionsCreate _ => true | _ => false end.

(** The first character is not one that [trim] strips. *)
Definition headOk (s : jsstring) : bool :=
  match s with
  | [] => false
  | c :: _ => negb (isTrimmable c)
  end.

(** The last character is not one that [trim] strips. *)
Definition lastOk (s : jsstring) : bool := headOk (rev s).

End Requests.
Import Requests.

(* ================================================================== *)
(** ** Evaluating the model *)

Example js_ascii : js "fix" = [102; 105; 120].
Proof. vm_compute. reflexivity. Qed.

Example js_sparkles : js "✨" = [10024].
Proof. vm_compute. reflexivity. Qed.

Example js_bug : js "🐛" = [55357; 56347].
Proof. vm_compute. reflexivity. Qed.

Example js_recycle : js "♻️" = [9851; 65039].
Proof. vm_compute. reflexivity. Qed.

Example js_hangul : js "가" = [44032].
Proof. vm_compute. reflexivity. Qed.

Example trim_example : trim (js "  fix: a b " ++ LF) = js "fix: a b".
Proof. vm_compute. reflexivity. Qed.

Example codePoint_bug : codePointAt0 (js "🐛 x") = Some 128027.
Proof. vm_compute. reflexivity. Qed.

Example header_fix :
  matchHeader (js "fix(parser): correct off-by-one") = Some (js "fix").
Proof. vm_compute. reflexivity. Qed.

Example header_plain : matchHeader (js "docs: update readme") = Some (js "docs").
Proof. vm_compute. reflexivity. Qed.

Example header_none : matchHeader (js "Update the readme") = None.
Proof. vm_compute. reflexivity. Qed.

Example header_emoji_first : matchHeader (js "✨ feat: add x") = None.
Proof. vm_compute. reflexivity. Qed.

Example emoji_digit : startsWithEmoji (js "123: bump version") = true.
Proof. vm_compute. reflexivity. Qed.

Example emoji_letter : startsWithEmoji (js "fix: x") = false.
Proof. vm_compute. reflexivity. Qed.

Example addEmoji_fix :
  addEmojiToCommitMessage (js "fix(parser): correct off-by-one") (js "fix")
  = js "🐛 fix(parser): correct off-by-one".
Proof. vm_compute. reflexivity. Qed.

Example addEmoji_unknown :
  addEmojiToCommitMessage (js "wip: x") (js "wip") = js "✨ wip: x".
Proof. vm_compute. reflexivity. Qed.

Example addEmoji_constructor :
  addEmojiToCommitMessage (js "constructor: x") (js "constructor")
  = js "function Object() { [native code] } constructor: x".
Proof. vm_compute. reflexivity. Qed.

(* ================================================================== *)
(** ** Computations: general facts *)

Lemma outcome_bind {A B : Type} (m : M A) (k : A -> M B) (a : A) :
  outcome m = Return a -> outcome (bind m k) = outcome (k a).
Proof.
  destruct m as [l c]; simpl; intros ->.
  unfold bind. destruct (k a); reflexivity.
Qed.

Lemma events_bind {A B : Type} (m : M A) (k : A -> M B) (a : A) :
  outcome m = Return a -> events (bind m k) = events m ++ events (k a).
Proof.
  destruct m as [l c]; simpl; intros ->.
  unfold bind. destruct (k a); reflexivity.
Qed.

Lemma try_catch_return {A : Type} (m : M A) (h : thrown -> M A) (a : A) :
  outcome m = Return a -> try_catch m h = m.
Proof.
  destruct m as [l c]; simpl; intros ->. reflexivity.
Qed.

Section Computations.

Context {A B : Type}.

Lemma promiseAll_outcome (f : A -> M B) (g : A -> B) (l : list A) :
  (forall a, outcome (f a) = Return (g a)) ->
  outcome (promiseAll f l) = Return (map g l).
Proof.
  intros Hf. induction l as [|a l IH]; [reflexivity|].
  simpl promiseAll.
  rewrite (outcome_bind _ _ (Hf a)).
  rewrite (outcome_bind _ _ IH). reflexivity.
Qed.

Lemma promiseAll_events (f : A -> M B) (g : A -> B) (l : list A) :
  (forall a, outcome (f a) = Return (g a)) ->
  events (promiseAll f l) = flat_map (fun a => events (f a)) l.
Proof.
  intros Hf. induction l as [|a l IH]; [reflexivity|].
  simpl promiseAll.
  rewrite (events_bind _ _ (Hf a)).
  rewrite (events_bind _ _ (promiseAll_outcome f g l Hf)).
  rewrite IH. simpl. rewrite app_nil_r. reflexivity.
Qed.

End Computations.

(* ================================================================== *)
(** ** The diff aggregator *)

Section Aggregator.

Variable vscode : Vscode.
Variable repo : Repository.

(** [getFileDiff] never throws: every exception is caught inside it. *)
Lemma getFileDiff_outcome (uri : Uri) :
  outcome (getFileDiff vscode repo uri) = Return (fileDiffOf vscode repo uri).
Proof.
  unfold getFileDiff, fileDiffOf.
  destruct (workspace_fs_stat vscode uri) as [e|[]]; [reflexivity|].
  destruct (show repo uri (js "HEAD")) as [e|s].
  - destruct (isNotTracked e) eqn:Hnt.
    + unfold try_catch, bind, call, emit, ret, outcome. simpl. rewrite Hnt.
      destruct (workspace_fs_readFile vscode uri); reflexivity.
    + unfold try_catch, bind, call, emit, ret, outcome. simpl. rewrite Hnt.
      destruct (diffWithHEAD repo uri); reflexivity.
  - unfold try_catch, bind, call, emit, ret, outcome. simpl.
    destruct (diffWithHEAD repo uri); reflexivity.
Qed.


(** The callback's body, before its [catch]. *)
Lemma diffPromise_unfold (filePath : jsstring) :
  diffPromise vscode repo filePath
  = (events (getFileDiff vscode repo (Uri_file vscode filePath)),
     Return (resultOf vscode repo filePath)).
Proof.
  unfold diffPromise, resultOf.
  pose proof (getFileDiff_outcome (Uri_file vscode filePath)) as H.
  destruct (getFileDiff vscode repo (Uri_file vscode filePath)) as [l c].
  simpl in H. subst c.
  unfold try_catch, bind, events. simpl.
  destruct (fileDiffOf vscode repo (Uri_file vscode filePath)) as [d|];
    [destruct (JsString.truthy d)|]; simpl; rewrite app_nil_r; reflexivity.
Qed.

Lemma diffPromise_outcome (filePath : jsstring) :
  outcome (diffPromise vscode repo filePath)
  = Return (resultOf vscode repo filePath).
Proof. rewrite diffPromise_unfold. reflexivity. Qed.


(** The loop appends one section per present result, in order. *)
Lemma fold_appendResult (filePaths : list jsstring) (acc : jsstring) :
  fold_left appendResult (map (resultOf vscode repo) filePaths) acc
  = acc ++ concat (map section (producedDiffs vscode repo filePaths)).
Proof.
  revert acc. induction filePaths as [|p l IH]; intros acc.
  - simpl. rewrite app_nil_r. reflexivity.
  - simpl fold_left. rewrite IH. unfold producedDiffs. simpl flat_map.
    destruct (resultOf vscode repo p) as [r|]; simpl.
    + unfold section at 2. rewrite <- app_assoc. reflexivity.
    + reflexivity.
Qed.

Lemma producedDiffs_app (l1 l2 : list jsstring) :
  producedDiffs vscode repo (l1 ++ l2)
  = producedDiffs vscode repo l1 ++ producedDiffs vscode repo l2.
Proof. unfold producedDiffs. apply flat_map_app. Qed.

(** When every file has a diff that is not empty, each has its entry. *)
Lemma producedDiffs_all (filePaths : list jsstring) :
  (forall p, In p filePaths ->
     exists d, fileDiffOf vscode repo (Uri_file vscode p) = Some d /\ d <> []) ->
  length (producedDiffs vscode repo filePaths) = length filePaths
  /\ map path (producedDiffs vscode repo filePaths)
     = map (workspace_asRelativePath vscode) filePaths
  /\ map (fun r => Some (diff r)) (producedDiffs vscode repo filePaths)
     = map (fun p => fileDiffOf vscode repo (Uri_file vscode p)) filePaths.
Proof.
  induction filePaths as [|p l IH]; intros H; [repeat split|].
  destruct IH as (IH1 & IH2 & IH3); [intros q Hq; apply H; now right|].
  destruct (H p (or_introl eq_refl)) as (d & Hd & Hne).
  unfold producedDiffs in *. simpl flat_map.
  unfold resultOf at 1 3 5. rewrite Hd.
  destruct d as [|c d]; [congruence|]. simpl.
  rewrite IH1, IH2, IH3, Hd. repeat split; reflexivity.
Qed.

(** With the extension and a repository present, the result is the
    sections of the files that produced a diff, and the events are those of
    the callbacks. *)
Lemma getChangesDiff_run (this : AiCommitProvider.t) (git : GitAPI)
  (others : list Repository) (filePaths : list jsstring) :
  gitExtension this = Some git ->
  repositories git = repo :: others ->
  getChangesDiff this vscode filePaths
  = (flat_map (fun p => events (diffPromise vscode repo p)) filePaths,
     Return (concat (map section (producedDiffs vscode repo filePaths)))).
Proof.
  intros Hg Hr. unfold getChangesDiff. rewrite Hg, Hr.
  destruct filePaths as [|p l]; [reflexivity|].
  set (ps := p :: l).
  pose proof (promiseAll_outcome (diffPromise vscode repo)
                (resultOf vscode repo) ps diffPromise_outcome) as Ho.
  pose proof (promiseAll_events (diffPromise vscode repo)
                (resultOf vscode repo) ps diffPromise_outcome) as He.
  destruct (promiseAll (diffPromise vscode repo) ps) as [l' c].
  simpl in Ho, He. subst l' c.
  unfold bind, ret. rewrite app_nil_r.
  change (resultOf vscode repo p :: map (resultOf vscode repo) l)
    with (map (resultOf vscode repo) ps).
  rewrite fold_appendResult. reflexivity.
Qed.

End Aggregator.




(* ================================================================== *)
(** ** Properties of the diff aggregator *)

(** C2, as worded, fails: each section written by [getChangesDiff] starts
    with a line feed, which the specification's section does not have. *)
Lemma getChangesDiff_section_leading_newline :
  let run := getChangesDiff (providerWith None (Some sampleGit)) sampleVscode
               [js "a.ts"] in
  outcome run = Return (LF ++ js "--- a.ts ---" ++ LF ++ js "+a" ++ LF)
  /\ outcome run
     <> Return (concat (map spec_section
                          (producedDiffs sampleVscode sampleRepo [js "a.ts"]))).
Proof. split; vm_compute; [reflexivity|discriminate]. Qed.

(** C2 (amended): with the git extension and a repository present, the
    composite is exactly the concatenation, in input order, of the section
    LF "--- <relative-path> ---" LF <diffText> LF of every file whose diff
    is a non-empty string; other files leave no trace; and when each of the
    N files has such a diff there are exactly N sections, the i-th for the
    i-th path. *)
Theorem getChangesDiff_composite
  (this : AiCommitProvider.t) (vscode : Vscode) (git : GitAPI)
  (repo : Repository) (others : list Repository) (filePaths : list jsstring) :
  gitExtension this = Some git ->
  repositories git = repo :: others ->
  outcome (getChangesDiff this vscode filePaths)
  = Return (concat (map section (producedDiffs vscode repo filePaths)))
  /\ ((forall p, In p filePaths ->
         exists d, fileDiffOf vscode repo (Uri_file vscode p) = Some d
                   /\ d <> []) ->
      length (producedDiffs vscode repo filePaths) = length filePaths
      /\ map path (producedDiffs vscode repo filePaths)
         = map (workspace_asRelativePath vscode) filePaths
      /\ map (fun r => Some (diff r)) (producedDiffs vscode repo filePaths)
         = map (fun p => fileDiffOf vscode repo (Uri_file vscode p)) filePaths).
Proof.
  intros Hg Hr. split.
  - rewrite (getChangesDiff_run vscode this filePaths Hg Hr). reflexivity.
  - apply producedDiffs_all.
Qed.

Lemma getChangesDiff_composite_witness :
  let paths := [js "a.ts"; js "new.ts"; js "b.ts"] in
  outcome (getChangesDiff (providerWith None (Some sampleGit)) sampleVscode paths)
  = Return (concat (map section (producedDiffs sampleVscode sampleRepo paths)))
  /\ length (producedDiffs sampleVscode sampleRepo paths) = 3%nat.
Proof.
  intros paths.
  destruct (@getChangesDiff_composite
              (providerWith None (Some sampleGit)) sampleVscode sampleGit
              sampleRepo [] paths eq_refl eq_refl) as [H1 H2].
  split; [exact H1|].
  destruct H2 as [H2 _]; [|exact H2].
  intros p [<-|[<-|[<-|[]]]]; eexists; split;
    try (vm_compute; reflexivity); discriminate.
Defined.

(** C3, as worded, fails: when git does not know the file and reading it
    fails, [getFileDiff] returns no diff. *)
Lemma getFileDiff_untracked_unreadable :
  let uri := uriOf (js "dir") in
  workspace_fs_stat sampleVscode uri = inr tt
  /\ show sampleRepo uri (js "HEAD") = inl unknownPath
  /\ isNotTracked unknownPath = true
  /\ outcome (getFileDiff sampleVscode sampleRepo uri) = Return None.
Proof. repeat split; vm_compute; reflexivity. Qed.

(** C3 (amended): for a file that exists and for which [repo.show] fails
    with the not-tracked condition, [getFileDiff] reads the working copy
    and, when the read succeeds, returns "+++ New file" LF followed by the
    decoded content, without asking for a diff; when the read fails it logs
    the error and returns no diff. *)
Theorem getFileDiff_new_file
  (vscode : Vscode) (repo : Repository) (uri : Uri) (e : thrown) :
  workspace_fs_stat vscode uri = inr tt ->
  show repo uri (js "HEAD") = inl e ->
  isNotTracked e = true ->
  match workspace_fs_readFile vscode uri with
  | inr bytes =>
      getFileDiff vscode repo uri
      = ([FsStat uri; RepoShow uri (js "HEAD"); FsReadFile uri],
         Return (Some (js "+++ New file" ++ LF
                       ++ TextDecoder_decode vscode bytes)))
  | inl readError =>
      getFileDiff vscode repo uri
      = ([FsStat uri; RepoShow uri (js "HEAD"); FsReadFile uri;
          ConsoleError (js "Error reading new file " ++ fsPath uri ++ js ":")
            readError],
         Return None)
  end.
Proof.
  intros Hs Hsh Hnt. unfold getFileDiff. rewrite Hs, Hsh.
  unfold try_catch, bind, call, emit, ret. simpl. rewrite Hnt.
  destruct (workspace_fs_readFile vscode uri); reflexivity.
Qed.

Lemma getFileDiff_new_file_witness :
  getFileDiff sampleVscode sampleRepo (uriOf (js "new.ts"))
  = ([FsStat (uriOf (js "new.ts"));
      RepoShow (uriOf (js "new.ts")) (js "HEAD");
      FsReadFile (uriOf (js "new.ts"))],
     Return (Some (js "+++ New file" ++ LF ++ js "let x = 1;"))).
Proof.
  exact (@getFileDiff_new_file sampleVscode sampleRepo (uriOf (js "new.ts"))
           unknownPath eq_refl eq_refl eq_refl).
Defined.


(** C4, at three paths of which the second fails in [diffWithHEAD] with an
    input/output error: nothing is thrown and the sections of the other two
    files are returned, but the user is not warned; the events of the run
    are the host requests and one console error. *)
Theorem getChangesDiff_failure_not_warned :
  let run := getChangesDiff (providerWith None (Some sampleGit)) sampleVscode
               [js "a.ts"; js "broken.ts"; js "b.ts"] in
  failsWithError sampleVscode sampleRepo (uriOf (js "broken.ts")) = true
  /\ outcome run
     = Return (LF ++ js "--- a.ts ---" ++ LF ++ js "+a" ++ LF
               ++ LF ++ js "--- b.ts ---" ++ LF ++ js "-b" ++ LF)
  /\ existsb isShowWarning (events run) = false
  /\ events run
     = [FsStat (uriOf (js "a.ts")); RepoShow (uriOf (js "a.ts")) (js "HEAD");
        RepoDiffWithHEAD (uriOf (js "a.ts"));
        FsStat (uriOf (js "broken.ts"));
        RepoShow (uriOf (js "broken.ts")) (js "HEAD");
        RepoDiffWithHEAD (uriOf (js "broken.ts"));
        ConsoleError (js "Error getting diff for file broken.ts:") ioError;
        FsStat (uriOf (js "b.ts")); RepoShow (uriOf (js "b.ts")) (js "HEAD");
        RepoDiffWithHEAD (uriOf (js "b.ts"))].
Proof.
  intros run.
  split; [vm_compute; reflexivity|].
  split; [vm_compute; reflexivity|].
  split; vm_compute; reflexivity.
Qed.

(** C7, as worded, fails: with an empty list of paths [getChangesDiff]
    still throws when the git extension is missing. *)
Lemma empty_paths_without_git_throws :
  getChangesDiff (providerWith None None) sampleVscode []
  = ([ShowErrorMessage
        (js "Git 확장이 초기화되지 않았습니다. VS Code를 재시작해보세요.")],
     Throw (ErrorInstance (js "Git extension not initialized") None)).
Proof. vm_compute. reflexivity. Qed.

(** C7 (amended): when the git extension is initialised and a repository
    is found, [getChangesDiff] on an empty list of paths returns the empty
    string, without error and without any request to the host. *)
Theorem getChangesDiff_empty
  (this : AiCommitProvider.t) (vscode : Vscode) (git : GitAPI)
  (repo : Repository) (others : list Repository) :
  gitExtension this = Some git ->
  repositories git = repo :: others ->
  getChangesDiff this vscode [] = ([], Return []).
Proof.
  intros Hg Hr. unfold getChangesDiff. rewrite Hg, Hr. reflexivity.
Qed.

Lemma getChangesDiff_empty_witness :
  getChangesDiff (providerWith None (Some sampleGit)) sampleVscode []
  = ([], Return []).
Proof.
  exact (@getChangesDiff_empty (providerWith None (Some sampleGit))
           sampleVscode sampleGit sampleRepo [] eq_refl eq_refl).
Defined.

(** Whatever the state of the provider, an empty list of paths causes no
    request for a file's status, content or diff. *)
Lemma empty_paths_no_host_request
  (this : AiCommitProvider.t) (vscode : Vscode) :
  existsb isHostDiffRequest (events (getChangesDiff this vscode [])) = false.
Proof.
  unfold getChangesDiff.
  destruct (gitExtension this) as [git|]; [|reflexivity].
  destruct (repositories git); reflexivity.
Qed.

(** C8: [getChangesDiff] throws exactly when the git extension is not
    initialised or it has no repository; it then has shown one error
    message to the user, made no other call, and yields no result. *)
Theorem getChangesDiff_aborts_iff
  (this : AiCommitProvider.t) (vscode : Vscode) (filePaths : list jsstring) :
  ((exists e, outcome (getChangesDiff this vscode filePaths) = Throw e)
   <-> (gitExtension this = None
        \/ exists git, gitExtension this = Some git /\ repositories git = []))
  /\ (forall e, outcome (getChangesDiff this vscode filePaths) = Throw e ->
        exists text,
          events (getChangesDiff this vscode filePaths)
          = [ShowErrorMessage text]).
Proof.
  destruct (gitExtension this) as [git|] eqn:Hg.
  - destruct (repositories git) as [|repo others] eqn:Hr.
    + unfold getChangesDiff. rewrite Hg, Hr. split.
      * split; intros _; [right; now exists git | eexists; reflexivity].
      * intros e _. eexists. reflexivity.
    + rewrite (getChangesDiff_run vscode this filePaths Hg Hr). split.
      * split.
        -- intros [e He]. discriminate He.
        -- intros [H|(g & Hg' & Hr')]; [discriminate|].
           injection Hg' as <-. congruence.
      * intros e He. discriminate He.
  - unfold getChangesDiff. rewrite Hg. split.
    + split; intros _; [now left | eexists; reflexivity].
    + intros e _. eexists. reflexivity.
Qed.

(* ================================================================== *)
(** ** The header pattern *)

Lemma spanWord_spec (s : jsstring) :
  let (w, rest) := spanWord s in
  s = w ++ rest /\ forallb isWordChar w = true /\
  match rest with [] => True | c :: _ => isWordChar c = false end.
Proof.
  induction s as [|c s IH]; simpl; [repeat split|].
  destruct (isWordChar c) eqn:Hc.
  - destruct (spanWord s) as [w rest]. destruct IH as (-> & Hw & Hr).
    simpl. rewrite Hc, Hw. repeat split. exact Hr.
  - simpl. rewrite Hc. repeat split.
Qed.

Lemma spanWord_app (w rest : jsstring) :
  forallb isWordChar w = true ->
  match rest with [] => True | c :: _ => isWordChar c = false end ->
  spanWord (w ++ rest) = (w, rest).
Proof.
  intros Hw Hr. induction w as [|c w IH]; simpl in *.
  - destruct rest as [|c rest]; [reflexivity|]. simpl. now rewrite Hr.
  - apply andb_prop in Hw as [Hc Hw]. now rewrite Hc, (IH Hw).
Qed.

Lemma scopeThenColon_complete (body rest : jsstring) :
  forallb (fun c => negb (isLineTerminator c)) body = true ->
  scopeThenColon (body ++ 41 :: 58 :: rest) = true.
Proof.
  intros Hb. induction body as [|c body IH]; [reflexivity|].
  simpl in Hb. apply andb_prop in Hb as [Hc Hb].
  cbn [app scopeThenColon]. rewrite Hc, (IH Hb). apply orb_true_r.
Qed.

Lemma scopeThenColon_sound (s : jsstring) :
  scopeThenColon s = true ->
  exists body rest,
    s = body ++ 41 :: 58 :: rest /\
    forallb (fun c => negb (isLineTerminator c)) body = true.
Proof.
  induction s as [|c s IH]; [discriminate|].
  cbn [scopeThenColon]. intros H. apply orb_prop in H as [H|H].
  - apply andb_prop in H as [Hc Hd]. apply N.eqb_eq in Hc. subst c.
    destruct s as [|d s]; [discriminate|]. apply N.eqb_eq in Hd. subst d.
    exists [], s. split; reflexivity.
  - apply andb_prop in H as [Hc Hs].
    destruct (IH Hs) as (body & rest & -> & Hb).
    exists (c :: body), rest. split; [reflexivity|]. simpl. now rewrite Hc.
Qed.

(** X12: [matchHeader] computes the first group of the header pattern:
    it answers [w] exactly when the text is a non-empty run [w] of word
    characters, then nothing or a parenthesised scope without line
    terminators, then a colon. *)
Theorem matchHeader_spec (s w : jsstring) :
  matchHeader s = Some w <-> HeaderMatch s w.
Proof.
  unfold matchHeader, HeaderMatch. split.
  - pose proof (spanWord_spec s) as H.
    destruct (spanWord s) as [w' rest]. destruct H as (-> & Hw & _).
    destruct w' as [|c w']; [discriminate|].
    destruct rest as [|d rest]; [discriminate|].
    destruct (N.eqb_spec d 58) as [->|Hd].
    + intros [= <-]. repeat split; [discriminate|exact Hw|].
      exists [], rest. split; [reflexivity|now left].
    + destruct (N.eqb_spec d 40) as [->|Hd']; [|discriminate].
      destruct (scopeThenColon rest) eqn:Hs; [|discriminate].
      intros [= <-]. repeat split; [discriminate|exact Hw|].
      destruct (scopeThenColon_sound _ Hs) as (body & tail & -> & Hb).
      exists (40 :: body ++ [41]), tail. split.
      * simpl. rewrite <- app_assoc. reflexivity.
      * right. now exists body.
  - intros (Hne & Hw & scope & rest & -> & Hscope).
    destruct Hscope as [->|(body & -> & Hb)].
    + simpl. rewrite (spanWord_app w (58 :: rest) Hw eq_refl).
      destruct w; [congruence|reflexivity].
    + rewrite (spanWord_app w ((40 :: body ++ [41]) ++ 58 :: rest) Hw eq_refl).
      destruct w as [|c w]; [congruence|].
      simpl. rewrite <- app_assoc. simpl.
      now rewrite (scopeThenColon_complete body rest Hb).
Qed.

(* ================================================================== *)
(** ** Emoji annotation: general facts *)

Lemma js_space : js " " = [32].
Proof. reflexivity. Qed.

(** A message that starts with an emoji character is returned as it is. *)
Lemma addEmoji_fixed (commitMessage type : jsstring) :
  startsWithEmoji commitMessage = true ->
  addEmojiToCommitMessage commitMessage type = commitMessage.
Proof. intros H. unfold addEmojiToCommitMessage. now rewrite H. Qed.

(** Every emoji of the table is a non-empty string that starts with an
    emoji character, whatever follows it. *)
Lemma emojiMap_values (type e : jsstring) :
  assoc type emojiMap = Some e ->
  JsString.truthy e = true
  /\ forall rest, startsWithEmoji (e ++ rest) = true.
Proof.
  unfold emojiMap, assoc.
  repeat (destruct (JsString.eqb type _);
          [intros [= <-]; split; [|intros rest]; vm_compute; reflexivity|]).
  discriminate.
Qed.

(** For a type of the table the table's emoji is prepended. *)
Lemma addEmoji_table (commitMessage type e : jsstring) :
  startsWithEmoji commitMessage = false ->
  assoc type emojiMap = Some e ->
  addEmojiToCommitMessage commitMessage type = e ++ js " " ++ commitMessage.
Proof.
  intros Hs He. unfold addEmojiToCommitMessage, emojiMap_get, or_else.
  rewrite Hs, He. simpl.
  destruct (emojiMap_values _ He) as [-> _]. reflexivity.
Qed.

(** For a type that [emojiMap] has no property for, own or inherited, the
    feat emoji is prepended. *)
Lemma addEmoji_unknown_type (commitMessage type : jsstring) :
  startsWithEmoji commitMessage = false ->
  emojiMap_get type = Undefined ->
  addEmojiToCommitMessage commitMessage type = js "✨" ++ js " " ++ commitMessage.
Proof.
  intros Hs He. unfold addEmojiToCommitMessage, or_else.
  rewrite Hs, He. reflexivity.
Qed.

(** X14: annotating twice is annotating once, for every type that is
    not the name of a property of [Object.prototype]. *)
Lemma addEmoji_idempotent_plain_type (commitMessage type type' : jsstring) :
  assoc type Object_prototype = None ->
  addEmojiToCommitMessage (addEmojiToCommitMessage commitMessage type) type'
  = addEmojiToCommitMessage commitMessage type.
Proof.
  intros Hp.
  destruct (startsWithEmoji commitMessage) eqn:Hs.
  - rewrite (addEmoji_fixed _ _ Hs). now apply addEmoji_fixed.
  - apply addEmoji_fixed.
    destruct (assoc type emojiMap) as [e|] eqn:He.
    + rewrite (addEmoji_table _ _ Hs He).
      now apply (emojiMap_values _ He).
    + rewrite addEmoji_unknown_type; [vm_compute; reflexivity|exact Hs|].
      unfold emojiMap_get. now rewrite He, Hp.
Qed.

(** The result of annotation is never the empty string. *)
Lemma addEmoji_nonempty (commitMessage type : jsstring) :
  commitMessage <> [] -> addEmojiToCommitMessage commitMessage type <> [].
Proof.
  intros Hne. unfold addEmojiToCommitMessage.
  destruct (startsWithEmoji commitMessage); [exact Hne|].
  rewrite js_space. cbv zeta.
  destruct (toString _); discriminate.
Qed.

(** The characters the claim C10 names are emoji characters. *)
Lemma keycapBase_isEmoji (c : N) (rest : jsstring) :
  isKeycapBase c = true -> startsWithEmoji (c :: rest) = true.
Proof.
  unfold isKeycapBase. intros H.
  assert (Hc : c = 35 \/ c = 42 \/ c = 48 \/ c = 49 \/ c = 50 \/ c = 51
               \/ c = 52 \/ c = 53 \/ c = 54 \/ c = 55 \/ c = 56 \/ c = 57).
  { apply orb_prop in H as [H|H]; [apply orb_prop in H as [H|H]|].
    - apply andb_prop in H as [H1 H2].
      apply N.leb_le in H1. apply N.leb_le in H2. lia.
    - apply N.eqb_eq in H. lia.
    - apply N.eqb_eq in H. lia. }
  repeat (destruct Hc as [->|Hc]; [vm_compute; reflexivity|]).
  subst c. vm_compute. reflexivity.
Qed.

(* ================================================================== *)
(** ** The message generator: general facts *)

Lemma failureNotice_classified (error : thrown) :
  failureNotice error = categoryNotice (classify error) error.
Proof.
  destruct error as [m c|m c| | |];
    [|cbn [failureNotice classify categoryNotice]; reflexivity ..].
  unfold failureNotice, classify, categoryNotice.
  destruct (includes m (js "API key")); [reflexivity|].
  destruct (includes m (js "network")); [reflexivity|].
  destruct (includes m (js "timeout")); reflexivity.
Qed.

Lemma defaultCommitMessage_nonempty : defaultCommitMessage <> [].
Proof. vm_compute. discriminate. Qed.

Lemma orDefault_nonempty (x : option jsstring) : orDefault x <> [].
Proof.
  unfold orDefault. destruct x as [[|c s]|]; simpl;
    try apply defaultCommitMessage_nonempty; discriminate.
Qed.

Lemma postProcess_nonempty (response : ChatCompletion) :
  postProcess response <> [].
Proof. unfold postProcess. apply addEmoji_nonempty, orDefault_nonempty. Qed.


(** With a client, [generateCommitMessage] makes the one completion call
    and returns: the post-processed text, or the default after a failure. *)
Lemma generateCommitMessage_run
  (this : AiCommitProvider.t) (client : OpenAI) (diffContent : jsstring) :
  openai this = Some client ->
  let request := requestFor (promptFor diffContent) in
  generateCommitMessage this diffContent
  = match chat_completions_create client request with
    | inr response =>
        ([ChatCompletionsCreate request], Return (postProcess response))
    | inl error =>
        ([ChatCompletionsCreate request;
          ConsoleError (js "Error generating commit message with AI:") error;
          ShowErrorMessage (failureNotice error)],
         Return defaultCommitMessage)
    end.
Proof.
  intros Hc request. unfold generateCommitMessage. rewrite Hc.
  fold request.
  destruct (chat_completions_create client request); reflexivity.
Qed.

(** X13: a completion that does not start with an emoji character and
    whose header names a type of the table gets the table's emoji, a space
    and the text unchanged. *)
Lemma postProcess_table_type (response : ChatCompletion) (text type e : jsstring) :
  firstCompletionText response = Some text ->
  startsWithEmoji text = false ->
  matchHeader text = Some type ->
  assoc type emojiMap = Some e ->
  postProcess response = e ++ js " " ++ text.
Proof.
  intros Hr Hs Hm He. unfold postProcess. rewrite Hr. unfold orDefault.
  destruct text as [|c text]; [discriminate Hm|].
  unfold JsString.truthy. rewrite Hm. now apply addEmoji_table.
Qed.

(** A completion without a header gets the feat emoji. *)
Lemma postProcess_no_header (response : ChatCompletion) (text : jsstring) :
  firstCompletionText response = Some text ->
  text <> [] ->
  startsWithEmoji text = false ->
  matchHeader text = None ->
  postProcess response = js "✨" ++ js " " ++ text.
Proof.
  intros Hr Hne Hs Hm. unfold postProcess. rewrite Hr. unfold orDefault.
  destruct text as [|c text]; [congruence|].
  unfold JsString.truthy. rewrite Hm.
  apply (addEmoji_table _ (js "feat") Hs). vm_compute. reflexivity.
Qed.

(** Whenever [generateCommitMessage] returns, what it returns is not the
    empty string. *)
Lemma generateCommitMessage_never_empty
  (this : AiCommitProvider.t) (diffContent commitMessage : jsstring) :
  outcome (generateCommitMessage this diffContent) = Return commitMessage ->
  commitMessage <> [].
Proof.
  destruct (openai this) as [client|] eqn:Hc.
  - rewrite (generateCommitMessage_run this diffContent Hc).
    destruct (chat_completions_create client _) as [e|response];
      unfold outcome; simpl; intros [= <-].
    + apply defaultCommitMessage_nonempty.
    + apply postProcess_nonempty.
  - unfold generateCommitMessage. rewrite Hc. discriminate.
Qed.

Example generate_fix_parser :
  outcome (generateCommitMessage
             (providerWith
                (Some (clientReturning
                         (Some (js "fix(parser): correct off-by-one"))))
                None) (js "+a"))
  = Return (js "🐛 fix(parser): correct off-by-one").
Proof. vm_compute. reflexivity. Qed.

Example generate_no_header :
  outcome (generateCommitMessage
             (providerWith (Some (clientReturning (Some (js "Update readme"))))
                None) (js "+a"))
  = Return (js "✨ Update readme").
Proof. vm_compute. reflexivity. Qed.

Example generate_unlisted_type :
  outcome (generateCommitMessage
             (providerWith (Some (clientReturning (Some (js "wip: try it"))))
                None) (js "+a"))
  = Return (js "✨ wip: try it").
Proof. vm_compute. reflexivity. Qed.

(* ================================================================== *)
(** ** Properties of the message generator *)

(** C1, as worded, fails: when no credential is configured, in the
    settings or in the environment, the constructor creates no client and
    [generateCommitMessage] throws to its caller, before its [try] block,
    showing nothing. *)
Lemma generateCommitMessage_without_client_throws :
  let this := construct (fun _ => clientReturning (Some (js "fix: x")))
                None None (Some sampleGit) in
  openai this = None
  /\ generateCommitMessage this (js "+a")
     = ([],
        Throw (ErrorInstance
                 (js "OpenAI API is not initialized. Please set your API key in settings.")
                 None)).
Proof. split; reflexivity. Qed.

(** C1 (amended): when the client is initialised, every error thrown by
    the completion call is caught, classified as credential, network,
    timeout or other by the text of its message, the message of its
    category is shown to the user, and the fixed default commit message is
    returned; [generateCommitMessage] then never throws.  (When no
    credential was configured the client is absent and the call throws.) *)
Theorem generateCommitMessage_failure_handled
  (this : AiCommitProvider.t) (client : OpenAI) (diffContent : jsstring) :
  openai this = Some client ->
  let request := requestFor (promptFor diffContent) in
  (forall error,
     chat_completions_create client request = inl error ->
     generateCommitMessage this diffContent
     = ([ChatCompletionsCreate request;
         ConsoleError (js "Error generating commit message with AI:") error;
         ShowErrorMessage (categoryNotice (classify error) error)],
        Return defaultCommitMessage))
  /\ exists commitMessage,
       outcome (generateCommitMessage this diffContent) = Return commitMessage.
Proof.
  intros Hc request. pose proof (generateCommitMessage_run this diffContent Hc) as H.
  cbv zeta in H. fold request in H. split.
  - intros error He. rewrite H, He, failureNotice_classified. reflexivity.
  - rewrite H. destruct (chat_completions_create client request);
      eexists; reflexivity.
Qed.

Lemma generateCommitMessage_failure_handled_witness :
  let error := ErrorInstance (js "Request timeout after 60s") None in
  let request := requestFor (promptFor (js "+a")) in
  classify error = Timeout
  /\ categoryNotice Timeout error
     = js "API 요청 시간이 초과되었습니다. 나중에 다시 시도해주세요."
  /\ generateCommitMessage
       (providerWith (Some (clientThrowing error)) None) (js "+a")
     = ([ChatCompletionsCreate request;
         ConsoleError (js "Error generating commit message with AI:") error;
         ShowErrorMessage (categoryNotice (classify error) error)],
        Return defaultCommitMessage).
Proof.
  intros error request.
  split; [vm_compute; reflexivity|].
  split; [reflexivity|].
  destruct (@generateCommitMessage_failure_handled
              (providerWith (Some (clientThrowing error)) None)
              (clientThrowing error) (js "+a") eq_refl) as [H _].
  exact (H error eq_refl).
Defined.

(** C5, at a type token that names a property of [Object.prototype]: the
    token is not in the table, the message does not start with an emoji
    character, and what is prepended is the text of the inherited
    property instead of the feat emoji. *)
Theorem generateCommitMessage_inherited_type :
  let text := js "constructor: init" in
  let this := providerWith (Some (clientReturning (Some text))) None in
  startsWithEmoji text = false
  /\ matchHeader text = Some (js "constructor")
  /\ assoc (js "constructor") emojiMap = None
  /\ outcome (generateCommitMessage this (js "+a"))
     = Return (js "function Object() { [native code] } constructor: init")
  /\ outcome (generateCommitMessage this (js "+a"))
     <> Return (js "✨ constructor: init").
Proof.
  intros text this.
  split; [vm_compute; reflexivity|].
  split; [vm_compute; reflexivity|].
  split; [vm_compute; reflexivity|].
  split; [vm_compute; reflexivity|].
  vm_compute. discriminate.
Qed.





(** C9, at a type token that names a property of [Object.prototype]: the
    text prepended by the first annotation does not start with an emoji
    character, so a second annotation prepends again. *)
Theorem addEmoji_twice_inherited_type :
  let once := addEmojiToCommitMessage (js "constructor: init") (js "constructor") in
  let twice := addEmojiToCommitMessage once (js "constructor") in
  once = js "function Object() { [native code] } constructor: init"
  /\ startsWithEmoji once = false
  /\ twice = js "function Object() { [native code] } function Object() { [native code] } constructor: init"
  /\ twice <> once
  /\ addEmojiToCommitMessage once (js "feat") <> once.
Proof.
  intros once twice.
  split; [vm_compute; reflexivity|].
  split; [vm_compute; reflexivity|].
  split; [vm_compute; reflexivity|].
  split; vm_compute; discriminate.
Qed.

(** C10: a message whose first character is an ASCII digit, a number sign
    or an asterisk starts with an emoji character as [\p{Emoji}] has it,
    so it is returned unchanged whatever the type; a completion that
    starts with such a character gets no emoji prefix. *)
Theorem addEmoji_keycap_base_unchanged
  (c : N) (rest type : jsstring) :
  isKeycapBase c = true ->
  addEmojiToCommitMessage (c :: rest) type = c :: rest
  /\ forall response,
       firstCompletionText response = Some (c :: rest) ->
       postProcess response = c :: rest.
Proof.
  intros Hc. pose proof (keycapBase_isEmoji c rest Hc) as He. split.
  - now apply addEmoji_fixed.
  - intros response Hr. unfold postProcess. rewrite Hr.
    unfold orDefault, JsString.truthy. now apply addEmoji_fixed.
Qed.

Lemma addEmoji_keycap_base_unchanged_witness :
  let rest := js "23: bump version" in
  let response :=
    {| choices := [ {| message := Some {| content := Some (49 :: rest) |} |} ] |} in
  addEmojiToCommitMessage (49 :: rest) (js "123") = 49 :: rest
  /\ postProcess response = 49 :: rest.
Proof.
  intros rest response.
  assert (Hr : firstCompletionText response = Some (49 :: rest))
    by (vm_compute; reflexivity).
  destruct (@addEmoji_keycap_base_unchanged 49 rest (js "123") eq_refl)
    as [H1 H2].
  split; [exact H1 | exact (H2 response Hr)].
Defined.

Example generate_keycap_base :
  outcome (generateCommitMessage
             (providerWith (Some (clientReturning (Some (js "123: bump version"))))
                None) (js "+a"))
  = Return (js "123: bump version").
Proof. vm_compute. reflexivity. Qed.

(* ================================================================== *)
(** ** Further properties of the diff aggregator *)

(** X1: [getFileDiff] never throws.  Whatever the host calls answer or
    throw, it returns: no diff when the file does not exist; for a file git
    does not know, the new-file text when it can be read and no diff
    otherwise; in every other case the answer of [diffWithHEAD], or no diff
    when that call fails. *)
Theorem getFileDiff_never_throws
  (vscode : Vscode) (repo : Repository) (uri : Uri) :
  outcome (getFileDiff vscode repo uri)
  = Return
      (match workspace_fs_stat vscode uri with
       | inl _ => None
       | inr _ =>
           match show repo uri (js "HEAD") with
           | inl e =>
               if isNotTracked e then
                 match workspace_fs_readFile vscode uri with
                 | inl _ => None
                 | inr bytes =>
                     Some (js "+++ New file" ++ LF
                           ++ TextDecoder_decode vscode bytes)
                 end
               else
                 match diffWithHEAD repo uri with
                 | inl _ => None
                 | inr d => Some d
                 end
           | inr _ =>
               match diffWithHEAD repo uri with
               | inl _ => None
               | inr d => Some d
               end
           end
       end).
Proof.
  rewrite getFileDiff_outcome. unfold fileDiffOf.
  destruct (workspace_fs_stat vscode uri); [reflexivity|].
  destruct (show repo uri (js "HEAD")) as [e|]; [|reflexivity].
  destruct (isNotTracked e); reflexivity.
Qed.

(** X2: for a file that cannot be stat'ed, [getFileDiff] logs a warning to
    the console and returns no diff, without asking the repository or
    reading the file. *)
Theorem getFileDiff_missing_file
  (vscode : Vscode) (repo : Repository) (uri : Uri) (e : thrown) :
  workspace_fs_stat vscode uri = inl e ->
  getFileDiff vscode repo uri
  = ([FsStat uri;
      ConsoleWarn (js "File " ++ fsPath uri
                   ++ js " does not exist or cannot be accessed")],
     Return None).
Proof.
  intros Hs. unfold getFileDiff. rewrite Hs. reflexivity.
Qed.

Lemma getFileDiff_missing_file_witness :
  getFileDiff sampleVscode sampleRepo (uriOf (js "gone.ts"))
  = ([FsStat (uriOf (js "gone.ts"));
      ConsoleWarn (js "File " ++ fsPath (uriOf (js "gone.ts"))
                   ++ js " does not exist or cannot be accessed")],
     Return None).
Proof.
  assert (Hs : workspace_fs_stat sampleVscode (uriOf (js "gone.ts"))
               = inl ioError) by (vm_compute; reflexivity).
  exact (@getFileDiff_missing_file sampleVscode sampleRepo
           (uriOf (js "gone.ts")) ioError Hs).
Defined.

(** X3: when [repo.show] fails with an error that is not the not-tracked
    condition, the error is dropped without a trace and the file is
    handled like a tracked one: its diff is the answer of [diffWithHEAD]. *)
Theorem getFileDiff_show_error_ignored
  (vscode : Vscode) (repo : Repository) (uri : Uri) (e : thrown) :
  workspace_fs_stat vscode uri = inr tt ->
  show repo uri (js "HEAD") = inl e ->
  isNotTracked e = false ->
  getFileDiff vscode repo uri
  = match diffWithHEAD repo uri with
    | inr d =>
        ([FsStat uri; RepoShow uri (js "HEAD"); RepoDiffWithHEAD uri],
         Return (Some d))
    | inl e' =>
        ([FsStat uri; RepoShow uri (js "HEAD"); RepoDiffWithHEAD uri;
          ConsoleError (js "Error getting diff for file " ++ fsPath uri
                        ++ js ":") e'],
         Return None)
    end.
Proof.
  intros Hs Hsh Hnt. unfold getFileDiff. rewrite Hs, Hsh.
  unfold try_catch, bind, call, emit, ret. simpl. rewrite Hnt.
  destruct (diffWithHEAD repo uri); reflexivity.
Qed.

Lemma getFileDiff_show_error_ignored_witness :
  let repo := {| show := fun _ _ => inl ioError;
                 diffWithHEAD := fun _ => inr (js "+a") |} in
  getFileDiff sampleVscode repo (uriOf (js "a.ts"))
  = ([FsStat (uriOf (js "a.ts")); RepoShow (uriOf (js "a.ts")) (js "HEAD");
      RepoDiffWithHEAD (uriOf (js "a.ts"))],
     Return (Some (js "+a"))).
Proof.
  intros repo.
  assert (Hs : workspace_fs_stat sampleVscode (uriOf (js "a.ts")) = inr tt)
    by (vm_compute; reflexivity).
  assert (Hnt : isNotTracked ioError = false) by (vm_compute; reflexivity).
  exact (@getFileDiff_show_error_ignored sampleVscode repo
           (uriOf (js "a.ts")) ioError Hs eq_refl Hnt).
Defined.


(** X6: the composite of a list of paths is the composite of a first part
    followed by the composite of the rest. *)
Theorem getChangesDiff_app
  (this : AiCommitProvider.t) (vscode : Vscode) (git : GitAPI)
  (repo : Repository) (others : list Repository) (l1 l2 : list jsstring) :
  gitExtension this = Some git ->
  repositories git = repo :: others ->
  exists d1 d2,
    outcome (getChangesDiff this vscode l1) = Return d1
    /\ outcome (getChangesDiff this vscode l2) = Return d2
    /\ outcome (getChangesDiff this vscode (l1 ++ l2)) = Return (d1 ++ d2).
Proof.
  intros Hg Hr.
  rewrite !(getChangesDiff_run vscode this _ Hg Hr).
  do 2 eexists. split; [reflexivity|]. split; [reflexivity|].
  unfold outcome. simpl.
  now rewrite producedDiffs_app, map_app, concat_app.
Qed.

Lemma getChangesDiff_app_witness :
  exists d1 d2,
    outcome (getChangesDiff (providerWith None (Some sampleGit)) sampleVscode
               [js "a.ts"]) = Return d1
    /\ outcome (getChangesDiff (providerWith None (Some sampleGit)) sampleVscode
                  [js "new.ts"; js "b.ts"]) = Return d2
    /\ outcome (getChangesDiff (providerWith None (Some sampleGit)) sampleVscode
                  ([js "a.ts"] ++ [js "new.ts"; js "b.ts"])) = Return (d1 ++ d2).
Proof.
  exact (@getChangesDiff_app (providerWith None (Some sampleGit)) sampleVscode
           sampleGit sampleRepo [] [js "a.ts"] [js "new.ts"; js "b.ts"]
           eq_refl eq_refl).
Defined.

Lemma getFileDiff_events_uri
  (vscode : Vscode) (repo : Repository) (uri : Uri) (ev : event) :
  In ev (events (getFileDiff vscode repo uri)) ->
  eventUri ev = Some uri \/ eventUri ev = None.
Proof.
  unfold getFileDiff.
  destruct (workspace_fs_stat vscode uri) as [e|[]].
  - unfold try_catch, bind, call, emit, ret, events. simpl.
    intros [<-|[<-|[]]]; auto.
  - destruct (show repo uri (js "HEAD")) as [e|s].
    + destruct (isNotTracked e) eqn:Hnt.
      * unfold try_catch, bind, call, emit, ret, events. simpl. rewrite Hnt.
        destruct (workspace_fs_readFile vscode uri); simpl;
          intros H; repeat (destruct H as [<-|H]; auto); contradiction.
      * unfold try_catch, bind, call, emit, ret, events. simpl. rewrite Hnt.
        destruct (diffWithHEAD repo uri); simpl;
          intros H; repeat (destruct H as [<-|H]; auto); contradiction.
    + unfold try_catch, bind, call, emit, ret, events. simpl.
      destruct (diffWithHEAD repo uri); simpl;
        intros H; repeat (destruct H as [<-|H]; auto); contradiction.
Qed.

(** X7: every request [getChangesDiff] makes for a file's status, content
    or diff is about one of the paths it was given. *)
Theorem getChangesDiff_requests_selected_only
  (this : AiCommitProvider.t) (vscode : Vscode) (filePaths : list jsstring)
  (ev : event) (uri : Uri) :
  In ev (events (getChangesDiff this vscode filePaths)) ->
  eventUri ev = Some uri ->
  exists p, In p filePaths /\ uri = Uri_file vscode p.
Proof.
  destruct (gitExtension this) as [git|] eqn:Hg.
  - destruct (repositories git) as [|repo others] eqn:Hr.
    + unfold getChangesDiff. rewrite Hg, Hr.
      intros [<-|[]]. discriminate.
    + rewrite (getChangesDiff_run vscode this filePaths Hg Hr).
      unfold events. simpl. intros Hin Hu.
      apply in_flat_map in Hin as (p & Hp & Hin).
      rewrite diffPromise_unfold in Hin.
      exists p. split; [exact Hp|].
      destruct (getFileDiff_events_uri _ _ _ _ Hin) as [H|H]; congruence.
  - unfold getChangesDiff. rewrite Hg. intros [<-|[]]. discriminate.
Qed.

Lemma getChangesDiff_requests_selected_only_witness :
  exists p, In p [js "a.ts"; js "b.ts"] /\ uriOf (js "b.ts") = Uri_file sampleVscode p.
Proof.
  assert (Hin : In (RepoDiffWithHEAD (uriOf (js "b.ts")))
                  (events (getChangesDiff (providerWith None (Some sampleGit))
                             sampleVscode [js "a.ts"; js "b.ts"]))).
  { vm_compute. do 5 right. left. reflexivity. }
  exact (@getChangesDiff_requests_selected_only
           (providerWith None (Some sampleGit)) sampleVscode
           [js "a.ts"; js "b.ts"] _ (uriOf (js "b.ts")) Hin eq_refl).
Defined.

(* ================================================================== *)
(** ** Trimming *)

Lemma trimStart_headOk (s : jsstring) :
  trimStart s = [] \/ headOk (trimStart s) = true.
Proof.
  induction s as [|c s IH]; [now left|].
  simpl. destruct (isTrimmable c) eqn:Hc; [exact IH|].
  right. simpl. now rewrite Hc.
Qed.

Lemma trimStart_suffix (s : jsstring) :
  exists p, s = p ++ trimStart s.
Proof.
  induction s as [|c s [p IH]]; [now exists []|].
  simpl. destruct (isTrimmable c).
  - exists (c :: p). simpl. now rewrite <- IH.
  - now exists [].
Qed.

Lemma trimStart_fixed (s : jsstring) : headOk s = true -> trimStart s = s.
Proof.
  destruct s as [|c s]; [discriminate|].
  simpl. intros H. apply negb_true_iff in H. now rewrite H.
Qed.

Lemma trimStart_nil (s : jsstring) :
  trimStart s = [] <-> forallb isTrimmable s = true.
Proof.
  induction s as [|c s IH]; [now split|].
  simpl. destruct (isTrimmable c); simpl; [exact IH|].
  split; discriminate.
Qed.

(** A string whose first and last characters are not stripped is its own
    trimming. *)
Lemma trim_fixed (s : jsstring) :
  headOk s = true -> lastOk s = true -> trim s = s.
Proof.
  intros Hh Hl. unfold trim, trimEnd. rewrite (trimStart_fixed _ Hh).
  unfold lastOk in Hl. rewrite (trimStart_fixed _ Hl). apply rev_involutive.
Qed.

(** What [trim] returns is empty or has neither edge strippable. *)
Lemma trim_edges (s : jsstring) :
  trim s = [] \/ (headOk (trim s) = true /\ lastOk (trim s) = true).
Proof.
  unfold trim, trimEnd, lastOk.
  set (a := trimStart s).
  destruct (trimStart_headOk (rev a)) as [Hb|Hb].
  - left. now rewrite Hb.
  - right. rewrite rev_involutive. split; [|exact Hb].
    destruct (trimStart_suffix (rev a)) as [p Hp].
    destruct (trimStart (rev a)) as [|c b] eqn:Eb; [discriminate|].
    assert (Ha : a = rev (c :: b) ++ rev p).
    { rewrite <- rev_app_distr, <- Hp. symmetry. apply rev_involutive. }
    pose proof (trimStart_headOk s) as Hs. fold a in Hs.
    destruct Hs as [Hn|Hh].
    + rewrite Hn in Ha. destruct (rev (c :: b)) eqn:Er; [|discriminate].
      apply (f_equal (@rev N)) in Er. rewrite rev_involutive in Er.
      discriminate.
    + rewrite Ha in Hh. destruct (rev (c :: b)) as [|x r] eqn:Er.
      * apply (f_equal (@rev N)) in Er. rewrite rev_involutive in Er.
        discriminate.
      * exact Hh.
Qed.

Lemma trim_idempotent (s : jsstring) : trim (trim s) = trim s.
Proof.
  destruct (trim_edges s) as [->|[Hh Hl]]; [reflexivity|].
  now apply trim_fixed.
Qed.

Lemma trim_nil (s : jsstring) :
  trim s = [] <-> forallb isTrimmable s = true.
Proof.
  split.
  - intros H. apply trimStart_nil.
    unfold trim, trimEnd in H.
    apply (f_equal (@rev N)) in H. rewrite rev_involutive in H. simpl in H.
    apply trimStart_nil in H. rewrite forallb_forall in H.
    destruct (trimStart_headOk s) as [Hn|Hh]; [exact Hn|].
    destruct (trimStart s) as [|c t]; [reflexivity|].
    simpl in Hh. apply negb_true_iff in Hh.
    rewrite (H c) in Hh; [discriminate|].
    apply -> in_rev. now left.
  - intros H. apply trimStart_nil in H. unfold trim. now rewrite H.
Qed.

Lemma lastOk_app (p m : jsstring) : lastOk m = true -> lastOk (p ++ m) = true.
Proof.
  unfold lastOk. rewrite rev_app_distr.
  destruct (rev m); [discriminate|]. trivial.
Qed.

Lemma assoc_in {V : Type} (k : jsstring) (l : list (jsstring * V)) (v : V) :
  assoc k l = Some v -> In v (map snd l).
Proof.
  induction l as [|[k' v'] l IH]; [discriminate|].
  simpl. destruct (JsString.eqb k k'); [intros [= ->]; now left|].
  intros H. right. now apply IH.
Qed.

(** Whatever the type, the text that annotation prepends does not start
    with a character that [trim] strips. *)
Lemma emoji_prefix_headOk (type rest : jsstring) :
  headOk (toString (or_else (emojiMap_get type) (Str (js "✨"))) ++ rest) = true.
Proof.
  unfold emojiMap_get.
  destruct (assoc type emojiMap) as [e|] eqn:He.
  - apply assoc_in in He. unfold emojiMap in He. cbn [map snd In] in He.
    repeat (destruct He as [<-|He]; [vm_compute; reflexivity|]).
    contradiction.
  - destruct (assoc type Object_prototype) as [v|] eqn:Hp.
    + apply assoc_in in Hp. unfold Object_prototype in Hp.
      cbn [map snd In] in Hp.
      repeat (destruct Hp as [<-|Hp]; [vm_compute; reflexivity|]).
      contradiction.
    + vm_compute. reflexivity.
Qed.

Lemma addEmoji_edges (commitMessage type : jsstring) :
  headOk commitMessage = true -> lastOk commitMessage = true ->
  headOk (addEmojiToCommitMessage commitMessage type) = true
  /\ lastOk (addEmojiToCommitMessage commitMessage type) = true.
Proof.
  intros Hh Hl. unfold addEmojiToCommitMessage.
  destruct (startsWithEmoji commitMessage); [now split|].
  cbv zeta. split; [apply emoji_prefix_headOk|].
  apply lastOk_app. now apply lastOk_app.
Qed.

(* ================================================================== *)
(** ** Further properties of the message generator *)

(** X8: a provider constructed without a non-empty key, in the settings
    or in the environment, throws on every [generateCommitMessage]; one
    constructed with a key never does.  A non-empty key of the settings
    takes precedence over the environment's. *)
Theorem generateCommitMessage_throws_iff_no_key
  (newOpenAI : jsstring -> OpenAI) (configured environment : option jsstring)
  (extension : option GitAPI) (diffContent : jsstring) :
  let this := construct newOpenAI configured environment extension in
  ((exists e, outcome (generateCommitMessage this diffContent) = Throw e)
   <-> ((configured = None \/ configured = Some [])
        /\ (environment = None \/ environment = Some [])))
  /\ (forall k, configured = Some k -> k <> [] ->
        openai this = Some (newOpenAI k)).
Proof.
  intros this. subst this. unfold construct. split.
  - destruct (initOpenAI newOpenAI configured environment) as [client|] eqn:Hi.
    + split.
      * intros [e He].
        rewrite (@generateCommitMessage_run
                   {| openai := Some client; gitExtension := extension |}
                   client diffContent eq_refl) in He.
        destruct (chat_completions_create client _); discriminate He.
      * intros [Hc He]. exfalso. unfold initOpenAI in Hi.
        destruct Hc as [->| ->], He as [->| ->]; discriminate Hi.
    + split.
      * intros _. unfold initOpenAI in Hi.
        destruct configured as [[|c k]|], environment as [[|c' k']|];
          try discriminate Hi; split; auto.
      * intros _. unfold generateCommitMessage. simpl.
        eexists. reflexivity.
  - intros k -> Hk. simpl. unfold initOpenAI.
    destruct k; [congruence|reflexivity].
Qed.

Lemma includes_here (s rest : jsstring) : startsWith (s ++ rest) s = true.
Proof.
  induction s as [|c s IH]; [destruct rest; reflexivity|].
  simpl. now rewrite N.eqb_refl, IH.
Qed.

Lemma includes_app (a s rest : jsstring) : includes (a ++ s ++ rest) s = true.
Proof.
  induction a as [|c a IH].
  - simpl. pose proof (includes_here s rest) as H.
    destruct (s ++ rest); cbn [includes]; now rewrite H.
  - cbn [app includes]. rewrite IH. apply orb_true_r.
Qed.

(** X9: [generateCommitMessage] makes at most one completion request and
    never repeats it: none without a client; with a client exactly one,
    whether it succeeds or fails, for the model gpt-4 and with a user
    prompt that contains the diff text as it is. *)
Theorem generateCommitMessage_single_request
  (this : AiCommitProvider.t) (diffContent : jsstring) :
  filter isCompletionRequest (events (generateCommitMessage this diffContent))
  = match openai this with
    | Some _ =>
        [ChatCompletionsCreate
           {| model := js "gpt-4";
              messages :=
                [ (js "system",
                   js "You are a helpful assistant that generates git commit messages.");
                  (js "user", promptFor diffContent) ];
              max_tokens := 200;
              temperature := (5 # 10)%Q |}]
    | None => []
    end
  /\ includes (promptFor diffContent) diffContent = true.
Proof.
  split.
  - destruct (openai this) as [client|] eqn:Hc.
    + rewrite (generateCommitMessage_run this diffContent Hc).
      destruct (chat_completions_create client _); reflexivity.
    + unfold generateCommitMessage. rewrite Hc. reflexivity.
  - unfold promptFor. apply includes_app.
Qed.

(** X10: whatever [generateCommitMessage] returns has no white space or
    line terminator at either end: trimming it changes nothing. *)
Theorem generateCommitMessage_trimmed
  (this : AiCommitProvider.t) (diffContent commitMessage : jsstring) :
  outcome (generateCommitMessage this diffContent) = Return commitMessage ->
  trim commitMessage = commitMessage.
Proof.
  assert (Hd : headOk defaultCommitMessage = true
               /\ lastOk defaultCommitMessage = true)
    by (split; vm_compute; reflexivity).
  destruct (openai this) as [client|] eqn:Hc.
  - rewrite (generateCommitMessage_run this diffContent Hc).
    destruct (chat_completions_create client _) as [e|response];
      unfold outcome; simpl; intros [= <-].
    + now apply trim_fixed.
    + unfold postProcess.
      assert (Ho : headOk (orDefault (firstCompletionText response)) = true
                   /\ lastOk (orDefault (firstCompletionText response)) = true).
      { unfold firstCompletionText, orDefault.
        destruct (choices response) as [|choice ?]; [exact Hd|].
        destruct (message choice) as [m|]; [|exact Hd].
        destruct (content m) as [c|]; [|exact Hd].
        destruct (trim_edges c) as [->|H]; [exact Hd|].
        destruct (trim c); [exact Hd|exact H]. }
      destruct Ho as [Hh Hl].
      now apply trim_fixed; apply addEmoji_edges.
  - unfold generateCommitMessage. rewrite Hc. discriminate.
Qed.

Lemma generateCommitMessage_trimmed_witness :
  trim defaultCommitMessage = defaultCommitMessage.
Proof.
  assert (H : outcome (generateCommitMessage
                         (providerWith (Some (clientReturning (Some (js "  "))))
                            None) [])
              = Return defaultCommitMessage) by (vm_compute; reflexivity).
  exact (@generateCommitMessage_trimmed _ _ _ H).
Defined.

Lemma postProcess_table_type_witness :
  let text := js "docs(readme): add usage" in
  postProcess {| choices := [ {| message := Some {| content := Some text |} |} ] |}
  = js "📚" ++ js " " ++ text.
Proof.
  intros text.
  assert (Hr : firstCompletionText
                 {| choices := [ {| message := Some {| content := Some text |} |} ] |}
               = Some text) by (vm_compute; reflexivity).
  assert (Hs : startsWithEmoji text = false) by (vm_compute; reflexivity).
  assert (Hm : matchHeader text = Some (js "docs")) by (vm_compute; reflexivity).
  assert (He : assoc (js "docs") emojiMap = Some (js "📚"))
    by (vm_compute; reflexivity).
  exact (@postProcess_table_type _ text (js "docs") (js "📚") Hr Hs Hm He).
Defined.

Lemma addEmoji_idempotent_plain_type_witness :
  addEmojiToCommitMessage
    (addEmojiToCommitMessage (js "fix: typo") (js "fix")) (js "fix")
  = addEmojiToCommitMessage (js "fix: typo") (js "fix").
Proof.
  assert (Hp : assoc (js "fix") Object_prototype = None)
    by (vm_compute; reflexivity).
  exact (@addEmoji_idempotent_plain_type (js "fix: typo") (js "fix") (js "fix") Hp).
Defined.

(** X11: with the extension and a repository present, the composite
    [getChangesDiff] returns is blank (empty after trimming) exactly when
    it is empty, and that is exactly when no file produced a diff. *)
Theorem getChangesDiff_blank_iff_nothing
  (this : AiCommitProvider.t) (vscode : Vscode) (git : GitAPI)
  (repo : Repository) (others : list Repository) (filePaths : list jsstring) :
  gitExtension this = Some git ->
  repositories git = repo :: others ->
  exists composite,
    outcome (getChangesDiff this vscode filePaths) = Return composite
    /\ (trim composite = [] <-> composite = [])
    /\ (composite = [] <-> producedDiffs vscode repo filePaths = []).
Proof.
  intros Hg Hr. rewrite (getChangesDiff_run vscode this filePaths Hg Hr).
  eexists. split; [reflexivity|].
  destruct (producedDiffs vscode repo filePaths) as [|r ds].
  - split; split; reflexivity.
  - assert (Hne : concat (map section (r :: ds)) <> [])
      by (simpl; unfold section, LF; discriminate).
    split; split; try discriminate; try (intros H; now apply Hne in H).
    intros H. apply trim_nil in H. simpl in H. unfold section in H.
    change (js "--- ") with [45; 45; 45; 32] in H. discriminate H.
Qed.

Lemma getChangesDiff_blank_iff_nothing_witness :
  exists composite,
    outcome (getChangesDiff (providerWith None (Some sampleGit)) sampleVscode
               [js "gone.ts"]) = Return composite
    /\ (trim composite = [] <-> composite = [])
    /\ (composite = []
        <-> producedDiffs sampleVscode sampleRepo [js "gone.ts"] = []).
Proof.
  exact (@getChangesDiff_blank_iff_nothing (providerWith None (Some sampleGit))
           sampleVscode sampleGit sampleRepo [] [js "gone.ts"] eq_refl eq_refl).
Defined.

(* ================================================================== *)
(** ** Methods of the view: general facts *)

Import CommitViewProvider Extension.

Arguments jsq : simpl never.
Arguments _getHtmlForWebview : simpl never.
Arguments updateContent : simpl never.

Section Guarantees.

Variable R : CommitViewProvider.t -> CommitViewProvider.t -> Prop.
Variable Q : uiEvent -> Prop.
Hypothesis R_refl : forall a, R a a.
Hypothesis R_trans : forall a b c, R a b -> R b c -> R a c.

Lemma satisfies_ret {A} (a : A) : satisfies R Q (uret a).
Proof. intros this. split; [apply R_refl|constructor]. Qed.

Lemma satisfies_throw {A} (e : thrown) : satisfies R Q (@uthrow A e).
Proof. intros this. split; [apply R_refl|constructor]. Qed.

Lemma satisfies_get : satisfies R Q uget.
Proof. intros this. split; [apply R_refl|constructor]. Qed.

Lemma satisfies_emit (ev : uiEvent) : Q ev -> satisfies R Q (uemit ev).
Proof. intros H this. split; [apply R_refl|]. repeat constructor. exact H. Qed.

Lemma satisfies_call {A} (ev : uiEvent) (r : thrown + A) :
  Q ev -> satisfies R Q (ucall ev r).
Proof. intros H this. split; [apply R_refl|]. repeat constructor. exact H. Qed.

Lemma satisfies_value {A} (r : thrown + A) : satisfies R Q (uvalue r).
Proof. intros this. split; [apply R_refl|constructor]. Qed.

Lemma satisfies_modify (f : CommitViewProvider.t -> CommitViewProvider.t) :
  (forall this, R this (f this)) -> satisfies R Q (umodify f).
Proof. intros H this. split; [apply H|constructor]. Qed.

Lemma satisfies_ofProvider {A} (m : M A) :
  Forall (fun ev => Q (Base ev)) (fst m) -> satisfies R Q (ofProvider m).
Proof.
  intros H this. split; [apply R_refl|].
  unfold ofProvider. simpl. induction H; simpl; constructor; assumption.
Qed.

Lemma satisfies_bind {A B} (m : U A) (k : A -> U B) :
  satisfies R Q m -> (forall a, satisfies R Q (k a)) ->
  satisfies R Q (ubind m k).
Proof.
  intros Hm Hk this. unfold ubind.
  destruct (Hm this) as [H1 H2].
  destruct (m this) as [l [this' [a|e]]]; simpl in *; [|now split].
  destruct (Hk a this') as [H3 H4].
  destruct (k a this') as [l' [this'' r]]; simpl in *.
  split; [eapply R_trans; eassumption|]. apply Forall_app. now split.
Qed.

Lemma satisfies_try {A} (m : U A) (h : thrown -> U A) :
  satisfies R Q m -> (forall e, satisfies R Q (h e)) ->
  satisfies R Q (utry m h).
Proof.
  intros Hm Hh this. unfold utry.
  destruct (Hm this) as [H1 H2].
  destruct (m this) as [l [this' [a|e]]]; simpl in *; [now split|].
  destruct (Hh e this') as [H3 H4].
  destruct (h e this') as [l' [this'' r]]; simpl in *.
  split; [eapply R_trans; eassumption|]. apply Forall_app. now split.
Qed.

End Guarantees.

(** The steps of a method, one guarantee each. *)
Ltac guarantee Hrefl Htrans :=
  repeat match goal with
    | |- satisfies _ _ (utry _ _) => apply (satisfies_try Htrans); [|intros ?]
    | |- satisfies _ _ (ubind _ _) => apply (satisfies_bind Htrans); [|intros ?]
    | |- satisfies _ _ (uret _) => apply satisfies_ret; exact Hrefl
    | |- satisfies _ _ (uthrow _) => apply satisfies_throw; exact Hrefl
    | |- satisfies _ _ uget => apply satisfies_get; exact Hrefl
    | |- satisfies _ _ (uvalue _) => apply satisfies_value; exact Hrefl
    | |- satisfies _ _ (if ?x then _ else _) => destruct x eqn:?
    | |- satisfies _ _ (match ?x with _ => _ end) => destruct x
    end.

(** The events of a method, when every event is fine. *)
Ltac any_event Hrefl :=
  match goal with
  | |- satisfies _ _ (uemit _) => apply satisfies_emit; [exact Hrefl|exact I]
  | |- satisfies _ _ (ucall _ _) => apply satisfies_call; [exact Hrefl|exact I]
  end.

Lemma returns_ret {A} (a : A) : returns (uret a).
Proof. intros this. now exists a. Qed.

Lemma returns_emit (ev : uiEvent) : returns (uemit ev).
Proof. intros this. now exists tt. Qed.

Lemma returns_bind {A B} (m : U A) (k : A -> U B) :
  returns m -> (forall a, returns (k a)) -> returns (ubind m k).
Proof.
  intros Hm Hk this. unfold ubind.
  destruct (Hm this) as [a Ha].
  destruct (m this) as [l [this' c]]; simpl in Ha. subst c.
  destruct (Hk a this') as [b Hb].
  destruct (k a this') as [l' [this'' r]]; simpl in *. now exists b.
Qed.

(** A [try] returns when its [catch] returns for whatever the block can
    throw. *)
Lemma returns_try {A} (P : thrown -> Prop) (m : U A) (h : thrown -> U A) :
  throwsOnly P m -> (forall e, P e -> returns (h e)) -> returns (utry m h).
Proof.
  intros Hm Hh this. unfold utry.
  pose proof (Hm this) as Hp.
  destruct (m this) as [l [this' [a|e]]]; simpl; [now exists a|].
  destruct (Hh e (Hp e eq_refl) this') as [b Hb].
  destruct (h e this') as [l' [this'' r]]; simpl in *. now exists b.
Qed.

Section Throws.

Variable P : thrown -> Prop.

Lemma throwsOnly_ret {A} (a : A) : throwsOnly P (uret a).
Proof. intros this e H. discriminate H. Qed.

Lemma throwsOnly_emit (ev : uiEvent) : throwsOnly P (uemit ev).
Proof. intros this e H. discriminate H. Qed.

Lemma throwsOnly_get : throwsOnly P uget.
Proof. intros this e H. discriminate H. Qed.

Lemma throwsOnly_modify (f : CommitViewProvider.t -> CommitViewProvider.t) :
  throwsOnly P (umodify f).
Proof. intros this e H. discriminate H. Qed.

Lemma throwsOnly_throw {A} (e : thrown) : P e -> throwsOnly P (@uthrow A e).
Proof. intros He this e' H. injection H as <-. exact He. Qed.

Lemma throwsOnly_value {A} (r : thrown + A) :
  (forall e, r = inl e -> P e) -> throwsOnly P (uvalue r).
Proof.
  intros Hr this e H. unfold uvalue in H. cbn [fst snd] in H.
  destruct r as [e'|a]; [|discriminate H].
  injection H as <-. now apply Hr.
Qed.


Lemma throwsOnly_ofProvider {A} (m : M A) :
  (forall e, outcome m = Throw e -> P e) -> throwsOnly P (ofProvider m).
Proof. intros Hm this e H. now apply Hm. Qed.

Lemma throwsOnly_bind {A B} (m : U A) (k : A -> U B) :
  throwsOnly P m -> (forall a, throwsOnly P (k a)) -> throwsOnly P (ubind m k).
Proof.
  intros Hm Hk this e. unfold ubind.
  pose proof (Hm this) as H1.
  destruct (m this) as [l [this' [a|e']]]; cbn [fst snd] in *.
  - pose proof (Hk a this') as H2.
    destruct (k a this') as [l' [this'' r]]; cbn [fst snd] in *.
    intros H. now apply H2.
  - intros H. injection H as <-. now apply H1.
Qed.

Lemma throwsOnly_try {A} (m : U A) (h : thrown -> U A) :
  (forall e, throwsOnly P (h e)) -> throwsOnly P (utry m h).
Proof.
  intros Hh this e. unfold utry.
  destruct (m this) as [l [this' [a|e']]]; cbn [fst snd].
  - intros H. discriminate H.
  - pose proof (Hh e' this') as H2.
    destruct (h e' this') as [l' [this'' r]]; cbn [fst snd] in *.
    intros H. now apply H2.
Qed.

End Throws.

Lemma throwsOnly_weaken {A} (P P' : thrown -> Prop) (m : U A) :
  (forall e, P e -> P' e) -> throwsOnly P m -> throwsOnly P' m.
Proof. intros H Hm this e He. apply H. now apply (Hm this). Qed.

Lemma hasProperties_error (message : jsstring) (code : option jsstring) :
  hasProperties (ErrorInstance message code).
Proof. split; discriminate. Qed.

(** Reading the message of a caught value throws nothing but a TypeError,
    and throws nothing when the value has properties. *)
Lemma error_message_throws (error e : thrown) :
  error_message error = inl e -> hasProperties e.
Proof.
  destruct error; cbn [error_message]; intros H; try discriminate H;
    injection H as <-; apply hasProperties_error.
Qed.

Lemma error_message_text (error : thrown) :
  hasProperties error -> error_message error = inr (errorMessageText error).
Proof. intros [H1 H2]. destruct error; try reflexivity; congruence. Qed.


(** The steps of a method, as to what they throw. *)
Ltac throws_only :=
  repeat match goal with
    | |- throwsOnly _ (utry _ _) => apply throwsOnly_try; intros ?
    | |- throwsOnly _ (ubind _ _) => apply throwsOnly_bind; [|intros ?]
    | |- throwsOnly _ (uret _) => apply throwsOnly_ret
    | |- throwsOnly _ (uemit _) => apply throwsOnly_emit
    | |- throwsOnly _ uget => apply throwsOnly_get
    | |- throwsOnly _ (umodify _) => apply throwsOnly_modify
    | |- throwsOnly _ (uthrow (ErrorInstance _ _)) =>
        apply throwsOnly_throw; apply hasProperties_error
    | |- throwsOnly _ (uvalue (error_message _)) =>
        apply throwsOnly_value; apply error_message_throws
    | |- throwsOnly _ (if ?x then _ else _) => destruct x eqn:?
    | |- throwsOnly _ (match ?x with _ => _ end) => destruct x
    end.

(** The handler of every [catch] of the view and of the commands reads the
    message of what it caught, shows one message and logs one error.  It
    returns when the caught value has properties, and throws a TypeError
    when that value is null or undefined. *)
Lemma handler_outcome (prefix text' : jsstring) (error : thrown)
  (this : CommitViewProvider.t) :
  snd (snd (ubind (uvalue (error_message error))
              (fun text =>
                 ubind (uemit (Base (ShowErrorMessage (prefix ++ text))))
                   (fun _ => uemit (Base (ConsoleError text' error))))
              this))
  = match error_message error with
    | inl typeError => Throw typeError
    | inr _ => Return tt
    end.
Proof.
  unfold ubind, uvalue, uemit. cbn [fst snd].
  destruct (error_message error); reflexivity.
Qed.

Lemma returns_handler (prefix text' : jsstring) (error : thrown) :
  hasProperties error ->
  returns (ubind (uvalue (error_message error))
             (fun text =>
                ubind (uemit (Base (ShowErrorMessage (prefix ++ text))))
                  (fun _ => uemit (Base (ConsoleError text' error))))).
Proof.
  intros Hp this. exists tt. rewrite handler_outcome.
  now rewrite (error_message_text Hp).
Qed.

(** The provider throws [Error] instances only. *)
Lemma getChangesDiff_throws
  (p : AiCommitProvider.t) (vscode : Vscode) (filePaths : list jsstring)
  (e : thrown) :
  outcome (getChangesDiff p vscode filePaths) = Throw e -> hasProperties e.
Proof.
  destruct (gitExtension p) as [git|] eqn:Hg.
  - destruct (repositories git) as [|repo others] eqn:Hr.
    + unfold getChangesDiff. rewrite Hg, Hr. intros H.
      injection H as <-. apply hasProperties_error.
    + rewrite (getChangesDiff_run vscode p filePaths Hg Hr).
      intros H. discriminate H.
  - unfold getChangesDiff. rewrite Hg. intros H.
    injection H as <-. apply hasProperties_error.
Qed.

Lemma generateCommitMessage_throws
  (p : AiCommitProvider.t) (diffContent : jsstring) (e : thrown) :
  outcome (generateCommitMessage p diffContent) = Throw e -> hasProperties e.
Proof.
  destruct (openai p) as [client|] eqn:Hc.
  - rewrite (generateCommitMessage_run p diffContent Hc).
    destruct (chat_completions_create client _); intros H; discriminate H.
  - unfold generateCommitMessage. rewrite Hc. intros H.
    injection H as <-. apply hasProperties_error.
Qed.

Lemma getAPI_throws (gitExtension : GitExtension) (e : thrown) :
  getAPI gitExtension = inl e -> hasProperties e.
Proof.
  unfold getAPI. destruct (exports_getAPI gitExtension); intros H;
    [injection H as <-; apply hasProperties_error|discriminate H].
Qed.


Lemma loadChangedFiles_returns (host : UiHost) :
  returns (_loadChangedFiles host).
Proof.
  unfold _loadChangedFiles.
  apply (@returns_try _ hasProperties);
    [|intros e He; now apply returns_handler].
  unfold _updateWebview. throws_only.
  apply throwsOnly_value. apply getAPI_throws.
Qed.

Lemma applyCommitMessage_returns (host : UiHost) (message : jsstring) :
  returns (_applyCommitMessage host message).
Proof.
  unfold _applyCommitMessage.
  apply (@returns_try _ hasProperties);
    [|intros e He; now apply returns_handler].
  throws_only. apply throwsOnly_value. apply getAPI_throws.
Qed.

Lemma generateCommitWithSelectedFiles_returns
  (host : UiHost) (selectedFiles : list jsstring) :
  returns (_generateCommitWithSelectedFiles host selectedFiles).
Proof.
  unfold _generateCommitWithSelectedFiles.
  apply (@returns_try _ hasProperties);
    [|intros e He; now apply returns_handler].
  unfold updateContent, _updateWebview. throws_only.
  - apply throwsOnly_ofProvider. apply getChangesDiff_throws.
  - apply throwsOnly_ofProvider. apply generateCommitMessage_throws.
Qed.

Lemma generateCommitCommand_throws (host : UiHost) :
  throwsOnly hasProperties (generateCommitCommand host).
Proof. unfold generateCommitCommand. throws_only. Qed.

Lemma executeCommand_generateCommitMessage
  (host : UiHost) (p : AiCommitProvider.t) (fileUris : option (list Uri)) :
  executeCommand host p (js "commit-with-ai.generateCommitMessage") fileUris
  = generateCommitCommand host.
Proof.
  unfold executeCommand.
  replace (JsString.eqb (js "commit-with-ai.generateCommitMessage")
             (js "commit-with-ai.refreshFiles")) with false
    by (vm_compute; reflexivity).
  replace (JsString.eqb (js "commit-with-ai.generateCommitMessage")
             (js "commit-with-ai.generateWithSelected")) with false
    by (vm_compute; reflexivity).
  replace (JsString.eqb (js "commit-with-ai.generateCommitMessage")
             (js "commit-with-ai.generateCommitMessage")) with true
    by (vm_compute; reflexivity).
  reflexivity.
Qed.

(* ================================================================== *)
(** ** Properties of the view and of the commands *)

(** X15: the listener of the page never throws: whatever the page posts
    and whatever the host and the provider do, every error is caught inside
    the method that handles the message. *)
Theorem onMessage_never_throws
  (host : UiHost) (a : Activation) (message : WebviewMessage)
  (this : CommitViewProvider.t) :
  snd (snd (onMessage host a message this)) = Return tt.
Proof.
  assert (H : returns (onMessage host a message)).
  { unfold onMessage, onDidReceiveMessage. destruct message.
    - apply applyCommitMessage_returns.
    - unfold _regenerateCommitMessage.
      apply (@returns_try _ hasProperties);
        [|intros e He; now apply returns_handler].
      apply throwsOnly_bind; [apply throwsOnly_emit|intros _].
      rewrite executeCommand_generateCommitMessage.
      apply generateCommitCommand_throws.
    - apply generateCommitWithSelectedFiles_returns.
    - apply loadChangedFiles_returns.
    - apply returns_ret. }
  destruct (H this) as [[] Hr]. exact Hr.
Qed.




Lemma Forall_trivial {A} (P : A -> Prop) (l : list A) :
  (forall a, P a) -> Forall P l.
Proof. intros H. induction l; constructor; auto. Qed.

Lemma allSelected_loaded (host : UiHost) (changes : list Uri)
  (this : CommitViewProvider.t) :
  allSelected
    (set_changedFiles this
       (map (fun change =>
               {| path := workspace_asRelativePath (vscode host) (fsPath change);
                  selected := true |}) changes)).
Proof.
  unfold allSelected. simpl. induction changes; constructor; auto.
Qed.

Lemma allSelected_updateWebview :
  satisfies (fun a b => allSelected a -> allSelected b) (fun _ => True)
    _updateWebview.
Proof.
  apply satisfies_modify. intros this. destruct (_view this); auto.
Qed.

Lemma allSelected_loadChangedFiles (host : UiHost) :
  satisfies (fun a b => allSelected a -> allSelected b) (fun _ => True)
    (_loadChangedFiles host).
Proof.
  assert (Hrefl : forall a : CommitViewProvider.t, allSelected a -> allSelected a)
    by auto.
  assert (Htrans : forall a b c : CommitViewProvider.t,
             (allSelected a -> allSelected b) ->
             (allSelected b -> allSelected c) -> allSelected a -> allSelected c)
    by auto.
  unfold _loadChangedFiles.
  guarantee Hrefl Htrans; try any_event Hrefl;
    try apply allSelected_updateWebview.
  apply satisfies_modify. intros this _. apply allSelected_loaded.
Qed.

(** X17: every listed file is selected, always: the property holds of a
    new view and is kept by resolving the page, by every message of the
    page and by every registered command. *)
Theorem allSelected_invariant
  (host : UiHost) (a : Activation) (this : CommitViewProvider.t) :
  allSelected (CommitViewProvider.new (extensionUri host))
  /\ (allSelected this ->
      (forall webviewView,
         allSelected (fst (snd (resolveWebviewView host webviewView this))))
      /\ (forall message,
            allSelected (fst (snd (onMessage host a message this))))
      /\ (forall command fileUris,
            allSelected
              (fst (snd (executeCommand host (aiCommitProvider a) command
                           fileUris this))))).
Proof.
  set (R := fun a b : CommitViewProvider.t => allSelected a -> allSelected b).
  assert (Hrefl : forall a, R a a) by (unfold R; auto).
  assert (Htrans : forall a b c, R a b -> R b c -> R a c) by (unfold R; auto).
  assert (Hload := allSelected_loadChangedFiles host). fold R in Hload.
  assert (Hupd := allSelected_updateWebview). fold R in Hupd.
  assert (Hcontent : forall m d, satisfies R (fun _ => True) (updateContent m d)).
  { intros m d. unfold updateContent.
    apply (satisfies_bind Htrans); [|intros _; exact Hupd].
    apply satisfies_modify. intros s. unfold R, allSelected. auto. }
  assert (Hprov : forall A (m : M A), satisfies R (fun _ => True) (ofProvider m)).
  { intros A m. apply satisfies_ofProvider; [exact Hrefl|].
    now apply Forall_trivial. }
  assert (Hcmd : forall command fileUris,
             satisfies R (fun _ => True)
               (executeCommand host (aiCommitProvider a) command fileUris)).
  { intros command fileUris.
    unfold executeCommand, refreshFilesCommand, generateWithSelectedCommand,
      generateCommitCommand, refreshChangedFiles, hostCommand.
    guarantee Hrefl Htrans; try any_event Hrefl;
      first [exact Hload | apply Hprov | apply Hcontent]. }
  split; [constructor|].
  intros Hs. split; [|split].
  - intros webviewView.
    assert (H : satisfies R (fun _ => True) (resolveWebviewView host webviewView)).
    { unfold resolveWebviewView, unawaited.
      guarantee Hrefl Htrans; first [exact Hload | exact Hupd | idtac].
      apply satisfies_modify. intros s. unfold R, allSelected. auto. }
    now apply (H this).
  - intros message.
    assert (H : satisfies R (fun _ => True) (onMessage host a message)).
    { unfold onMessage, onDidReceiveMessage.
      destruct message; [| | | |apply satisfies_ret; exact Hrefl].
      - unfold _applyCommitMessage.
        guarantee Hrefl Htrans; any_event Hrefl.
      - unfold _regenerateCommitMessage.
        guarantee Hrefl Htrans; try any_event Hrefl. apply Hcmd.
      - unfold _generateCommitWithSelectedFiles.
        guarantee Hrefl Htrans; try any_event Hrefl;
          first [apply Hprov | apply Hcontent].
      - exact Hload. }
    now apply (H this).
  - intros command fileUris. now apply (Hcmd command fileUris this).
Qed.

Lemma html_set_view (this : CommitViewProvider.t) (v : option WebviewView) :
  _getHtmlForWebview (set_view this v) = _getHtmlForWebview this.
Proof.
  unfold _getHtmlForWebview.
  cbn [_changedFiles _commitMessage _diffContent set_view]. reflexivity.
Qed.

(** After [_updateWebview] the page is in sync, whatever it showed. *)
Lemma inSync_updateWebview (this : CommitViewProvider.t) :
  inSync (fst (snd (_updateWebview this))).
Proof.
  unfold _updateWebview, umodify, inSync. cbn [fst snd].
  destruct (_view this) as [w|] eqn:Hv; [|now rewrite Hv].
  cbn [_view set_view html]. apply eq_sym, html_set_view.
Qed.

Lemma inSync_modify_update
  (Q : uiEvent -> Prop) (f : CommitViewProvider.t -> CommitViewProvider.t) :
  satisfies (fun a b => inSync a -> inSync b) Q
    (ubind (umodify f) (fun _ => _updateWebview)).
Proof.
  intros this. unfold ubind, umodify.
  pose proof (inSync_updateWebview (f this)) as H.
  destruct (_updateWebview (f this)) as [l [this' r]] eqn:E.
  assert (Hl : l = []) by (unfold _updateWebview, umodify in E; congruence).
  subst l. cbn [fst snd] in *. split; [auto|constructor].
Qed.

Lemma inSync_loadChangedFiles (host : UiHost) :
  satisfies (fun a b => inSync a -> inSync b) (fun _ => True)
    (_loadChangedFiles host).
Proof.
  assert (Hrefl : forall a : CommitViewProvider.t, inSync a -> inSync a) by auto.
  assert (Htrans : forall a b c : CommitViewProvider.t,
             (inSync a -> inSync b) -> (inSync b -> inSync c) ->
             inSync a -> inSync c) by auto.
  unfold _loadChangedFiles.
  repeat match goal with
    | |- satisfies _ _ (ubind (umodify _) (fun _ => _updateWebview)) =>
        apply inSync_modify_update
    | |- satisfies _ _ (utry _ _) => apply (satisfies_try Htrans); [|intros ?]
    | |- satisfies _ _ (ubind _ _) => apply (satisfies_bind Htrans); [|intros ?]
    | |- satisfies _ _ (uthrow _) => apply satisfies_throw; exact Hrefl
    | |- satisfies _ _ uget => apply satisfies_get; exact Hrefl
    | |- satisfies _ _ (uvalue _) => apply satisfies_value; exact Hrefl
    | |- satisfies _ _ (match ?x with _ => _ end) => destruct x
    | |- satisfies _ _ (uemit _) => apply satisfies_emit; [exact Hrefl|exact I]
    end.
Qed.

(** X18: the page never shows stale content.  Resolving the page leaves it
    in sync with the fields of the view, and every message of the page and
    every registered command keeps it so, also when they fail. *)
Theorem inSync_invariant
  (host : UiHost) (a : Activation) (this : CommitViewProvider.t) :
  (forall webviewView,
     inSync (fst (snd (resolveWebviewView host webviewView this))))
  /\ (inSync this ->
      (forall message, inSync (fst (snd (onMessage host a message this))))
      /\ (forall command fileUris,
            inSync (fst (snd (executeCommand host (aiCommitProvider a) command
                                fileUris this))))).
Proof.
  set (R := fun a b : CommitViewProvider.t => inSync a -> inSync b).
  assert (Hrefl : forall a, R a a) by (unfold R; auto).
  assert (Htrans : forall a b c, R a b -> R b c -> R a c) by (unfold R; auto).
  assert (Hload := inSync_loadChangedFiles host). fold R in Hload.
  assert (Hcontent : forall m d, satisfies R (fun _ => True) (updateContent m d))
    by (intros m d; apply inSync_modify_update).
  assert (Hprov : forall A (m : M A), satisfies R (fun _ => True) (ofProvider m)).
  { intros A m. apply satisfies_ofProvider; [exact Hrefl|].
    now apply Forall_trivial. }
  assert (Hcmd : forall command fileUris,
             satisfies R (fun _ => True)
               (executeCommand host (aiCommitProvider a) command fileUris)).
  { intros command fileUris.
    unfold executeCommand, refreshFilesCommand, generateWithSelectedCommand,
      generateCommitCommand, refreshChangedFiles, hostCommand.
    guarantee Hrefl Htrans; try any_event Hrefl;
      first [exact Hload | apply Hprov | apply Hcontent]. }
  split.
  - intros webviewView.
    unfold resolveWebviewView, unawaited, ubind, utry, umodify, uret.
    set (this1 := set_view this _).
    destruct (_loadChangedFiles host this1) as [l [this2 [[]|e]]];
      cbn [fst snd];
      pose proof (inSync_updateWebview this2) as H;
      destruct (_updateWebview this2) as [l' [this3 r']]; exact H.
  - intros Hs. split.
    + intros message.
      assert (H : satisfies R (fun _ => True) (onMessage host a message)).
      { unfold onMessage, onDidReceiveMessage.
        destruct message; [| | | |apply satisfies_ret; exact Hrefl].
        - unfold _applyCommitMessage.
          guarantee Hrefl Htrans; any_event Hrefl.
        - unfold _regenerateCommitMessage.
          guarantee Hrefl Htrans; try any_event Hrefl. apply Hcmd.
        - unfold _generateCommitWithSelectedFiles.
          guarantee Hrefl Htrans; try any_event Hrefl;
            first [apply Hprov | apply Hcontent].
        - exact Hload. }
      now apply (H this).
    + intros command fileUris. now apply (Hcmd command fileUris this).
Qed.

Lemma getFileDiff_no_completion
  (vscode : Vscode) (repo : Repository) (uri : Uri) :
  forallb (fun ev => negb (isCompletionRequest ev))
    (events (getFileDiff vscode repo uri)) = true.
Proof.
  unfold getFileDiff.
  destruct (workspace_fs_stat vscode uri) as [e|[]]; [reflexivity|].
  destruct (show repo uri (js "HEAD")) as [e|s].
  - destruct (isNotTracked e) eqn:Hnt.
    + unfold try_catch, bind, call, emit, ret, events. simpl. rewrite Hnt.
      destruct (workspace_fs_readFile vscode uri); reflexivity.
    + unfold try_catch, bind, call, emit, ret, events. simpl. rewrite Hnt.
      destruct (diffWithHEAD repo uri); reflexivity.
  - unfold try_catch, bind, call, emit, ret, events. simpl.
    destruct (diffWithHEAD repo uri); reflexivity.
Qed.

(** [getChangesDiff] makes no completion request. *)
Lemma getChangesDiff_no_completion
  (this : AiCommitProvider.t) (vscode : Vscode) (filePaths : list jsstring) :
  Forall (fun ev => isCompletionRequest ev = false)
    (events (getChangesDiff this vscode filePaths)).
Proof.
  destruct (gitExtension this) as [git|] eqn:Hg.
  - destruct (repositories git) as [|repo others] eqn:Hr.
    + unfold getChangesDiff. rewrite Hg, Hr. repeat constructor.
    + rewrite (getChangesDiff_run vscode this filePaths Hg Hr).
      unfold events. simpl.
      induction filePaths as [|p l IH]; [constructor|].
      simpl. apply Forall_app. split; [|exact IH].
      rewrite diffPromise_unfold.
      pose proof (getFileDiff_no_completion vscode repo (Uri_file vscode p)) as H.
      rewrite forallb_forall in H. apply Forall_forall.
      intros ev Hin. apply negb_true_iff. now apply H.
  - unfold getChangesDiff. rewrite Hg. repeat constructor.
Qed.

(** A completion request of [generateCommitMessage] is the one for its
    argument. *)
Lemma generateCommitMessage_requests
  (this : AiCommitProvider.t) (diffContent : jsstring) :
  Forall (fun ev => match ev with
                    | ChatCompletionsCreate request =>
                        request = requestFor (promptFor diffContent)
                    | _ => True
                    end)
    (events (generateCommitMessage this diffContent)).
Proof.
  destruct (openai this) as [client|] eqn:Hc.
  - rewrite (generateCommitMessage_run this diffContent Hc).
    destruct (chat_completions_create client _); repeat constructor.
  - unfold generateCommitMessage. rewrite Hc. constructor.
Qed.

Lemma no_completion_events (l : list uiEvent) :
  Forall (fun ev => isCompletionEvent ev = false) l ->
  existsb isCompletionEvent l = false.
Proof.
  induction 1 as [|ev l Hev _ IH]; [reflexivity|].
  simpl. now rewrite Hev, IH.
Qed.

Lemma sameContent_loadChangedFiles (host : UiHost) :
  satisfies sameContent (fun ev => isCompletionEvent ev = false)
    (_loadChangedFiles host).
Proof.
  assert (Hrefl : forall a, sameContent a a) by (intros a; now split).
  assert (Htrans : forall a b c,
             sameContent a b -> sameContent b c -> sameContent a c).
  { intros a b c [H1 H2] [H3 H4]. split; congruence. }
  unfold _loadChangedFiles, _updateWebview.
  guarantee Hrefl Htrans;
    try (apply satisfies_emit; [exact Hrefl|reflexivity]).
  - apply satisfies_modify. intros this. now split.
  - apply satisfies_modify. intros this.
    destruct (_view this); now split.
Qed.

(** X19: the Regenerate message of the page does not regenerate.  It runs
    the command commit-with-ai.generateCommitMessage, which shows the view
    and reloads the list of files: no completion request is made, and the
    message and the diff on display stay what they were. *)
Theorem regenerate_does_not_generate
  (host : UiHost) (a : Activation) (this : CommitViewProvider.t) :
  let run := onMessage host a Regenerate this in
  existsb isCompletionEvent (fst run) = false
  /\ _commitMessage (fst (snd run)) = _commitMessage this
  /\ _diffContent (fst (snd run)) = _diffContent this.
Proof.
  assert (Hrefl : forall a, sameContent a a) by (intros x; now split).
  assert (Htrans : forall a b c,
             sameContent a b -> sameContent b c -> sameContent a c).
  { intros x y z [H1 H2] [H3 H4]. split; congruence. }
  assert (H : satisfies sameContent (fun ev => isCompletionEvent ev = false)
                (onMessage host a Regenerate)).
  { unfold onMessage, onDidReceiveMessage, _regenerateCommitMessage.
    rewrite executeCommand_generateCommitMessage.
    unfold generateCommitCommand, hostCommand, refreshChangedFiles.
    guarantee Hrefl Htrans;
      try (apply satisfies_emit; [exact Hrefl|reflexivity]);
      try (apply satisfies_call; [exact Hrefl|reflexivity]).
    apply sameContent_loadChangedFiles. }
  intros run. destruct (H this) as [[H1 H2] H3].
  split; [now apply no_completion_events|now split].
Qed.

(** X20: the command commit-with-ai.generateWithSelected never asks for a
    completion on a blank diff: every completion request it makes is the
    request for a diff that is not empty after trimming. *)
Theorem generateWithSelected_requests_non_blank
  (host : UiHost) (p : AiCommitProvider.t) (fileUris : option (list Uri))
  (this : CommitViewProvider.t) :
  Forall requestsNonBlank (fst (generateWithSelectedCommand host p fileUris this)).
Proof.
  assert (Hrefl : forall a : CommitViewProvider.t, True) by auto.
  assert (Htrans : forall a b c : CommitViewProvider.t, True -> True -> True)
    by auto.
  assert (H : satisfies (fun _ _ => True) requestsNonBlank
                (generateWithSelectedCommand host p fileUris)).
  { unfold generateWithSelectedCommand, updateContent, _updateWebview,
      hostCommand.
    guarantee Hrefl Htrans;
      try (apply satisfies_emit; [exact Hrefl|exact I]);
      try (apply satisfies_call; [exact Hrefl|exact I]);
      try (apply satisfies_modify; auto).
    - apply satisfies_ofProvider; [exact Hrefl|].
      eapply Forall_impl; [|apply getChangesDiff_no_completion].
      intros [] Hev; try exact I. discriminate Hev.
    - apply satisfies_ofProvider; [exact Hrefl|].
      eapply Forall_impl; [|apply generateCommitMessage_requests].
      intros [] Hev; try exact I. simpl.
      match goal with
      | Hc : _ || _ = false |- _ =>
          apply orb_false_iff in Hc; destruct Hc as [_ Hc]
      end.
      eexists. split; [exact Hev|].
      intros Ht. rewrite Ht in *. discriminate. }
  apply (H this).
Qed.

(** X21: when the view's generation is asked for files, the message and
    the diff on display change only if both calls of the provider return;
    they then become the non-empty message and the composite.  If either
    call throws, the view keeps what it showed and the error's message is
    shown to the user. *)
Theorem generate_updates_only_on_success
  (host : UiHost) (this : CommitViewProvider.t) (p : AiCommitProvider.t)
  (selectedFiles : list jsstring) :
  provider this = Some p ->
  selectedFiles <> [] ->
  let run := _generateCommitWithSelectedFiles host selectedFiles this in
  let notice error :=
    Base (ShowErrorMessage
            (js "커밋 메시지 생성 중 오류가 발생했습니다: "
             ++ errorMessageText error)) in
  match outcome (getChangesDiff p (vscode host) selectedFiles) with
  | Throw e => fst (snd run) = this /\ In (notice e) (fst run)
  | Return diffContent =>
      match outcome (generateCommitMessage p diffContent) with
      | Throw e => fst (snd run) = this /\ In (notice e) (fst run)
      | Return commitMessage =>
          fst (snd run) = fst (snd (updateContent commitMessage diffContent this))
          /\ commitMessage <> []
      end
  end.
Proof.
  intros Hp Hne run notice. subst run notice.
  unfold _generateCommitWithSelectedFiles, utry, ubind, uget, uemit, uthrow,
    ofProvider, outcome.
  cbn [fst snd]. rewrite Hp.
  destruct selectedFiles as [|f fs]; [congruence|].
  pose proof (@getChangesDiff_throws p (vscode host) (f :: fs)) as Hd.
  unfold outcome in Hd.
  destruct (getChangesDiff p (vscode host) (f :: fs)) as [l1 [d|e]];
    cbn [fst snd] in *.
  - pose proof (@generateCommitMessage_never_empty p d) as Hm.
    pose proof (@generateCommitMessage_throws p d) as Ht.
    unfold outcome in Hm, Ht.
    destruct (generateCommitMessage p d) as [l2 [m|e]]; cbn [fst snd] in *.
    + destruct (updateContent m d this) as [l3 [this' r]]; cbn [fst snd].
      split; [|now apply Hm].
      destruct r as [[]|e]; [reflexivity|].
      unfold uvalue. destruct (error_message e); reflexivity.
    + unfold uvalue. rewrite (error_message_text (Ht e eq_refl)).
      cbn [fst snd]. split; [reflexivity|].
      apply in_or_app. right. now left.
  - unfold uvalue. rewrite (error_message_text (Hd e eq_refl)).
    cbn [fst snd]. split; [reflexivity|].
    apply in_or_app. right. now left.
Qed.

Lemma generate_updates_only_on_success_witness :
  let run := _generateCommitWithSelectedFiles sampleUiHost [js "a.ts"] sampleView in
  _commitMessage (fst (snd run)) = js "🐛 fix: typo"
  /\ _diffContent (fst (snd run)) = LF ++ js "--- a.ts ---" ++ LF ++ js "+a" ++ LF.
Proof.
  intros run.
  assert (Hne : [js "a.ts"] <> []) by discriminate.
  pose proof (@generate_updates_only_on_success sampleUiHost sampleView
                sampleProvider [js "a.ts"] eq_refl Hne) as H.
  cbv zeta in H.
  assert (Hd : outcome (getChangesDiff sampleProvider (vscode sampleUiHost)
                          [js "a.ts"])
               = Return (LF ++ js "--- a.ts ---" ++ LF ++ js "+a" ++ LF))
    by (vm_compute; reflexivity).
  rewrite Hd in H.
  assert (Hm : outcome (generateCommitMessage sampleProvider
                          (LF ++ js "--- a.ts ---" ++ LF ++ js "+a" ++ LF))
               = Return (js "🐛 fix: typo"))
    by (vm_compute; reflexivity).
  rewrite Hm in H. destruct H as [H _]. subst run. rewrite H.
  unfold updateContent, ubind, umodify, _updateWebview. cbn [fst snd].
  split; reflexivity.
Defined.

(** X22: when the provider finds no repository, the view's generation
    notifies the user twice: the provider shows its own error message
    and the view shows another with the text of the error it caught.
    Nothing else happens and the view keeps its fields. *)
Theorem generate_without_repository_notifies_twice
  (host : UiHost) (this : CommitViewProvider.t) (p : AiCommitProvider.t)
  (git : GitAPI) (selectedFiles : list jsstring) :
  provider this = Some p ->
  gitExtension p = Some git ->
  repositories git = [] ->
  selectedFiles <> [] ->
  _generateCommitWithSelectedFiles host selectedFiles this
  = ([ShowInformationMessage (js "선택한 파일로 커밋 메시지를 생성 중입니다...");
      Base (ShowErrorMessage
              (js "Git 저장소를 찾을 수 없습니다. 현재 워크스페이스가 Git 저장소인지 확인하세요."));
      Base (ShowErrorMessage
              (js "커밋 메시지 생성 중 오류가 발생했습니다: "
               ++ js "No Git repository found"));
      Base (ConsoleError
              (js "Error generating commit message with selected files:")
              (ErrorInstance (js "No Git repository found") None))],
     (this, Return tt)).
Proof.
  intros Hp Hg Hr Hne.
  unfold _generateCommitWithSelectedFiles, utry, ubind, uget, uemit, uthrow,
    ofProvider.
  cbn [fst snd]. rewrite Hp.
  destruct selectedFiles as [|f fs]; [congruence|].
  unfold getChangesDiff. rewrite Hg, Hr. reflexivity.
Qed.

Lemma generate_without_repository_notifies_twice_witness :
  let p := providerWith None (Some {| repositories := [] |}) in
  let this := set_provider (CommitViewProvider.new (uriOf (js "/extension")))
                (Some p) in
  fst (snd (_generateCommitWithSelectedFiles sampleUiHost [js "a.ts"] this))
  = this.
Proof.
  intros p this.
  assert (Hne : [js "a.ts"] <> []) by discriminate.
  rewrite (@generate_without_repository_notifies_twice sampleUiHost this p
             {| repositories := [] |} [js "a.ts"] eq_refl eq_refl eq_refl Hne).
  reflexivity.
Defined.

(** X23: the view's generation has no guard against an empty diff: when
    none of the selected files produces a diff, the completion is still
    requested, for the prompt around the empty string. *)
Theorem generate_requests_completion_for_empty_diff
  (host : UiHost) (this : CommitViewProvider.t) (p : AiCommitProvider.t)
  (git : GitAPI) (repo : Repository) (others : list Repository)
  (client : OpenAI) (selectedFiles : list jsstring) :
  provider this = Some p ->
  gitExtension p = Some git ->
  repositories git = repo :: others ->
  openai p = Some client ->
  selectedFiles <> [] ->
  producedDiffs (vscode host) repo selectedFiles = [] ->
  In (Base (ChatCompletionsCreate (requestFor (promptFor []))))
    (fst (_generateCommitWithSelectedFiles host selectedFiles this)).
Proof.
  intros Hp Hg Hr Hc Hne Hnone.
  unfold _generateCommitWithSelectedFiles, utry, ubind, uget, uemit, uthrow,
    ofProvider.
  cbn [fst snd]. rewrite Hp.
  destruct selectedFiles as [|f fs]; [congruence|].
  rewrite (getChangesDiff_run (vscode host) p (f :: fs) Hg Hr), Hnone.
  cbn [fst snd map concat].
  rewrite (generateCommitMessage_run p [] Hc). cbv zeta.
  destruct (chat_completions_create client _) as [e|response]; cbn [fst snd];
    simpl; right; apply in_or_app; right; now left.
Qed.

Lemma generate_requests_completion_for_empty_diff_witness :
  In (Base (ChatCompletionsCreate (requestFor (promptFor []))))
    (fst (_generateCommitWithSelectedFiles sampleUiHost [js "gone.ts"] sampleView)).
Proof.
  assert (Hne : [js "gone.ts"] <> []) by discriminate.
  assert (Hnone : producedDiffs (vscode sampleUiHost) sampleRepo [js "gone.ts"] = [])
    by (vm_compute; reflexivity).
  exact (@generate_requests_completion_for_empty_diff sampleUiHost sampleView
           sampleProvider (gitApiOf sampleGitExports) sampleRepo []
           (clientReturning (Some (js "fix: typo"))) [js "gone.ts"]
           eq_refl eq_refl eq_refl eq_refl Hne Hnone).
Defined.

(** X24: applying a commit message writes exactly that text to the input
    box of the first repository, once, when the git extension has a
    repository, and writes nothing otherwise; it never changes the fields
    of the view. *)
Theorem applyCommitMessage_writes
  (host : UiHost) (message : jsstring) (this : CommitViewProvider.t) :
  let run := _applyCommitMessage host message this in
  fst (snd run) = this
  /\ filter isInputBoxWrite (fst run)
     = match firstRepository host with
       | Some _ => [SetInputBoxValue message]
       | None => []
       end.
Proof.
  intros run. subst run.
  unfold _applyCommitMessage, firstRepository, utry, ubind, uemit, uthrow,
    uvalue, getAPI.
  destruct (extensions_getExtension_git host) as [g|]; [|now split].
  destruct (exports_getAPI g) as [m|git]; [now split|].
  destruct (scmRepositories git); now split.
Qed.

(* ================================================================== *)
(** ** Activation *)

(** A successful activation: the git extension gave its API, and the
    provider and the view are those the constructors make. *)
Lemma activate_success (host : UiHost) (a : Activation) :
  snd (activate host) = Return (Some a) ->
  exists gitExtension git,
    extensions_getExtension_git host = Some gitExtension
    /\ exports_getAPI gitExtension = inr git
    /\ aiCommitProvider a
       = construct (newOpenAI host) (configuration_openaiApiKey host)
           (env_OPENAI_API_KEY host) (Some (gitApiOf git))
    /\ commitViewProvider a
       = set_provider (CommitViewProvider.new (extensionUri host))
           (Some (aiCommitProvider a)).
Proof.
  unfold activate, activateTry, newAiCommitProvider, registerCommand,
    registerProvider, construct, getAPI, cbind, ctry, cemit, ccall, cvalue,
    cret, cthrow, ubind, uemit, umodify, uget.
  destruct (extensions_getExtension_git host) as [g|];
    [|simpl; intros H; discriminate H].
  intros H. exists g.
  destruct (exports_getAPI g) as [m|git].
  - destruct (isActive g); [|destruct (activate_ g) as [e|[]]];
      simpl in H; try (destruct (error_message e)); discriminate H.
  - exists git.
    destruct (isActive g); [|destruct (activate_ g) as [e|[]]];
      try (simpl in H; destruct (error_message e); discriminate H);
      destruct (scmRepositories git);
      destruct (initOpenAI (newOpenAI host) (configuration_openaiApiKey host)
                  (env_OPENAI_API_KEY host));
      destruct (window_registerWebviewViewProvider host viewType) as [e|[]];
      try (simpl in H; destruct (error_message e); discriminate H);
      destruct (commands_registerCommand host
                  (js "commit-with-ai.refreshFiles")) as [e1|[]];
      try (simpl in H; discriminate H);
      destruct (commands_registerCommand host
                  (js "commit-with-ai.generateWithSelected")) as [e2|[]];
      try (simpl in H; discriminate H);
      destruct (commands_registerCommand host
                  (js "commit-with-ai.generateCommitMessage")) as [e3|[]];
      try (simpl in H; discriminate H);
      simpl in H; injection H as <-; repeat split; reflexivity.
Qed.

(** An event of a run that is written out. *)
Ltac find_event := simpl; repeat first [left; reflexivity | right].

(** The [try] block of [activate] failed with [e]. *)
Ltac caught_by e :=
  simpl; destruct (error_message e) as [typeError|text]; simpl;
  (split; [reflexivity|]);
  [reflexivity | split; [reflexivity|find_event]].

(** X25: how [activate] ends.  When the [try] block fails (no git
    extension, its activation rejected, [getAPI] throws, or the view
    provider is refused) no command is registered; [activate] then returns
    after showing the message of the error, unless the caught value is
    null or undefined: then reading [error.message] throws a TypeError and
    [activate] throws it.  When the [try] block runs to its end the view
    provider is registered and the three commands are registered in turn,
    outside any [try]: the first refused registration makes [activate]
    throw, and otherwise it returns with the view and the three commands
    registered.  None of this depends on there being a repository or an
    API key. *)
Theorem activate_outcomes
  (host : UiHost) :
  match activationError host with
  | Some error =>
      existsb isCommandRegistration (fst (activate host)) = false
      /\ match error_message error with
         | inl typeError => snd (activate host) = Throw typeError
         | inr text =>
             snd (activate host) = Return None
             /\ In (Base (ShowErrorMessage
                            (js "Failed to activate commit-with-ai extension: "
                             ++ text)))
                  (fst (activate host))
         end
  | None =>
      In (RegisterWebviewViewProvider viewType) (fst (activate host))
      /\ match registrationError host with
         | Some e => snd (activate host) = Throw e
         | None =>
             (exists a, snd (activate host) = Return (Some a))
             /\ filter isRegistration (fst (activate host))
                = [RegisterWebviewViewProvider viewType;
                   RegisterCommand (js "commit-with-ai.refreshFiles");
                   RegisterCommand (js "commit-with-ai.generateWithSelected");
                   RegisterCommand (js "commit-with-ai.generateCommitMessage")]
         end
  end.
Proof.
  unfold activationError, registrationError, activate, activateTry,
    newAiCommitProvider, registerCommand, registerProvider, construct, getAPI,
    cbind, ctry, cemit, ccall, cvalue, cret, cthrow, ubind, uemit, umodify,
    uget.
  destruct (extensions_getExtension_git host) as [g|];
    [|simpl; split; [reflexivity|]; split; [reflexivity|]; find_event].
  destruct (isActive g); [|destruct (activate_ g) as [e|[]]];
    try (caught_by e);
    (destruct (exports_getAPI g) as [m|git];
     [simpl; split; [reflexivity|]; split; [reflexivity|]; find_event|]);
    destruct (scmRepositories git);
    destruct (initOpenAI (newOpenAI host) (configuration_openaiApiKey host)
                (env_OPENAI_API_KEY host));
    destruct (window_registerWebviewViewProvider host viewType) as [e|[]];
    try (caught_by e);
    destruct (commands_registerCommand host
                (js "commit-with-ai.refreshFiles")) as [e1|[]];
    destruct (commands_registerCommand host
                (js "commit-with-ai.generateWithSelected")) as [e2|[]];
    destruct (commands_registerCommand host
                (js "commit-with-ai.generateCommitMessage")) as [e3|[]];
    simpl; (split; [find_event|]); try reflexivity;
    (split; [eexists; reflexivity|reflexivity]).
Qed.

Lemma activate_outcomes_witness :
  snd (activate hostRejectingActivation)
  = Throw (ErrorInstance
             (js "Cannot read properties of undefined (reading 'message')")
             None)
  /\ snd (activate hostWithCommands) = Throw commandExists
  /\ snd (activate hostWithGitDisabled) = Return None
  /\ snd (activate hostWithoutGit) = Return None.
Proof.
  split; [exact (proj2 (activate_outcomes hostRejectingActivation))|].
  split; [exact (proj2 (activate_outcomes hostWithCommands))|].
  split; [exact (proj1 (proj2 (activate_outcomes hostWithGitDisabled)))|].
  exact (proj1 (proj2 (activate_outcomes hostWithoutGit))).
Defined.

(** X26: after a successful activation the provider has the git API and
    the view has the provider: [getChangesDiff] can abort only for lack
    of a repository, and the view's methods never find the provider
    missing. *)
Theorem activated_provider_has_git
  (host : UiHost) (a : Activation) (filePaths : list jsstring) :
  snd (activate host) = Return (Some a) ->
  provider (commitViewProvider a) = Some (aiCommitProvider a)
  /\ exists gitExtension git,
       extensions_getExtension_git host = Some gitExtension
       /\ exports_getAPI gitExtension = inr git
       /\ AiCommitProvider.gitExtension (aiCommitProvider a)
          = Some (gitApiOf git)
       /\ ((exists e,
              outcome (getChangesDiff (aiCommitProvider a) (vscode host)
                         filePaths) = Throw e)
           <-> scmRepositories git = []).
Proof.
  intros Ha.
  destruct (activate_success host Ha) as (g & git & Hg & Hapi & Hp & Hv).
  split; [now rewrite Hv|].
  exists g, git. split; [exact Hg|]. split; [exact Hapi|].
  assert (Hgit : AiCommitProvider.gitExtension (aiCommitProvider a)
                 = Some (gitApiOf git))
    by (now rewrite Hp).
  split; [exact Hgit|].
  destruct (scmRepositories git) as [|r rs] eqn:Hrs.
  - split; [reflexivity|]. intros _.
    unfold getChangesDiff. rewrite Hgit. unfold gitApiOf. rewrite Hrs.
    eexists. reflexivity.
  - split; [|discriminate]. intros [e He].
    assert (Hrepo : repositories (gitApiOf git) = api r :: map api rs)
      by (unfold gitApiOf; now rewrite Hrs).
    rewrite (getChangesDiff_run (vscode host) (aiCommitProvider a)
               filePaths Hgit Hrepo) in He.
    discriminate He.
Qed.

Lemma activated_provider_has_git_witness :
  exists a,
    snd (activate sampleUiHost) = Return (Some a)
    /\ provider (commitViewProvider a) = Some (aiCommitProvider a).
Proof.
  eexists. split; [reflexivity|].
  exact (proj1 (@activated_provider_has_git sampleUiHost _ [] eq_refl)).
Defined.

(* ================================================================== *)
(** ** The page *)

Lemma startsWith_app (x s rest : jsstring) :
  startsWith x s = true -> startsWith (x ++ rest) s = true.
Proof.
  revert x. induction s as [|c s IH]; intros x H.
  - destruct (x ++ rest); reflexivity.
  - destruct x as [|d x]; [discriminate|].
    simpl in *. apply andb_prop in H as [H1 H2].
    now rewrite H1, (IH x H2).
Qed.

Lemma includes_left (a b s : jsstring) :
  includes a s = true -> includes (a ++ b) s = true.
Proof.
  induction a as [|c a IH]; intros H.
  - cbn [includes] in H. rewrite orb_false_r in H.
    apply (startsWith_app _ _ b) in H. simpl in H.
    destruct b; cbn [includes app]; now rewrite H.
  - cbn [includes] in H. apply orb_prop in H as [H|H].
    + apply (startsWith_app _ _ b) in H. cbn [app includes] in *.
      now rewrite H.
    + cbn [app includes]. rewrite (IH H). apply orb_true_r.
Qed.

Lemma includes_right (a b s : jsstring) :
  includes b s = true -> includes (a ++ b) s = true.
Proof.
  intros H. induction a as [|c a IH]; [exact H|].
  cbn [app includes]. rewrite IH. apply orb_true_r.
Qed.

Lemma includes_self (s rest : jsstring) : includes (s ++ rest) s = true.
Proof. apply (includes_app [] s rest). Qed.

(** The text before the message ends with the opening tag of the
    textarea, and the text after it starts with the closing tag. *)
Lemma textarea_open :
  jsq "
        <h3>AI 생성 커밋 메시지</h3>
        <div class=§message-container§>
          <textarea id=§commit-message§>"
  = jsq "
        <h3>AI 생성 커밋 메시지</h3>
        <div class=§message-container§>
          "
    ++ jsq "<textarea id=§commit-message§>".
Proof. vm_compute. reflexivity. Qed.

Lemma textarea_close :
  jsq "</textarea>
        </div>
        <div class=§button-container§>
          <button id=§apply-button§>적용</button>
          <button id=§regenerate-button§>재생성</button>
        </div>
        <h4>변경 내용 (Diff)</h4>
        <div class=§diff-container§>
          <pre>"
  = jsq "</textarea>"
    ++ jsq "
        </div>
        <div class=§button-container§>
          <button id=§apply-button§>적용</button>
          <button id=§regenerate-button§>재생성</button>
        </div>
        <h4>변경 내용 (Diff)</h4>
        <div class=§diff-container§>
          <pre>".
Proof. vm_compute. reflexivity. Qed.

Lemma includes_wrapped (a l1 l2 x r1 r2 b : jsstring) :
  includes (a ++ (l1 ++ l2) ++ x ++ (r1 ++ r2) ++ b) (l2 ++ x ++ r1) = true.
Proof.
  replace (a ++ (l1 ++ l2) ++ x ++ (r1 ++ r2) ++ b)
    with ((a ++ l1) ++ (l2 ++ x ++ r1) ++ (r2 ++ b))
    by (now rewrite <- !app_assoc).
  apply includes_app.
Qed.

Lemma includes_wrapped0 (l1 l2 x r1 r2 b : jsstring) :
  includes ((l1 ++ l2) ++ x ++ (r1 ++ r2) ++ b) (l2 ++ x ++ r1) = true.
Proof. apply (includes_wrapped []). Qed.

Lemma data_path_open : jsq "§ data-path=§" = jsq "§ " ++ jsq "data-path=§".
Proof. vm_compute. reflexivity. Qed.

Lemma data_path_close : jsq "§ " = jsq "§" ++ jsq " ".
Proof. vm_compute. reflexivity. Qed.

Lemma fileItemHtml_path (file : ChangedFile) (index : nat) :
  includes (fileItemHtml file index)
    (jsq "data-path=§" ++ path file ++ jsq "§") = true.
Proof.
  unfold fileItemHtml.
  rewrite data_path_close, data_path_open.
  apply includes_right. apply includes_right.
  apply includes_wrapped0.
Qed.

Lemma items_path (files : list ChangedFile) (file : ChangedFile) (i : nat) :
  In file files ->
  includes (concat (mapIndexed fileItemHtml files i))
    (jsq "data-path=§" ++ path file ++ jsq "§") = true.
Proof.
  revert i. induction files as [|f files IH]; intros i Hin; [destruct Hin|].
  destruct Hin as [<-|Hin]; cbn [mapIndexed concat].
  - apply includes_left, fileItemHtml_path.
  - apply includes_right. now apply IH.
Qed.

(** X27: the page embeds its data as it is, without escaping: the commit
    message is the whole content of the textarea, character for
    character, and each listed path is the value of a data-path
    attribute. *)
Theorem html_embeds_verbatim (this : CommitViewProvider.t) :
  (_commitMessage this <> [] ->
   includes (_getHtmlForWebview this)
     (jsq "<textarea id=§commit-message§>" ++ _commitMessage this
      ++ jsq "</textarea>") = true)
  /\ (forall file, In file (_changedFiles this) ->
       includes (_getHtmlForWebview this)
         (jsq "data-path=§" ++ path file ++ jsq "§") = true).
Proof.
  unfold _getHtmlForWebview. split.
  - intros Hne. destruct (_commitMessage this) as [|c m] eqn:Hm; [congruence|].
    cbn [JsString.truthy]. cbv zeta.
    rewrite textarea_open, textarea_close.
    apply includes_right. apply includes_right. apply includes_right.
    apply includes_left.
    apply includes_wrapped0.
  - intros file Hin. cbv zeta. apply includes_right. apply includes_left.
    destruct (_changedFiles this) as [|f files] eqn:Hf; [contradiction|].
    apply includes_right. apply includes_left. now apply items_path.
Qed.

Lemma html_embeds_verbatim_witness :
  let this := set_content resolvedView (js "</textarea><b>x</b>") (js "+a") in
  includes (_getHtmlForWebview this)
    (jsq "<textarea id=§commit-message§>" ++ js "</textarea><b>x</b>"
     ++ jsq "</textarea>") = true.
Proof.
  intros this.
  assert (Hne : _commitMessage this <> []) by (vm_compute; discriminate).
  exact (proj1 (html_embeds_verbatim this) Hne).
Defined.

(* ================================================================== *)
(** ** Properties of the provider over raw HTTP *)



(** X29: the raw-HTTP [generateCommitMessage] either returns the trimmed
    text of the first completion, which may be empty, or throws one fixed
    error: a missing key, a failed request and a response without that
    text are all replaced with it.  Without a key nothing is posted; with
    one, exactly one request is, carrying the key as a bearer token. *)
Theorem raw_generateCommitMessage_outcomes
  (host : RawHttp.RawHost) (diffContent : jsstring) :
  let run := RawHttp.generateCommitMessage host diffContent in
  (snd run = Throw RawHttp.generationError
   \/ exists apiKey response content,
        RawHttp.apiKeyOf host = Some apiKey
        /\ RawHttp.axios_post host (RawHttp.requestFor apiKey diffContent)
           = inr response
        /\ RawHttp.firstContent response = Some content
        /\ snd run = Return (trim content))
  /\ filter RawHttp.isPost (fst run)
     = match RawHttp.apiKeyOf host with
       | Some apiKey => [RawHttp.AxiosPost (RawHttp.requestFor apiKey diffContent)]
       | None => []
       end.
Proof.
  intros run. subst run. unfold RawHttp.generateCommitMessage.
  destruct (RawHttp.apiKeyOf host) as [k|]; [|split; [now left|reflexivity]].
  destruct (RawHttp.axios_post host _) as [e|response] eqn:Hp;
    [split; [now left|reflexivity]|].
  destruct (RawHttp.firstContent response) as [c|] eqn:Hc;
    [|split; [now left|reflexivity]].
  split; [|reflexivity]. right. now exists k, response, c.
Qed.

(* ================================================================== *)
(** ** The invariants at the sample host *)

Lemma allSelected_invariant_witness :
  let a := {| aiCommitProvider := sampleProvider;
              commitViewProvider := sampleView |} in
  allSelected (fst (snd (onMessage sampleUiHost a RefreshFiles sampleView))).
Proof.
  intros a.
  assert (Hs : allSelected sampleView) by constructor.
  destruct (@allSelected_invariant sampleUiHost a sampleView) as [_ H].
  exact (proj1 (proj2 (H Hs)) RefreshFiles).
Defined.

(** Once the page is resolved the view has it, and no message of the page
    takes it away. *)
Lemma resolveWebviewView_page
  (host : UiHost) (webviewView : WebviewView) (this : CommitViewProvider.t) :
  _view (fst (snd (resolveWebviewView host webviewView this))) <> None.
Proof.
  unfold resolveWebviewView, unawaited, ubind, utry, umodify, uret.
  set (this1 := set_view this _).
  assert (H1 : _view this1 <> None) by discriminate.
  assert (Hload : satisfies (fun x y => _view x <> None -> _view y <> None)
                    (fun _ => True) (_loadChangedFiles host)).
  { assert (Hrefl : forall x : CommitViewProvider.t,
               _view x <> None -> _view x <> None) by auto.
    assert (Htrans : forall x y z : CommitViewProvider.t,
               (_view x <> None -> _view y <> None) ->
               (_view y <> None -> _view z <> None) ->
               _view x <> None -> _view z <> None) by auto.
    unfold _loadChangedFiles, _updateWebview.
    guarantee Hrefl Htrans; try any_event Hrefl.
    - apply satisfies_modify. intros x Hx. exact Hx.
    - apply satisfies_modify. intros x Hx.
      destruct (_view x) eqn:Hv; [discriminate|congruence]. }
  pose proof (proj1 (Hload this1) H1) as H2.
  destruct (_loadChangedFiles host this1) as [l [this2 [[]|e]]];
    cbn [fst snd] in *;
    unfold _updateWebview, umodify; cbn [fst snd];
    (destruct (_view this2) eqn:Hv; [discriminate|congruence]).
Qed.

Lemma page_kept
  (host : UiHost) (a : Activation) (message : WebviewMessage)
  (this : CommitViewProvider.t) :
  _view this <> None ->
  _view (fst (snd (onMessage host a message this))) <> None.
Proof.
  set (R := fun x y : CommitViewProvider.t => _view x <> None -> _view y <> None).
  assert (Hrefl : forall x, R x x) by (unfold R; auto).
  assert (Htrans : forall x y z, R x y -> R y z -> R x z) by (unfold R; auto).
  assert (Hupd : satisfies R (fun _ => True) _updateWebview).
  { apply satisfies_modify. intros x Hx.
    destruct (_view x) eqn:Hv; [discriminate|congruence]. }
  assert (Hload : satisfies R (fun _ => True) (_loadChangedFiles host)).
  { unfold _loadChangedFiles.
    guarantee Hrefl Htrans; try any_event Hrefl; try exact Hupd.
    apply satisfies_modify. intros x Hx. exact Hx. }
  assert (Hcontent : forall m d, satisfies R (fun _ => True) (updateContent m d)).
  { intros m d. unfold updateContent.
    apply (satisfies_bind Htrans); [|intros _; exact Hupd].
    apply satisfies_modify. intros x Hx. exact Hx. }
  assert (Hprov : forall A (m : M A), satisfies R (fun _ => True) (ofProvider m)).
  { intros A m. apply satisfies_ofProvider; [exact Hrefl|].
    now apply Forall_trivial. }
  assert (Hcmd : forall command fileUris,
             satisfies R (fun _ => True)
               (executeCommand host (aiCommitProvider a) command fileUris)).
  { intros command fileUris.
    unfold executeCommand, refreshFilesCommand, generateWithSelectedCommand,
      generateCommitCommand, refreshChangedFiles, hostCommand.
    guarantee Hrefl Htrans; try any_event Hrefl;
      first [exact Hload | apply Hprov | apply Hcontent]. }
  assert (H : satisfies R (fun _ => True) (onMessage host a message)).
  { unfold onMessage, onDidReceiveMessage.
    destruct message; [| | | |apply satisfies_ret; exact Hrefl].
    - unfold _applyCommitMessage.
      guarantee Hrefl Htrans; any_event Hrefl.
    - unfold _regenerateCommitMessage.
      guarantee Hrefl Htrans; try any_event Hrefl. apply Hcmd.
    - unfold _generateCommitWithSelectedFiles.
      guarantee Hrefl Htrans; try any_event Hrefl;
        first [apply Hprov | apply Hcontent].
    - exact Hload. }
  intros Hs. now apply (H this).
Qed.

Lemma inSync_invariant_witness :
  let a := {| aiCommitProvider := sampleProvider;
              commitViewProvider := sampleView |} in
  let shown := fst (snd (resolveWebviewView sampleUiHost samplePage sampleView)) in
  let after := fst (snd (onMessage sampleUiHost a (GenerateCommit [js "a.ts"])
                           shown)) in
  inSync shown
  /\ exists page,
       _view after = Some page /\ html page = _getHtmlForWebview after.
Proof.
  intros a shown after.
  assert (Hshown : inSync shown)
    by exact (proj1 (@inSync_invariant sampleUiHost a sampleView) samplePage).
  assert (Hafter : inSync after)
    by exact (proj1 (proj2 (@inSync_invariant sampleUiHost a shown) Hshown)
                (GenerateCommit [js "a.ts"])).
  assert (Hpage : _view after <> None)
    by (apply page_kept; apply resolveWebviewView_page).
  split; [exact Hshown|].
  unfold inSync in Hafter.
  destruct (_view after) as [page|]; [|congruence].
  exists page. split; [reflexivity|exact Hafter].
Defined.
